(** * CCTP bridge scripts: encoding helpers, attestation poller, mint hand-off

    A shallow embedding of the helper functions and of the
    burn -> attest -> mint choreography of the three transfer scripts:

    - [BaseToStarknet]   : transfer-base-to-starknet.js
    - [SolanaToStarknet] : the Solana -> Starknet script
    - [BaseToEthereum]   : the Base -> Ethereum script

    JavaScript values are modelled as the scripts use them: byte buffers as
    [list byte], BigInt field elements as [Z], strings as [string], parsed
    JSON bodies as a small tree type, exceptions as an error result, and the
    network as a scripted oracle together with an event trace. *)

From Stdlib Require Import ZArith List String Ascii Bool Arith Lia.
From Stdlib Require Import DecimalString.
From Stdlib Require Import Strings.Byte.
Import ListNotations.

Local Open Scope string_scope.
Local Open Scope list_scope.

(** ** Exceptions and effectful computations *)

(** A thrown JavaScript [Error]; only its [message] is ever inspected. *)
Record exn : Type := Error { exn_message : string }.

(** Result of a pure function that may throw. *)
Inductive result (A : Type) : Type :=
| Ok (a : A)
| Throw (e : exn).
Arguments Ok {A} a.
Arguments Throw {A} e.

(** Outcome of an effectful computation run with bounded fuel: it returned,
    it threw, or it is still inside a loop ([Running]). *)
Inductive outcome (A : Type) : Type :=
| Done (a : A)
| Threw (e : exn)
| Running.
Arguments Done {A} a.
Arguments Threw {A} e.
Arguments Running {A}.

(** State-and-exception monad over a state [S]. *)
Definition Comp (S A : Type) : Type := S -> outcome A * S.

Definition ret {S A} (a : A) : Comp S A := fun s => (Done a, s).

Definition bind {S A B} (c : Comp S A) (k : A -> Comp S B) : Comp S B :=
  fun s =>
    match c s with
    | (Done a, s') => k a s'
    | (Threw e, s') => (Threw e, s')
    | (Running, s') => (Running, s')
    end.

Definition throw {S A} (e : exn) : Comp S A := fun s => (Threw e, s).

Definition lift {S A} (r : result A) : Comp S A :=
  match r with
  | Ok a => ret a
  | Throw e => throw e
  end.

(** [try { c } catch (err) { h err }] *)
Definition try_catch {S A} (c : Comp S A) (h : exn -> Comp S A) : Comp S A :=
  fun s =>
    match c s with
    | (Threw e, s') => h e s'
    | r => r
    end.

Declare Scope comp_scope.
Delimit Scope comp_scope with comp.
Notation "x <- c ;; k" := (bind c (fun x => k))
  (at level 61, c at next level, right associativity) : comp_scope.
Notation "c ;;; k" := (bind c (fun _ => k))
  (at level 61, right associativity) : comp_scope.

(** ** JavaScript string primitives used by the scripts *)

Module JS.

(** [s.startsWith(p)] *)
Fixpoint startsWith (p s : string) : bool :=
  match p with
  | EmptyString => true
  | String a p' =>
      match s with
      | EmptyString => false
      | String b s' => (a =? b)%char && startsWith p' s'
      end
  end.

(** [s.slice(n)] for [n >= 0]: drop the first [n] characters. *)
Fixpoint slice_from (n : nat) (s : string) : string :=
  match n, s with
  | O, _ => s
  | S n', String _ r => slice_from n' r
  | S _, EmptyString => EmptyString
  end.

(** A string made of [n] copies of the character [c]. *)
Fixpoint repeat_char (c : ascii) (n : nat) : string :=
  match n with
  | O => EmptyString
  | S n' => String c (repeat_char c n')
  end.

(** [s.padStart(n, c)] with a one-character filler. *)
Definition padStart (n : nat) (c : ascii) (s : string) : string :=
  repeat_char c (n - String.length s) ++ s.

Definition code (c : ascii) : Z := Z.of_N (N_of_ascii c).

Definition in_range (lo hi c : ascii) : bool :=
  ((code lo <=? code c) && (code c <=? code hi))%Z.

(** Character class [[0-9a-fA-F]]. *)
Definition isHexDigit (c : ascii) : bool :=
  in_range "0" "9" c || in_range "a" "f" c || in_range "A" "F" c.

Fixpoint all_chars (p : ascii -> bool) (s : string) : bool :=
  match s with
  | EmptyString => true
  | String c r => p c && all_chars p r
  end.

(** [/^[0-9a-fA-F]+$/.test(s)] *)
Definition test_hex_regex (s : string) : bool :=
  match s with
  | EmptyString => false
  | _ => all_chars isHexDigit s
  end.

(** [bytes.slice(start, end)] on a byte buffer, [0 <= start <= end]. *)
Definition slice {A} (start stop : nat) (l : list A) : list A :=
  firstn (stop - start) (skipn start l).

(** [bytes.slice(start)] *)
Definition slice_to_end {A} (start : nat) (l : list A) : list A :=
  skipn start l.

(** Value of one hexadecimal digit, [None] for any other character. *)
Definition unhex (c : ascii) : option Z :=
  if in_range "0" "9" c then Some (code c - 48)%Z
  else if in_range "a" "f" c then Some (code c - 87)%Z
  else if in_range "A" "F" c then Some (code c - 55)%Z
  else None.

Fixpoint hex_digits_value (acc : Z) (s : string) : option Z :=
  match s with
  | EmptyString => Some acc
  | String c r =>
      match unhex c with
      | Some d => hex_digits_value (acc * 16 + d)%Z r
      | None => None
      end
  end.

(** [BigInt(`0x${digits}`)]: a hexadecimal literal needs at least one
    digit and nothing but digits, otherwise a SyntaxError is thrown. *)
Definition BigInt_hex (digits : string) : result Z :=
  match digits with
  | EmptyString => Throw (Error "Cannot convert 0x to a BigInt")
  | _ =>
      match hex_digits_value 0 digits with
      | Some v => Ok v
      | None => Throw (Error "Cannot convert to a BigInt")
      end
  end.

(** [s || d] on strings: the empty string is falsy. *)
Definition or_default (s d : string) : string :=
  match s with
  | EmptyString => d
  | _ => s
  end.

End JS.

(** ** Bytes *)

Definition byte_to_Z (b : byte) : Z := Z.of_N (Byte.to_N b).

Definition byte_of_Z (z : Z) : byte :=
  match Byte.of_N (Z.to_N (z mod 256)) with
  | Some b => b
  | None => x00
  end.

(** ** Node's [Buffer] codecs *)

Module NodeBuffer.

Definition hexAlphabet : string := "0123456789abcdef".

Definition hexChar (n : Z) : ascii :=
  match String.get (Z.to_nat n) hexAlphabet with
  | Some c => c
  | None => "0"%char
  end.

(** [buf.toString("hex")]: two lowercase digits per byte. *)
Fixpoint toString_hex (buf : list byte) : string :=
  match buf with
  | [] => EmptyString
  | b :: r =>
      String (hexChar (byte_to_Z b / 16))
        (String (hexChar (byte_to_Z b mod 16)) (toString_hex r))
  end.

(** [Buffer.from(s, "hex")]: whole digit pairs are decoded up to the first
    pair that is not hexadecimal; a trailing single digit is dropped. *)
Fixpoint from_hex (s : string) : list byte :=
  match s with
  | String a (String b r) =>
      match JS.unhex a, JS.unhex b with
      | Some x, Some y => byte_of_Z (x * 16 + y) :: from_hex r
      | _, _ => []
      end
  | _ => []
  end.

Definition base64Alphabet : string :=
  "ABCDEFGHIJKLMNOPQRSTUVWXYZabcdefghijklmnopqrstuvwxyz0123456789+/".

Definition base64Char (n : Z) : ascii :=
  match String.get (Z.to_nat n) base64Alphabet with
  | Some c => c
  | None => "A"%char
  end.

(** [buf.toString("base64")]: three bytes give four characters, the last
    group is padded with [=]. *)
Fixpoint toString_base64 (buf : list byte) : string :=
  match buf with
  | [] => EmptyString
  | [a] =>
      let x := byte_to_Z a in
      String (base64Char (x / 4))
        (String (base64Char (x mod 4 * 16)) "==")
  | [a; b] =>
      let x := byte_to_Z a in
      let y := byte_to_Z b in
      String (base64Char (x / 4))
        (String (base64Char (x mod 4 * 16 + y / 16))
           (String (base64Char (y mod 16 * 4)) "="))
  | a :: b :: c :: r =>
      let x := byte_to_Z a in
      let y := byte_to_Z b in
      let z := byte_to_Z c in
      String (base64Char (x / 4))
        (String (base64Char (x mod 4 * 16 + y / 16))
           (String (base64Char (y mod 16 * 4 + z / 64))
              (String (base64Char (z mod 64)) (toString_base64 r))))
  end.

(** Value of one base64 character; the URL-safe [-] and [_] are accepted
    as well. *)
Definition unbase64 (c : ascii) : option Z :=
  if JS.in_range "A" "Z" c then Some (JS.code c - 65)%Z
  else if JS.in_range "a" "z" c then Some (JS.code c - 71)%Z
  else if JS.in_range "0" "9" c then Some (JS.code c + 4)%Z
  else if (c =? "+")%char || (c =? "-")%char then Some 62%Z
  else if (c =? "/")%char || (c =? "_")%char then Some 63%Z
  else None.

(** The sextets of a base64 text: characters outside the alphabet are
    skipped and decoding stops at the first [=]. *)
Fixpoint sextets (s : string) : list Z :=
  match s with
  | EmptyString => []
  | String c r =>
      if (c =? "=")%char then []
      else match unbase64 c with
           | Some v => v :: sextets r
           | None => sextets r
           end
  end.

(** Four sextets give three bytes; a shorter final group gives the bytes
    it fully determines. *)
Fixpoint bytes_of_sextets (l : list Z) : list byte :=
  match l with
  | s0 :: s1 :: s2 :: s3 :: r =>
      byte_of_Z (s0 * 4 + s1 / 16)
      :: byte_of_Z (s1 mod 16 * 16 + s2 / 4)
      :: byte_of_Z (s2 mod 4 * 64 + s3)
      :: bytes_of_sextets r
  | [s0; s1; s2] =>
      [byte_of_Z (s0 * 4 + s1 / 16); byte_of_Z (s1 mod 16 * 16 + s2 / 4)]
  | [s0; s1] => [byte_of_Z (s0 * 4 + s1 / 16)]
  | _ => []
  end%Z.

(** [Buffer.from(s, "base64")] *)
Definition from_base64 (s : string) : list byte :=
  bytes_of_sextets (sextets s).

End NodeBuffer.

(** ** viem's [hexToBytes] *)

Module Viem.

Fixpoint parse_pairs (s : string) : result (list byte) :=
  match s with
  | EmptyString => Ok []
  | String a (String b r) =>
      match JS.unhex a, JS.unhex b with
      | Some x, Some y =>
          match parse_pairs r with
          | Ok bs => Ok (byte_of_Z (x * 16 + y) :: bs)
          | Throw e => Throw e
          end
      | _, _ => Throw (Error "Invalid byte sequence")
      end
  | String _ EmptyString => Throw (Error "Invalid byte sequence")
  end.

(** [hexToBytes(hex)]: the first two characters are taken to be the [0x]
    prefix and cut off, an odd number of digits is completed with a
    leading [0], and a character that is no hex digit is an error. *)
Definition hexToBytes (hex : string) : result (list byte) :=
  let hexString := JS.slice_from 2 hex in
  let hexString :=
    if Nat.odd (String.length hexString) then String "0" hexString
    else hexString in
  parse_pairs hexString.

End Viem.

(** ** Parsed JSON values *)

#[local] Set Warnings "-register-all".
Inductive json : Type :=
| JUndefined
| JNull
| JBool (b : bool)
| JNum (z : Z)
| JStr (s : string)
| JArr (items : list json)
| JObj (fields : list (string * json)).

Fixpoint lookup (name : string) (fields : list (string * json)) : json :=
  match fields with
  | [] => JUndefined
  | (k, v) :: r => if (k =? name)%string then v else lookup name r
  end.

Definition nullish (v : json) : bool :=
  match v with
  | JUndefined | JNull => true
  | _ => false
  end.

(** Property [v.name] of a value that is neither null nor undefined; only
    objects carry the names the scripts ask for. *)
Definition member (name : string) (v : json) : json :=
  match v with
  | JObj fields => lookup name fields
  | _ => JUndefined
  end.

(** Element [v[0]] of a value that is neither null nor undefined. *)
Definition item0 (v : json) : json :=
  match v with
  | JArr (x :: _) => x
  | JObj fields => lookup "0" fields
  | JStr (String c _) => JStr (String c EmptyString)
  | _ => JUndefined
  end.

(** Optional chaining [v?.p]. *)
Definition opt (access : json -> json) (v : json) : json :=
  if nullish v then JUndefined else access v.

(** Plain access [v.p]: a TypeError on null and undefined. *)
Definition get (access : json -> json) (v : json) : result json :=
  if nullish v
  then Throw (Error "Cannot read properties of undefined")
  else Ok (access v).

(** [v === s] for a string literal [s]. *)
Definition strict_eq_string (v : json) (s : string) : bool :=
  match v with
  | JStr t => (t =? s)%string
  | _ => false
  end.

(** ** The outside world: console, timers, Iris, chain clients *)

(** The data of a transaction: the function and the arguments that
    [encodeFunctionData] has accepted; the ABI bytes themselves are viem's
    and stay symbolic. *)
Record CallData : Type := { functionName : string; args : list json }.

Inductive Event : Type :=
| EvLog (line : string)
| EvGet (url : string)
| EvSleep (ms : Z)
| EvSend (chain : string) (to : string) (data : CallData).

(** Everything observable a run has done so far, and how many HTTP requests
    and transactions it has issued. *)
Record World : Type := { trace : list Event; gets : nat; sends : nat }.

(** The scripted environment: the body ([response.data]) or the rejection of
    the [k]-th HTTP GET, and the hash or the rejection of the [k]-th
    submitted transaction. *)
Record Net : Type := {
  http_get : nat -> result json;
  send_tx : nat -> result string
}.

Definition emit (e : Event) (w : World) : World :=
  {| trace := trace w ++ [e]; gets := gets w; sends := sends w |}.

(** [console.log(line)] *)
Definition console_log (line : string) : Comp World unit :=
  fun w => (Done tt, emit (EvLog line) w).

(** [await new Promise((resolve) => setTimeout(resolve, ms))] *)
Definition sleep (ms : Z) : Comp World unit :=
  fun w => (Done tt, emit (EvSleep ms) w).

(** [await axios.get(url)], giving [response.data]. *)
Definition axios_get (net : Net) (url : string) : Comp World json :=
  fun w =>
    lift (http_get net (gets w))
      {| trace := trace w ++ [EvGet url]; gets := S (gets w); sends := sends w |}.

(** [await client.sendTransaction({ to, data })] *)
Definition sendTransaction (net : Net) (chain to : string) (data : CallData)
    : Comp World string :=
  fun w =>
    lift (send_tx net (sends w))
      {| trace := trace w ++ [EvSend chain to data];
         gets := gets w; sends := S (sends w) |}.

(** ** The attestation poller *)

(** [retrieveAttestation] is the same function in the three scripts up to
    the number in its first log line and the source domain in the URL. *)
Module Poller.
Section Poller.

Variable net : Net.
Variable stepLine : string.
Variable domain : string.

Definition url_of (srcTxHash : string) : string :=
  "https://iris-api-sandbox.circle.com/v2/messages/" ++ domain
  ++ "?transactionHash=" ++ srcTxHash.

(** [response.data?.messages?.[0]] *)
Definition first_message (data : json) : json :=
  opt item0 (opt (member "messages") data).

(** One pass through the body of [while (true)] up to the end of the
    [try]/[catch]: [Some m] stands for [return m]. *)
Definition attempt (url : string) : Comp World (option json) :=
  try_catch
    (data <- axios_get net url ;;
     if strict_eq_string (opt (member "status") (first_message data)) "complete"
     then
       console_log "   Attestation ready." ;;;
       messages <- lift (get (member "messages") data) ;;
       m <- lift (get item0 messages) ;;
       ret (Some m)
     else
       console_log "   Not ready yet, retrying in 5s..." ;;;
       ret None)%comp
    (fun err =>
       console_log ("   Iris polling error: " ++ exn_message err
                    ++ " (retrying in 5s)...") ;;;
       ret None)%comp.

(** [while (true) { ... }], at most [fuel] passes. *)
Fixpoint poll (fuel : nat) (url : string) : Comp World json :=
  match fuel with
  | O => fun w => (Running, w)
  | S fuel' =>
      (r <- attempt url ;;
       match r with
       | Some m => ret m
       | None => sleep 5000 ;;; poll fuel' url
       end)%comp
  end.

Definition retrieveAttestation (fuel : nat) (srcTxHash : string)
    : Comp World json :=
  (console_log stepLine ;;;
   poll fuel (url_of srcTxHash))%comp.

End Poller.
End Poller.

(** ** Byte-array calldata (both Starknet-bound scripts) *)

(** The arguments [bytesToFelt] has been called with, oldest first. *)
Definition CallLog : Type := list (list byte).

(** A computation over the call log run inside another computation: it
    starts from an empty log, and the log is dropped at the end. *)
Definition without_log {S A : Type} (c : Comp CallLog A) : Comp S A :=
  fun s => (fst (c []), s).

(** Decimal text of a number, as a template string prints it. *)
Definition string_of_nat (n : nat) : string :=
  NilZero.string_of_uint (Nat.to_uint n).

Definition string_of_Z (z : Z) : string :=
  NilZero.string_of_int (Z.to_int z).

(** Is a value truthy. *)
Definition truthy (v : json) : bool :=
  match v with
  | JUndefined | JNull => false
  | JBool b => b
  | JNum z => negb (z =? 0)%Z
  | JStr s => negb (s =? "")%string
  | JArr _ | JObj _ => true
  end.

(** ** Properties of object literals *)

(** The names every object inherits from [Object.prototype]; each of them
    holds a function or an object, hence a truthy value. *)
Definition objectPrototypeMembers : list string :=
  ["constructor"; "__defineGetter__"; "__defineSetter__"; "hasOwnProperty";
   "__lookupGetter__"; "__lookupSetter__"; "isPrototypeOf";
   "propertyIsEnumerable"; "toString"; "valueOf"; "__proto__";
   "toLocaleString"].

(** What [obj[name]] finds on an object literal whose own values are of
    type [K]. *)
Inductive property (K : Type) : Type :=
| Own (k : K)
| Inherited (name : string)
| Absent.
Arguments Own {K} k.
Arguments Inherited {K} name.
Arguments Absent {K}.

Fixpoint own_property {K : Type} (obj : list (string * K)) (name : string)
    : option K :=
  match obj with
  | [] => None
  | (key, k) :: more =>
      if (key =? name)%string then Some k else own_property more name
  end.

Definition getProperty {K : Type} (obj : list (string * K)) (name : string)
    : property K :=
  match own_property obj name with
  | Some k => Own k
  | None =>
      if existsb (String.eqb name) objectPrototypeMembers
      then Inherited name
      else Absent
  end.

(** [a ?? b] *)
Definition coalesce (a b : json) : json := if nullish a then b else a.

(** ** viem's [encodeFunctionData] *)

(** [encodeFunctionData({ abi, functionName, args })] checks every argument
    against the type its ABI input declares, in order, and throws at the
    first one that does not fit; the bytes it builds from accepted
    arguments stay symbolic (see [CallData]). Each script gives an ABI with
    the one function it calls and as many arguments as inputs, so an
    argument is kept here together with the type of its input. *)
Module ViemAbi.

Inductive AbiArg : Type :=
| ArgAddress (value : string)
| ArgUint (bits : Z) (value : Z)
| ArgBytesN (n : nat) (value : string)
| ArgBytes (value : json).

Definition arg_value (a : AbiArg) : json :=
  match a with
  | ArgAddress value => JStr value
  | ArgUint _ value => JNum value
  | ArgBytesN _ value => JStr value
  | ArgBytes value => value
  end.

(** [isAddress(address)]: the pattern /^0x[a-fA-F0-9]{40}$/. For an
    address of mixed case viem also compares its EIP-55 checksum, a
    keccak256 digest that is not computed here: the only addresses the
    scripts encode are their contract constants, written in checksum
    form. *)
Definition isAddress (address : string) : bool :=
  JS.startsWith "0x" address
  && (String.length address =? 42)%nat
  && JS.all_chars JS.isHexDigit (JS.slice_from 2 address).

(** [size(value)]: for text that starts with 0x,
    [Math.ceil((value.length - 2) / 2)]; otherwise [value.length]. *)
Definition size (value : string) : nat :=
  if JS.startsWith "0x" value
  then (String.length value - 1) / 2
  else String.length value.

(** [hex_.replace('0x', '')]: the first occurrence is dropped. *)
Fixpoint replace_0x (s : string) : string :=
  match s with
  | EmptyString => EmptyString
  | String c rest =>
      if JS.startsWith "0x" s then JS.slice_from 2 s
      else String c (replace_0x rest)
  end.

(** [padHex(hex_, { size })] pads, or throws when the digits are more than
    [size] bytes; only the check is kept. *)
Definition padHex (hex_ : string) (size : nat) : result unit :=
  let hex := replace_0x hex_ in
  if (size * 2 <? String.length hex)%nat
  then Throw (Error ("Hex size ("
                     ++ string_of_nat ((String.length hex + 1) / 2)
                     ++ ") exceeds padding size ("
                     ++ string_of_nat size ++ ")."))
  else Ok tt.

Definition encodeAddress (value : string) : result unit :=
  if isAddress value then Ok tt
  else Throw (Error ("Address " ++ value ++ " is invalid.")).

(** [encodeNumber] for an unsigned type of [bits] bits. *)
Definition encodeNumber (bits value : Z) : result unit :=
  if ((value >? 2 ^ bits - 1) || (value <? 0))%Z
  then Throw (Error ("Number " ++ string_of_Z value ++ " is not in safe "
                     ++ string_of_Z bits
                     ++ "-bit unsigned integer range"))
  else Ok tt.

(** [encodeBytes] for a type bytesN: the size must be N, then the value is
    padded to 32 bytes. *)
Definition encodeBytesN (n : nat) (value : string) : result unit :=
  if (size value =? n)%nat then padHex value 32
  else Throw (Error ("Size of bytes " ++ value ++ " (bytes"
                     ++ string_of_nat (size value)
                     ++ ") does not match expected size (bytes"
                     ++ string_of_nat n ++ ").")).

(** [encodeBytes] for the type bytes: a size that is no multiple of 32 is
    padded up to [Math.ceil((value.length - 2) / 2 / 32) * 32] bytes.
    Nothing checks that the value is a string, so [undefined] and [null]
    fail at [value.length] and any other value at [replace]. *)
Definition encodeBytes (value : json) : result unit :=
  match value with
  | JStr s =>
      if (size s mod 32 =? 0)%nat then Ok tt
      else padHex s ((String.length s + 61) / 64 * 32)
  | JUndefined =>
      Throw (Error "Cannot read properties of undefined (reading 'length')")
  | JNull =>
      Throw (Error "Cannot read properties of null (reading 'length')")
  | JArr items =>
      if (List.length items mod 32 =? 0)%nat
      then Throw (Error "x.replace is not a function")
      else Throw (Error "hex_.replace is not a function")
  | _ => Throw (Error "hex_.replace is not a function")
  end.

Definition encodeArg (a : AbiArg) : result unit :=
  match a with
  | ArgAddress value => encodeAddress value
  | ArgUint bits value => encodeNumber bits value
  | ArgBytesN n value => encodeBytesN n value
  | ArgBytes value => encodeBytes value
  end.

Fixpoint encodeAbiParameters (values : list AbiArg) : result unit :=
  match values with
  | [] => Ok tt
  | a :: more =>
      match encodeArg a with
      | Ok _ => encodeAbiParameters more
      | Throw e => Throw e
      end
  end.

Definition encodeFunctionData (name : string) (values : list AbiArg)
    : result CallData :=
  match encodeAbiParameters values with
  | Ok _ => Ok {| functionName := name; args := map arg_value values |}
  | Throw e => Throw e
  end.

End ViemAbi.

(** ** Solana's [PublicKey] *)

Module SolanaWeb3.

(** [new PublicKey(buffer)]: the bytes are read as one big-endian number,
    which must fit in 32 bytes. *)
Definition PublicKey_of_buffer (buf : list byte) : result Z :=
  let bn := fold_left (fun acc b => acc * 256 + byte_to_Z b)%Z buf 0%Z in
  if (bn <? 2 ^ 256)%Z then Ok bn
  else Throw (Error "Invalid public key input").

End SolanaWeb3.

(** ** Solana RPC queries *)

(** What a run of [getRemoteTokenMessengerAccount] leaves behind: log
    lines and the endpoints it has queried. *)
Inductive RpcEvent : Type :=
| RpcLog (line : string)
| RpcQuery (endpoint : string) (filters : list (nat * list byte)).

Definition rpc_log (line : string) : Comp (list RpcEvent) unit :=
  fun t => (Done tt, t ++ [RpcLog line]).

(** [await conn.getProgramAccounts(programId, { filters })] *)
Definition rpc_getProgramAccounts
    (answer : string -> list (nat * list byte)
              -> result (list (string * list byte)))
    (conn : string) (filters : list (nat * list byte))
    : Comp (list RpcEvent) (list (string * list byte)) :=
  fun t => lift (answer conn filters) (t ++ [RpcQuery conn filters]).

Module BaseToStarknet.

(** [toBytes32]: strip an optional [0x], left-pad to 64 digits. *)
Definition toBytes32 (hex : string) : string :=
  let clean := if JS.startsWith "0x" hex then JS.slice_from 2 hex else hex in
  "0x" ++ JS.padStart 64 "0" clean.

(** [decodeEnvelope], the copy that hands hex input to viem. *)
Definition decodeEnvelope (str : string) : result (list byte) :=
  let isHex := JS.startsWith "0x" str || JS.test_hex_regex str in
  if isHex then Viem.hexToBytes str
  else Ok (NodeBuffer.from_base64 str).

(** [bytesToFelt]: turn a chunk of at most 31 bytes into a felt. *)
Definition bytesToFelt (chunk : list byte) : result Z :=
  if (31 <? List.length chunk)%nat
  then Throw (Error "Chunk too large for bytes31")
  else
    let hex := NodeBuffer.toString_hex chunk in
    JS.BigInt_hex (JS.or_default hex "0").

(** A call of [bytesToFelt] made from [bytesToByteArrayCalldata]; the
    argument is recorded before the callee runs. *)
Definition call_bytesToFelt (chunk : list byte) : Comp CallLog Z :=
  fun log => lift (bytesToFelt chunk) (log ++ [chunk]).

(** [for (let i = 0; i < fullChunks; i += 1) dataFelts.push(...)], with
    [remaining = fullChunks - i] iterations still to run. *)
Fixpoint for_chunks (remaining i : nat) (bytes : list byte)
    (dataFelts : list Z) : Comp CallLog (list Z) :=
  match remaining with
  | O => ret dataFelts
  | S remaining' =>
      (felt <- call_bytesToFelt (JS.slice (i * 31) ((i + 1) * 31) bytes) ;;
       for_chunks remaining' (i + 1) bytes (dataFelts ++ [felt]))%comp
  end.

(** [bytesToByteArrayCalldata]: the layout
    (len, data[], pending_word, pending_len). [Math.floor(bytes.length / 31)]
    is the integer quotient. *)
Definition bytesToByteArrayCalldata (bytes : list byte)
    : Comp CallLog (list Z) :=
  let fullChunks := List.length bytes / 31 in
  (dataFelts <- for_chunks fullChunks 0 bytes [] ;;
   let pending := JS.slice_to_end (fullChunks * 31) bytes in
   pendingFelt <- call_bytesToFelt pending ;;
   ret ([Z.of_nat (List.length dataFelts)] ++ dataFelts
        ++ [pendingFelt; Z.of_nat (List.length pending)]))%comp.

(** [retrieveAttestation] with this script's step number and source domain
    (Base, 6). *)
Definition retrieveAttestation (net : Net) (fuel : nat) (srcTxHash : string)
    : Comp World json :=
  Poller.retrieveAttestation net
    "3) Waiting for attestation from Circle Iris..." "6" fuel srcTxHash.

(** *** The rest of transfer-base-to-starknet.js: contracts, parameters and
    the four stages *)

Definition BASE_SEPOLIA_USDC : string :=
  "0x036CbD53842c5426634e7929541eC2318f3dCF7e".
Definition TOKEN_MESSENGER_V2 : string :=
  "0x8FE6B999Dc680CcFDD5Bf7EB0974218be2542DAA".
Definition STARKNET_MESSAGE_TRANSMITTER : string :=
  "0x04db7926C64f1f32a840F3Fa95cB551f3801a3600Bae87aF87807A54DCE12Fe8".

Definition STARKNET_DOMAIN : Z := 25.

Definition AMOUNT : Z := 10000.
Definition maxFee : Z := 500.
Definition minFinalityThreshold : Z := 1000.

Definition DESTINATION_CALLER_BYTES32 : string :=
  "0x0000000000000000000000000000000000000000000000000000000000000000".

(** [decodeEnvelope(v)] for a value taken out of the Iris reply: anything
    but a string has no [startsWith] to call. *)
Definition decodeEnvelope_of (decode : string -> result (list byte))
    (v : json) : result (list byte) :=
  match v with
  | JStr str => decode str
  | JUndefined | JNull =>
      Throw (Error "Cannot read properties of undefined")
  | _ => Throw (Error "str.startsWith is not a function")
  end.

(** [mintOnStarknet] is the same text in both Starknet-bound scripts up to
    its first log line, the [decodeEnvelope] in scope and where the
    transmitter address comes from. [starknetAccount.execute([call])] is
    recorded as a submission to [call.contractAddress] with the entry point
    as function name and the calldata felts as arguments, and answers with
    [tx.transaction_hash]; [provider.waitForTransaction] resolves or
    rejects as [waitForTransaction] says. *)
Section Mint.

Variable net : Net.
Variable waitForTransaction : string -> result unit.
Variable decode : string -> result (list byte).
Variable stepLine : string.
Variable transmitter : string.

Definition mintOnStarknet_with (attestation : json) : Comp World unit :=
  (console_log stepLine ;;;
   message <- lift (get (member "message") attestation) ;;
   messageBytes <- lift (decodeEnvelope_of decode message) ;;
   signature <- lift (get (member "attestation") attestation) ;;
   attestationBytes <- lift (decodeEnvelope_of decode signature) ;;
   console_log ("   message bytes=" ++ string_of_nat (List.length messageBytes)
                ++ ", attestation bytes="
                ++ string_of_nat (List.length attestationBytes)) ;;;
   messageFelts <- without_log (bytesToByteArrayCalldata messageBytes) ;;
   attestationFelts <- without_log (bytesToByteArrayCalldata attestationBytes) ;;
   let calldata := messageFelts ++ attestationFelts in
   tx <- sendTransaction net "starknetSepolia" transmitter
           {| functionName := "receive_message";
              args := map JNum calldata |} ;;
   console_log ("   Starknet tx hash: " ++ tx) ;;;
   lift (waitForTransaction tx) ;;;
   console_log "   Starknet mint confirmed.")%comp.

End Mint.

Section Run.

Variable net : Net.
Variable waitForTransaction : string -> result unit.
(** [account.address] and [DESTINATION_STARKNET_ADDRESS], fixed when the
    script loads. *)
Variable account_address : string.
Variable DESTINATION_STARKNET_ADDRESS : string.

Definition DESTINATION_RECIPIENT_BYTES32 : string :=
  toBytes32 DESTINATION_STARKNET_ADDRESS.

Definition approveUSDC : Comp World unit :=
  (console_log "1) Approving USDC on Base Sepolia..." ;;;
   data <- lift (ViemAbi.encodeFunctionData "approve"
                   [ViemAbi.ArgAddress TOKEN_MESSENGER_V2;
                    ViemAbi.ArgUint 256 10000000000]) ;;
   approveTx <- sendTransaction net "baseSepolia" BASE_SEPOLIA_USDC data ;;
   console_log ("   USDC approve tx: " ++ approveTx))%comp.

Definition burnUSDC : Comp World string :=
  (console_log "2) Burning USDC on Base Sepolia (depositForBurn)..." ;;;
   data <- lift (ViemAbi.encodeFunctionData "depositForBurn"
                   [ViemAbi.ArgUint 256 AMOUNT;
                    ViemAbi.ArgUint 32 STARKNET_DOMAIN;
                    ViemAbi.ArgBytesN 32 DESTINATION_RECIPIENT_BYTES32;
                    ViemAbi.ArgAddress BASE_SEPOLIA_USDC;
                    ViemAbi.ArgBytesN 32 DESTINATION_CALLER_BYTES32;
                    ViemAbi.ArgUint 256 maxFee;
                    ViemAbi.ArgUint 32 minFinalityThreshold]) ;;
   burnTx <- sendTransaction net "baseSepolia" TOKEN_MESSENGER_V2 data ;;
   console_log ("   Burn tx: " ++ burnTx) ;;;
   ret burnTx)%comp.

Definition mintOnStarknet (attestation : json) : Comp World unit :=
  mintOnStarknet_with net waitForTransaction decodeEnvelope
    "4) Minting USDC on Starknet Sepolia (receive_message)..."
    STARKNET_MESSAGE_TRANSMITTER attestation.

Definition main (fuel : nat) : Comp World unit :=
  (console_log ("Source (Base Sepolia) sender: " ++ account_address) ;;;
   console_log ("Destination (Starknet Sepolia) recipient: "
                ++ DESTINATION_STARKNET_ADDRESS) ;;;
   approveUSDC ;;;
   burnTx <- burnUSDC ;;
   attestation <- retrieveAttestation net fuel burnTx ;;
   mintOnStarknet attestation ;;;
   console_log
     "✅ Transfer complete: 0.01 USDC bridged Base → Starknet (Sepolia)")%comp.

End Run.

End BaseToStarknet.

Module SolanaToStarknet.

(** [decodeEnvelope], the copy that strips [0x] itself and decodes with
    [Buffer.from(_, "hex")]. *)
Definition decodeEnvelope (str : string) : result (list byte) :=
  let isHex := JS.startsWith "0x" str || JS.test_hex_regex str in
  if isHex
  then Ok (NodeBuffer.from_hex
             (if JS.startsWith "0x" str then JS.slice_from 2 str else str))
  else Ok (NodeBuffer.from_base64 str).

(** [bytesToFelt] and [bytesToByteArrayCalldata] are the same text as in
    transfer-base-to-starknet.js. *)
Definition bytesToFelt : list byte -> result Z :=
  BaseToStarknet.bytesToFelt.

Definition bytesToByteArrayCalldata : list byte -> Comp CallLog (list Z) :=
  BaseToStarknet.bytesToByteArrayCalldata.

(** [retrieveAttestation] with this script's step number and source domain
    (Solana, 5). *)
Definition retrieveAttestation (net : Net) (fuel : nat) (srcTxHash : string)
    : Comp World json :=
  Poller.retrieveAttestation net
    "2) Waiting for attestation from Circle Iris..." "5" fuel srcTxHash.

(** *** More of the Solana script *)

(** [u32ToLeBuffer]: [writeUInt32LE] refuses a value outside 0 .. 2^32 - 1
    with a RangeError. *)
Definition u32ToLeBuffer (num : Z) : result (list byte) :=
  if ((num <? 0) || (4294967295 <? num))%Z
  then Throw (Error "ERR_OUT_OF_RANGE")
  else Ok [byte_of_Z num; byte_of_Z (num / 256);
           byte_of_Z (num / 65536); byte_of_Z (num / 16777216)].

(** [starknetAddressToBase58Pubkey]: the digits, left-padded to 64, are
    decoded as hex and handed to [new PublicKey]. *)
Definition starknetAddressToBase58Pubkey (addr : string) : result Z :=
  let hex := if JS.startsWith "0x" addr then JS.slice_from 2 addr else addr in
  let padded := JS.padStart 64 "0" hex in
  SolanaWeb3.PublicKey_of_buffer (NodeBuffer.from_hex padded).

(** [mintOnStarknet], with this script's [decodeEnvelope] and step number;
    the transmitter address can be overridden from the environment. *)
Definition mintOnStarknet (net : Net) (waitForTransaction : string -> result unit)
    (STARKNET_MESSAGE_TRANSMITTER : string) (attestation : json)
    : Comp World unit :=
  BaseToStarknet.mintOnStarknet_with net waitForTransaction decodeEnvelope
    "3) Minting USDC on Starknet Sepolia (receive_message)..."
    STARKNET_MESSAGE_TRANSMITTER attestation.

(** [fetchIdlWithFallback]: [fetchIdl] stands for
    [anchor.Program.fetchIdl(programId, provider)] and [programId] for the
    program's base58 name. *)
Definition fetchIdlWithFallback (net : Net) (fetchIdl : string -> result json)
    (programId url : string) : Comp World json :=
  let name := programId in
  (found <- try_catch
              (idl <- lift (fetchIdl programId) ;;
               if truthy idl then ret (Some idl)
               else
                 console_log ("   On-chain IDL for " ++ name
                              ++ " not found; falling back to " ++ url) ;;;
                 ret None)
              (fun err =>
                 console_log ("   Failed to fetch on-chain IDL for " ++ name
                              ++ ": " ++ exn_message err
                              ++ "; falling back to " ++ url) ;;;
                 ret None) ;;
   match found with
   | Some idl => ret idl
   | None =>
       data <- axios_get net url ;;
       if truthy data then ret data
       else throw (Error ("Unable to load IDL for " ++ name
                          ++ " from " ++ url))
   end)%comp.

Definition DEVNET : string := "https://api.devnet.solana.com".

(** The two [memcmp] filters of [getRemoteTokenMessengerAccount]; the
    base58 text of the bytes is left to the client library. *)
Definition remote_messenger_filters (discriminator domainBytes : list byte)
    : list (nat * list byte) :=
  [(0, discriminator); (8, domainBytes)].

Section RemoteTokenMessenger.

(** [connection.rpcEndpoint], the account discriminator, what
    [conn.getProgramAccounts] answers on an endpoint, and
    [coder.decode("RemoteTokenMessenger", data)]. *)
Variable SOLANA_RPC : string.
Variable remoteTokenMessengerDiscriminator : list byte.
Variable getProgramAccounts :
  string -> list (nat * list byte) -> result (list (string * list byte)).
Variable coder_decode : list byte -> result json.

(** One pass of [for (const conn of candidates)]: [Some r] stands for
    [return r]. *)
Definition try_candidate (filters : list (nat * list byte)) (conn : string)
    : Comp (list RpcEvent) (option (string * json)) :=
  try_catch
    (accounts <- rpc_getProgramAccounts getProgramAccounts conn filters ;;
     match accounts with
     | (pubkey, data) :: _ =>
         decoded <- lift (coder_decode data) ;;
         ret (Some (pubkey, decoded))
     | [] => ret None
     end)%comp
    (fun err =>
       rpc_log ("   getProgramAccounts failed on " ++ conn ++ ": "
                ++ exn_message err) ;;;
       ret None)%comp.

Fixpoint for_candidates (filters : list (nat * list byte))
    (candidates : list string)
    : Comp (list RpcEvent) (option (string * json)) :=
  match candidates with
  | [] => ret None
  | conn :: more =>
      (r <- try_candidate filters conn ;;
       match r with
       | Some found => ret (Some found)
       | None => for_candidates filters more
       end)%comp
  end.

Definition getRemoteTokenMessengerAccount (domain : Z)
    : Comp (list RpcEvent) (string * json) :=
  (domainBytes <- lift (u32ToLeBuffer domain) ;;
   let filters :=
     remote_messenger_filters remoteTokenMessengerDiscriminator domainBytes in
   let fallback := if (SOLANA_RPC =? DEVNET)%string then [] else [DEVNET] in
   let candidates := SOLANA_RPC :: fallback in
   r <- for_candidates filters candidates ;;
   match r with
   | Some found => ret found
   | None =>
       throw (Error ("RemoteTokenMessenger account for domain "
                     ++ string_of_Z domain
                     ++ " not found. Ensure destination domain is registered on Solana."))
   end)%comp.

End RemoteTokenMessenger.

(** *** The account list of the burn instruction, as
    [depositForBurnOnSolana] builds it from the IDL *)

(** One entry of [ixDef.accounts]; a flag the IDL leaves out is
    [JUndefined]. *)
Record IdlAccount : Type := {
  acct_name : string;
  acct_isMut : json;
  acct_writable : json;
  acct_isSigner : json;
  acct_signer : json
}.

Record AccountMeta (K : Type) : Type := {
  pubkey : property K;
  isWritable : json;
  isSigner : json
}.
Arguments pubkey {K} _.
Arguments isWritable {K} _.
Arguments isSigner {K} _.

Section BurnAccounts.

(** Public keys, and the keys the function has at hand when it builds
    [accountMap]. *)
Variable K : Type.
Variables wallet_publicKey eventAuthority authorityPda userTokenAccount
  denylistAccount messageTransmitterAccount tokenMessengerAccount
  remoteTokenMessenger tokenMinterAccount localToken usdcMint
  messageSentEventAccount MESSAGE_TRANSMITTER_V2_ID
  TOKEN_MESSENGER_MINTER_V2_ID TOKEN_PROGRAM_ID SystemProgram_programId : K.

Definition accountMap : list (string * K) :=
  [("owner", wallet_publicKey);
   ("event_rent_payer", wallet_publicKey);
   ("event_authority", eventAuthority);
   ("sender_authority_pda", authorityPda);
   ("burn_token_account", userTokenAccount);
   ("denylist_account", denylistAccount);
   ("message_transmitter", messageTransmitterAccount);
   ("token_messenger", tokenMessengerAccount);
   ("remote_token_messenger", remoteTokenMessenger);
   ("token_minter", tokenMinterAccount);
   ("local_token", localToken);
   ("burn_token_mint", usdcMint);
   ("message_sent_event_data", messageSentEventAccount);
   ("message_transmitter_program", MESSAGE_TRANSMITTER_V2_ID);
   ("token_messenger_minter_program", TOKEN_MESSENGER_MINTER_V2_ID);
   ("program", TOKEN_MESSENGER_MINTER_V2_ID);
   ("token_program", TOKEN_PROGRAM_ID);
   ("system_program", SystemProgram_programId)].

(** The body of the arrow function given to [ixDef.accounts.map]. *)
Definition account_key (acct : IdlAccount) : result (AccountMeta K) :=
  match getProperty accountMap (acct_name acct) with
  | Absent =>
      Throw (Error ("Missing account mapping for " ++ acct_name acct))
  | found =>
      Ok {| pubkey := found;
            isWritable :=
              coalesce (coalesce (acct_isMut acct) (acct_writable acct))
                (JBool false);
            isSigner :=
              coalesce (coalesce (acct_isSigner acct) (acct_signer acct))
                (JBool false) |}
  end.

(** [ixDef.accounts.map(...)]: entries are visited in order and the first
    throw ends the walk. *)
Fixpoint account_keys (accounts : list IdlAccount)
    : result (list (AccountMeta K)) :=
  match accounts with
  | [] => Ok []
  | acct :: more =>
      match account_key acct with
      | Throw e => Throw e
      | Ok meta =>
          match account_keys more with
          | Throw e => Throw e
          | Ok metas => Ok (meta :: metas)
          end
      end
  end.

End BurnAccounts.

End SolanaToStarknet.

(** ** The Base -> Ethereum script *)

Module BaseToEthereum.

Definition BASE_SEPOLIA_USDC : string :=
  "0x036CbD53842c5426634e7929541eC2318f3dCF7e".
Definition TOKEN_MESSENGER_V2 : string :=
  "0x8FE6B999Dc680CcFDD5Bf7EB0974218be2542DAA".
Definition MESSAGE_TRANSMITTER_V2 : string :=
  "0xE737e5cEBEEBa77EFE34D4aa090756590b1CE275".

Definition ETHEREUM_DOMAIN : Z := 0.

Definition AMOUNT : Z := 100000.
Definition maxFee : Z := 500.
Definition minFinalityThreshold : Z := 1000.

(** [toBytes32Address]: twelve zero bytes in front of the address digits. *)
Definition toBytes32Address (address : string) : string :=
  "0x000000000000000000000000" ++ JS.slice_from 2 address.

Definition DESTINATION_CALLER_BYTES32 : string :=
  "0x0000000000000000000000000000000000000000000000000000000000000000".

Section Run.

Variable net : Net.
(** [account.address] and [DESTINATION_ADDRESS], fixed when the script
    loads. *)
Variable account_address : string.
Variable DESTINATION_ADDRESS : string.

Definition DESTINATION_ADDRESS_BYTES32 : string :=
  toBytes32Address DESTINATION_ADDRESS.

Definition approveUSDC : Comp World unit :=
  (console_log "1) Approving USDC on Base Sepolia..." ;;;
   data <- lift (ViemAbi.encodeFunctionData "approve"
                   [ViemAbi.ArgAddress TOKEN_MESSENGER_V2;
                    ViemAbi.ArgUint 256 10000000000]) ;;
   approveTx <- sendTransaction net "baseSepolia" BASE_SEPOLIA_USDC data ;;
   console_log ("   USDC approve tx: " ++ approveTx))%comp.

Definition burnUSDC : Comp World string :=
  (console_log "2) Burning USDC on Base Sepolia (depositForBurn)..." ;;;
   data <- lift (ViemAbi.encodeFunctionData "depositForBurn"
                   [ViemAbi.ArgUint 256 AMOUNT;
                    ViemAbi.ArgUint 32 ETHEREUM_DOMAIN;
                    ViemAbi.ArgBytesN 32 DESTINATION_ADDRESS_BYTES32;
                    ViemAbi.ArgAddress BASE_SEPOLIA_USDC;
                    ViemAbi.ArgBytesN 32 DESTINATION_CALLER_BYTES32;
                    ViemAbi.ArgUint 256 maxFee;
                    ViemAbi.ArgUint 32 minFinalityThreshold]) ;;
   burnTx <- sendTransaction net "baseSepolia" TOKEN_MESSENGER_V2 data ;;
   console_log ("   Burn tx: " ++ burnTx) ;;;
   ret burnTx)%comp.

Definition retrieveAttestation (fuel : nat) (srcTxHash : string)
    : Comp World json :=
  Poller.retrieveAttestation net
    "3) Waiting for attestation from Circle Iris..." "6" fuel srcTxHash.

Definition mintUSDC (attestation : json) : Comp World unit :=
  (console_log "4) Minting USDC on Ethereum Sepolia (receiveMessage)..." ;;;
   message <- lift (get (member "message") attestation) ;;
   signature <- lift (get (member "attestation") attestation) ;;
   data <- lift (ViemAbi.encodeFunctionData "receiveMessage"
                   [ViemAbi.ArgBytes message; ViemAbi.ArgBytes signature]) ;;
   mintTx <- sendTransaction net "sepolia" MESSAGE_TRANSMITTER_V2 data ;;
   console_log ("   Mint tx: " ++ mintTx))%comp.

Definition main (fuel : nat) : Comp World unit :=
  (console_log ("Source (Base Sepolia) sender: " ++ account_address) ;;;
   console_log ("Destination (Ethereum Sepolia) recipient: "
                ++ DESTINATION_ADDRESS) ;;;
   approveUSDC ;;;
   burnTx <- burnUSDC ;;
   attestation <- retrieveAttestation fuel burnTx ;;
   mintUSDC attestation ;;;
   console_log
     "✅ Transfer complete: 0.1 USDC bridged Base → Ethereum (Sepolia)")%comp.

End Run.

End BaseToEthereum.

(** Run an encoder from an empty call log. *)
Definition run_calldata (c : Comp CallLog (list Z)) : outcome (list Z) * CallLog :=
  c [].

(** ** Reading the calldata back (the receiving side's view) *)

(** Big-endian value of a byte sequence. *)
Definition be_value (bs : list byte) : Z :=
  fold_left (fun acc b => acc * 256 + byte_to_Z b)%Z bs 0%Z.

(** The [n] big-endian bytes of a felt, leading zero bytes included. *)
Fixpoint felt_to_bytes (n : nat) (v : Z) : list byte :=
  match n with
  | O => []
  | S n' => felt_to_bytes n' (v / 256) ++ [byte_of_Z v]
  end.

(** Reassemble the bytes of a (len, data[], pending_word, pending_len)
    sequence: every data word stands for 31 bytes, the pending word for
    [pending_len] bytes. *)
Definition byteArrayCalldataToBytes (cd : list Z) : option (list byte) :=
  match cd with
  | [] => None
  | len :: rest =>
      let n := Z.to_nat len in
      match skipn n rest with
      | [pending_word; pending_len] =>
          if (List.length (firstn n rest) =? n)%nat then
            Some (flat_map (felt_to_bytes 31) (firstn n rest)
                  ++ felt_to_bytes (Z.to_nat pending_len) pending_word)
          else None
      | _ => None
      end
  end.

(** The [i]-th full 31-byte chunk of a buffer. *)
Definition chunk_at (bytes : list byte) (i : nat) : list byte :=
  JS.slice (i * 31) ((i + 1) * 31) bytes.

(** ** Observations on a polling run *)

(** Does this reply let the poller return: a body whose first message has
    status "complete". *)
Definition ready (r : result json) : bool :=
  match r with
  | Ok data =>
      strict_eq_string
        (opt (member "status") (Poller.first_message data)) "complete"
  | Throw _ => false
  end.

(** What one unsuccessful pass leaves in the trace: the request, one log
    line, the 5000 ms pause. *)
Definition failed_round (url : string) (r : result json) : list Event :=
  [EvGet url;
   EvLog match r with
         | Ok _ => "   Not ready yet, retrying in 5s..."
         | Throw err =>
             "   Iris polling error: " ++ exn_message err
             ++ " (retrying in 5s)..."
         end;
   EvSleep 5000].

(** The trace of [k] unsuccessful passes in a row, the first of them being
    answered by reply number [g]. *)
Definition failed_rounds (net : Net) (url : string) (g k : nat) : list Event :=
  flat_map (fun j => failed_round url (http_get net (g + j))) (seq 0 k).

(** The world after [k] unsuccessful passes. *)
Definition after_rounds (net : Net) (url : string) (k : nat) (w : World)
    : World :=
  {| trace := trace w ++ failed_rounds net url (gets w) k;
     gets := gets w + k; sends := sends w |}.

(** The URLs requested in a trace, in order. *)
Definition requests (t : list Event) : list string :=
  flat_map (fun e => match e with EvGet url => [url] | _ => [] end) t.

(** The pauses taken in a trace, in order. *)
Definition pauses (t : list Event) : list Z :=
  flat_map (fun e => match e with EvSleep ms => [ms] | _ => [] end) t.

(** The transactions submitted in a trace, in order. *)
Definition submissions (t : list Event) : list (string * string * CallData) :=
  flat_map (fun e => match e with
                     | EvSend chain to data => [(chain, to, data)]
                     | _ => []
                     end) t.

(** ** Envelope forms *)

(** The test both copies of [decodeEnvelope] apply to their input. *)
Definition isHex (str : string) : bool :=
  JS.startsWith "0x" str || JS.test_hex_regex str.

(** The hex form of a payload, as Iris sends it: 0x and two digits per
    byte. *)
Definition hex_envelope (payload : list byte) : string :=
  "0x" ++ NodeBuffer.toString_hex payload.

(** The base64 form of a payload. *)
Definition base64_envelope (payload : list byte) : string :=
  NodeBuffer.toString_base64 payload.

(** A decoder gives the same result on both forms of a payload. *)
Definition form_invariant (decode : string -> result (list byte))
    (payload : list byte) : Prop :=
  decode (hex_envelope payload) = decode (base64_envelope payload).

(** The two copies agree on an input: the same bytes, or both throw. *)
Definition envelopes_agree (str : string) : Prop :=
  (exists bs,
      BaseToStarknet.decodeEnvelope str = Ok bs
      /\ SolanaToStarknet.decodeEnvelope str = Ok bs)
  \/ (exists e1 e2,
         BaseToStarknet.decodeEnvelope str = Throw e1
         /\ SolanaToStarknet.decodeEnvelope str = Throw e2).

(** 0x followed by an even number of characters, all of them hex digits. *)
Definition prefixed_hex_pairs (str : string) : bool :=
  JS.startsWith "0x" str
  && Nat.even (String.length (JS.slice_from 2 str))
  && JS.all_chars JS.isHexDigit (JS.slice_from 2 str).

(** ** A scripted scenario *)

(** An Iris body with one message entry. *)
Definition iris_body (status : string) : json :=
  JObj [("messages",
         JArr [JObj [("status", JStr status);
                     ("message", JStr "0x0000000100000006");
                     ("attestation", JStr "0x5ca1ab1e")]])].

(** Iris answers "pending", "pending", "complete"; the chain clients hand
    out the hashes 0x01, 0xAA, 0x03. *)
Definition scripted_net : Net :=
  {| http_get := fun k =>
       match k with
       | 0 | 1 => Ok (iris_body "pending")
       | _ => Ok (iris_body "complete")
       end;
     send_tx := fun k =>
       match k with
       | 0 => Ok "0x01"
       | 1 => Ok "0xAA"
       | _ => Ok "0x03"
       end |}.

Definition fresh_world : World := {| trace := []; gets := 0; sends := 0 |}.

(** ** Reading calldata and buffers back, continued *)

(** Read one (len, data[], pending_word, pending_len) group off the front
    of a felt sequence; the felts behind it are returned untouched. *)
Definition read_byte_array (cd : list Z) : option (list byte * list Z) :=
  match cd with
  | [] => None
  | len :: rest =>
      let n := Z.to_nat len in
      match skipn n rest with
      | pending_word :: pending_len :: behind =>
          Some (flat_map (felt_to_bytes 31) (firstn n rest)
                ++ felt_to_bytes (Z.to_nat pending_len) pending_word,
                behind)
      | _ => None
      end
  end.

(** A chunk with zero bytes put in front until it is 31 bytes long. *)
Definition pad31 (chunk : list byte) : list byte :=
  repeat x00 (31 - List.length chunk) ++ chunk.

(** Little-endian value of a byte sequence. *)
Definition le_value (bs : list byte) : Z :=
  fold_right (fun b acc => byte_to_Z b + 256 * acc)%Z 0%Z bs.

(** The digits [toBytes32] and [starknetAddressToBase58Pubkey] work on: the
    input without an optional 0x. *)
Definition digits_of (hex : string) : string :=
  if JS.startsWith "0x" hex then JS.slice_from 2 hex else hex.

(** The submission that stands for
    [execute([{ contractAddress, entrypoint: "receive_message", calldata }])]. *)
Definition receive_message_call (transmitter : string) (calldata : list Z)
    : string * string * CallData :=
  ("starknetSepolia", transmitter,
   {| functionName := "receive_message"; args := map JNum calldata |}).

(** The URLs an [RpcEvent] trace has queried, in order. *)
Definition queried (t : list RpcEvent) : list string :=
  flat_map (fun e => match e with
                     | RpcQuery endpoint _ => [endpoint]
                     | RpcLog _ => []
                     end) t.

(** ** The transactions of the pipelines *)

(** The approval both Base scripts submit. *)
Definition approve_call : string * string * CallData :=
  ("baseSepolia", "0x036CbD53842c5426634e7929541eC2318f3dCF7e",
   {| functionName := "approve";
      args := [JStr "0x8FE6B999Dc680CcFDD5Bf7EB0974218be2542DAA";
               JNum 10000000000] |}).

(** A [depositForBurn] on Base with the fast-transfer parameters the
    scripts share (fee cap 500, finality threshold 1000, any caller). *)
Definition burn_call (amount destinationDomain : Z) (mintRecipient : string)
    : string * string * CallData :=
  ("baseSepolia", "0x8FE6B999Dc680CcFDD5Bf7EB0974218be2542DAA",
   {| functionName := "depositForBurn";
      args := [JNum amount;
               JNum destinationDomain;
               JStr mintRecipient;
               JStr "0x036CbD53842c5426634e7929541eC2318f3dCF7e";
               JStr "0x0000000000000000000000000000000000000000000000000000000000000000";
               JNum 500;
               JNum 1000] |}).

(** The [receiveMessage] on Ethereum Sepolia for a polled message entry. *)
Definition receiveMessage_call (m : json) : string * string * CallData :=
  ("sepolia", "0xE737e5cEBEEBa77EFE34D4aa090756590b1CE275",
   {| functionName := "receiveMessage";
      args := [member "message" m; member "attestation" m] |}).

(** The calldata [mintOnStarknet] builds from two byte buffers. *)
Definition mint_calldata (messageBytes attestationBytes : list byte)
    : list Z :=
  match fst (run_calldata
               (BaseToStarknet.bytesToByteArrayCalldata messageBytes)),
        fst (run_calldata
               (BaseToStarknet.bytesToByteArrayCalldata attestationBytes))
  with
  | Done cd1, Done cd2 => cd1 ++ cd2
  | _, _ => []
  end.

(** A message entry as Iris sends it: status "complete" and both payloads
    in 0x-prefixed hex. *)
Definition iris_entry (message attestation : list byte) : json :=
  JObj [("status", JStr "complete");
        ("message", JStr (hex_envelope message));
        ("attestation", JStr (hex_envelope attestation))].

(** What one endpoint contributes to [getRemoteTokenMessengerAccount]: the
    first account it lists, decoded, if it answers with a non-empty list
    and the account decodes. *)
Definition candidate_answer
    (getProgramAccounts :
       string -> list (nat * list byte) -> result (list (string * list byte)))
    (coder_decode : list byte -> result json)
    (filters : list (nat * list byte)) (conn : string)
    : option (string * json) :=
  match getProgramAccounts conn filters with
  | Ok ((pubkey, data) :: _) =>
      match coder_decode data with
      | Ok decoded => Some (pubkey, decoded)
      | Throw _ => None
      end
  | _ => None
  end.

(** A chain client that rejects every transaction. *)
Definition rejecting_net : Net :=
  {| http_get := fun _ => Ok (iris_body "complete");
     send_tx := fun _ => Throw (Error "insufficient funds for gas") |}.

(** Iris answers at once with a complete entry for the given payloads; the
    clients accept everything. *)
Definition prompt_net (message attestation : list byte) : Net :=
  {| http_get := fun _ =>
       Ok (JObj [("messages", JArr [iris_entry message attestation])]);
     send_tx := fun k =>
       match k with
       | 0 => Ok "0x01"
       | 1 => Ok "0xAA"
       | _ => Ok "0x03"
       end |}.

(** A confirmation that always arrives. *)
Definition always_confirmed : string -> result unit := fun _ => Ok tt.

(** A private endpoint that refuses bulk account queries, while the public
    devnet endpoint lists one account. *)
Definition restricted_rpc (conn : string) (filters : list (nat * list byte))
    : result (list (string * list byte)) :=
  if (conn =? SolanaToStarknet.DEVNET)%string
  then Ok [("RemoteMessenger25", [x19; x00; x00; x00])]
  else Throw (Error "410 Gone").

(** A decoder that accepts every account. *)
Definition lenient_decode (data : list byte) : result json :=
  Ok (JObj [("domain", JNum (le_value data))]).

(* ================================================================= *)
(** * Properties *)

(** ** Bytes and their values *)

Lemma byte_to_Z_range (b : byte) : (0 <= byte_to_Z b < 256)%Z.
Proof.
  unfold byte_to_Z. pose proof (Byte.to_N_bounded b). lia.
Qed.

Lemma byte_of_to_Z (b : byte) : byte_of_Z (byte_to_Z b) = b.
Proof.
  unfold byte_of_Z, byte_to_Z.
  pose proof (Byte.to_N_bounded b) as Hb.
  rewrite Z.mod_small by lia.
  rewrite N2Z.id, Byte.of_to_N. reflexivity.
Qed.

Lemma byte_of_Z_mod (z : Z) : byte_of_Z (z mod 256) = byte_of_Z z.
Proof.
  unfold byte_of_Z. rewrite Z.mod_mod by lia. reflexivity.
Qed.

Lemma byte_of_Z_shift (k x : Z) : byte_of_Z (k * 256 + x) = byte_of_Z x.
Proof.
  rewrite <- (byte_of_Z_mod (k * 256 + x)), <- (byte_of_Z_mod x).
  f_equal. rewrite Z.add_comm, Z.mod_add by lia. reflexivity.
Qed.

Lemma be_value_snoc (l : list byte) (b : byte) :
  be_value (l ++ [b]) = (be_value l * 256 + byte_to_Z b)%Z.
Proof.
  unfold be_value. rewrite fold_left_app. reflexivity.
Qed.

(** A felt written as exactly as many big-endian bytes as it was packed
    from gives those bytes back. *)
Lemma felt_to_bytes_be_value (l : list byte) :
  felt_to_bytes (List.length l) (be_value l) = l.
Proof.
  induction l as [|b l IH] using rev_ind.
  - reflexivity.
  - rewrite length_app, Nat.add_1_r, be_value_snoc. simpl.
    pose proof (byte_to_Z_range b) as Hb.
    rewrite byte_of_Z_shift, byte_of_to_Z.
    replace ((be_value l * 256 + byte_to_Z b) / 256)%Z with (be_value l).
    + rewrite IH. reflexivity.
    + rewrite Z.div_add_l by lia. rewrite Z.div_small by lia. lia.
Qed.

(** ** Hexadecimal text of a buffer *)

Lemma unhex_hexChar_hi (b : byte) :
  JS.unhex (NodeBuffer.hexChar (byte_to_Z b / 16)) = Some (byte_to_Z b / 16)%Z.
Proof. destruct b; reflexivity. Qed.

Lemma unhex_hexChar_lo (b : byte) :
  JS.unhex (NodeBuffer.hexChar (byte_to_Z b mod 16))
  = Some (byte_to_Z b mod 16)%Z.
Proof. destruct b; reflexivity. Qed.

Lemma hex_digits_value_toString_hex (bs : list byte) (acc : Z) :
  JS.hex_digits_value acc (NodeBuffer.toString_hex bs)
  = Some (fold_left (fun a b => a * 256 + byte_to_Z b)%Z bs acc).
Proof.
  revert acc. induction bs as [|b bs IH]; intro acc.
  - reflexivity.
  - cbn [NodeBuffer.toString_hex JS.hex_digits_value fold_left].
    rewrite unhex_hexChar_hi, unhex_hexChar_lo, IH.
    do 2 f_equal.
    pose proof (Z.div_mod (byte_to_Z b) 16). lia.
Qed.

(** [BigInt(`0x${hex || "0"}`)] of a buffer's hex text is its big-endian
    value, the empty buffer included. *)
Lemma BigInt_hex_of_buffer (chunk : list byte) :
  JS.BigInt_hex (JS.or_default (NodeBuffer.toString_hex chunk) "0")
  = Ok (be_value chunk).
Proof.
  destruct chunk as [|b bs].
  - reflexivity.
  - pose proof (hex_digits_value_toString_hex (b :: bs) 0) as H.
    cbn [NodeBuffer.toString_hex JS.or_default JS.BigInt_hex] in *.
    rewrite H. reflexivity.
Qed.

Lemma bytesToFelt_small (chunk : list byte) :
  List.length chunk <= 31 ->
  BaseToStarknet.bytesToFelt chunk = Ok (be_value chunk).
Proof.
  intro H. unfold BaseToStarknet.bytesToFelt.
  destruct (Nat.ltb_spec 31 (List.length chunk)); [lia|].
  apply BigInt_hex_of_buffer.
Qed.

(** ** Slicing a buffer into 31-byte chunks *)

Lemma chunk_at_firstn (bytes : list byte) (i : nat) :
  chunk_at bytes i = firstn 31 (skipn (i * 31) bytes).
Proof.
  unfold chunk_at, JS.slice. f_equal. lia.
Qed.

Lemma chunk_at_length_le (bytes : list byte) (i : nat) :
  List.length (chunk_at bytes i) <= 31.
Proof. rewrite chunk_at_firstn. apply firstn_le_length. Qed.

Lemma chunk_at_length (bytes : list byte) (i : nat) :
  i < List.length bytes / 31 -> List.length (chunk_at bytes i) = 31.
Proof.
  intro Hi. rewrite chunk_at_firstn, length_firstn, length_skipn.
  pose proof (Nat.Div0.mul_div_le (List.length bytes) 31). nia.
Qed.

Lemma pending_length (bytes : list byte) :
  List.length (JS.slice_to_end (List.length bytes / 31 * 31) bytes)
  = List.length bytes mod 31.
Proof.
  unfold JS.slice_to_end. rewrite length_skipn.
  pose proof (Nat.div_mod_eq (List.length bytes) 31). lia.
Qed.

Lemma chunks_reassemble (bytes : list byte) (n : nat) :
  flat_map (chunk_at bytes) (seq 0 n) ++ skipn (n * 31) bytes = bytes.
Proof.
  induction n as [|n IH].
  - reflexivity.
  - rewrite seq_S, flat_map_app. cbn [flat_map plus]. rewrite app_nil_r.
    rewrite <- app_assoc, chunk_at_firstn.
    replace (S n * 31) with (31 + n * 31) by lia.
    rewrite <- skipn_skipn, firstn_skipn. exact IH.
Qed.

(** ** Running the encoder *)

Lemma call_bytesToFelt_small (chunk : list byte) (log : CallLog) :
  List.length chunk <= 31 ->
  BaseToStarknet.call_bytesToFelt chunk log
  = (Done (be_value chunk), log ++ [chunk]).
Proof.
  intro H. unfold BaseToStarknet.call_bytesToFelt.
  rewrite bytesToFelt_small by exact H. reflexivity.
Qed.

Lemma for_chunks_run (bytes : list byte) (k i : nat) (acc : list Z)
    (log : CallLog) :
  BaseToStarknet.for_chunks k i bytes acc log
  = (Done (acc ++ map (fun j => be_value (chunk_at bytes j)) (seq i k)),
     log ++ map (chunk_at bytes) (seq i k)).
Proof.
  revert i acc log. induction k as [|k IH]; intros i acc log.
  - cbn. rewrite !app_nil_r. reflexivity.
  - cbn [BaseToStarknet.for_chunks]. unfold bind.
    fold (chunk_at bytes i).
    rewrite call_bytesToFelt_small by apply chunk_at_length_le.
    rewrite IH. cbn [seq map]. rewrite <- !app_assoc.
    replace (i + 1) with (S i) by lia. reflexivity.
Qed.

(** The result and the recorded calls of one encoder run. *)
Lemma bytesToByteArrayCalldata_run (bytes : list byte) :
  let n := List.length bytes / 31 in
  let pending := JS.slice_to_end (n * 31) bytes in
  run_calldata (BaseToStarknet.bytesToByteArrayCalldata bytes)
  = (Done ([Z.of_nat n]
           ++ map (fun j => be_value (chunk_at bytes j)) (seq 0 n)
           ++ [be_value pending; Z.of_nat (List.length bytes mod 31)]),
     map (chunk_at bytes) (seq 0 n) ++ [pending]).
Proof.
  intros n pending.
  unfold run_calldata, BaseToStarknet.bytesToByteArrayCalldata, bind.
  fold n. rewrite for_chunks_run. fold pending.
  assert (Hp : List.length pending = List.length bytes mod 31)
    by apply pending_length.
  rewrite call_bytesToFelt_small.
  2:{ rewrite Hp. pose proof (Nat.mod_upper_bound (List.length bytes) 31). lia. }
  unfold ret. cbn [app]. rewrite length_map, length_seq, Hp. reflexivity.
Qed.

Lemma full_chunks_have_31_bytes (bytes : list byte) :
  Forall (fun c => List.length c = 31)
    (map (chunk_at bytes) (seq 0 (List.length bytes / 31))).
Proof.
  apply Forall_forall. intros c Hc.
  apply in_map_iff in Hc. destruct Hc as [j [<- Hj]].
  apply in_seq in Hj. apply chunk_at_length. lia.
Qed.

Lemma unpack_full_chunks (bytes : list byte) :
  flat_map (felt_to_bytes 31)
    (map (fun j => be_value (chunk_at bytes j))
       (seq 0 (List.length bytes / 31)))
  = flat_map (chunk_at bytes) (seq 0 (List.length bytes / 31)).
Proof.
  assert (H : forall l, (forall j, In j l -> j < List.length bytes / 31) ->
                flat_map (felt_to_bytes 31)
                  (map (fun j => be_value (chunk_at bytes j)) l)
                = flat_map (chunk_at bytes) l).
  { induction l as [|j l IH]; intro Hl.
    - reflexivity.
    - cbn [map flat_map]. rewrite IH by (intros; apply Hl; now right).
      f_equal.
      rewrite <- (chunk_at_length bytes j) by (apply Hl; now left).
      apply felt_to_bytes_be_value. }
  apply H. intros j Hj. apply in_seq in Hj. lia.
Qed.

(** ** The claims about the calldata encoding *)

(** C1 (round-trip law): the calldata produced for any byte sequence reads
    back to exactly that sequence, when every data word is taken as 31
    big-endian bytes (leading zeros restored) and the pending word as
    pending_len bytes. Holds for both copies of the encoder. *)
Theorem bytesToByteArrayCalldata_round_trip (bytes : list byte) :
  exists cd : list Z,
    fst (run_calldata (BaseToStarknet.bytesToByteArrayCalldata bytes)) = Done cd
    /\ fst (run_calldata (SolanaToStarknet.bytesToByteArrayCalldata bytes))
       = Done cd
    /\ byteArrayCalldataToBytes cd = Some bytes.
Proof.
  unfold SolanaToStarknet.bytesToByteArrayCalldata.
  rewrite bytesToByteArrayCalldata_run. cbn [fst].
  eexists. split; [reflexivity|]. split; [reflexivity|].
  set (n := List.length bytes / 31).
  set (data := map (fun j => be_value (chunk_at bytes j)) (seq 0 n)).
  assert (Hlen : List.length data = n)
    by (unfold data; rewrite length_map, length_seq; reflexivity).
  unfold byteArrayCalldataToBytes. cbn [app].
  rewrite Nat2Z.id.
  rewrite skipn_app, firstn_app, Hlen, Nat.sub_diag.
  rewrite skipn_all2, firstn_all2 by lia.
  cbn [skipn firstn app]. rewrite app_nil_r, Hlen, Nat.eqb_refl.
  unfold data, n. rewrite unpack_full_chunks, Nat2Z.id.
  rewrite <- pending_length, felt_to_bytes_be_value.
  unfold JS.slice_to_end. rewrite chunks_reassemble. reflexivity.
Qed.

(** C3 (layout): for a byte sequence of length N the encoder returns
    floor(N/31) + 3 field elements: the full-chunk count, the packed full
    31-byte chunks in order, the packed trailing chunk, and N mod 31. *)
Theorem bytesToByteArrayCalldata_layout (bytes : list byte) :
  let N := List.length bytes in
  let felts :=
    [Z.of_nat (N / 31)]
    ++ map (fun j => be_value (chunk_at bytes j)) (seq 0 (N / 31))
    ++ [be_value (JS.slice_to_end (N / 31 * 31) bytes); Z.of_nat (N mod 31)] in
  fst (run_calldata (BaseToStarknet.bytesToByteArrayCalldata bytes)) = Done felts
  /\ fst (run_calldata (SolanaToStarknet.bytesToByteArrayCalldata bytes))
     = Done felts
  /\ List.length felts = N / 31 + 3
  /\ Forall (fun c => List.length c = 31) (map (chunk_at bytes) (seq 0 (N / 31)))
  /\ List.length (JS.slice_to_end (N / 31 * 31) bytes) = N mod 31.
Proof.
  intros N felts.
  unfold SolanaToStarknet.bytesToByteArrayCalldata.
  rewrite bytesToByteArrayCalldata_run. cbn [fst].
  repeat split.
  - unfold felts. cbn [app List.length].
    rewrite length_app, length_map, length_seq. cbn [List.length]. lia.
  - apply full_chunks_have_31_bytes.
  - apply pending_length.
Qed.

(** C7: [bytesToFelt] throws exactly when its chunk is longer than 31
    bytes; on every chunk of at most 31 bytes, the empty one included, it
    returns the big-endian value of the bytes. *)
Theorem bytesToFelt_throws_iff_oversized (chunk : list byte) :
  BaseToStarknet.bytesToFelt chunk
  = (if (31 <? List.length chunk)%nat
     then Throw (Error "Chunk too large for bytes31")
     else Ok (be_value chunk))
  /\ SolanaToStarknet.bytesToFelt chunk = BaseToStarknet.bytesToFelt chunk
  /\ ((exists e, BaseToStarknet.bytesToFelt chunk = Throw e)
      <-> 31 < List.length chunk)
  /\ BaseToStarknet.bytesToFelt [] = Ok 0%Z.
Proof.
  assert (E : BaseToStarknet.bytesToFelt chunk
              = (if (31 <? List.length chunk)%nat
                 then Throw (Error "Chunk too large for bytes31")
                 else Ok (be_value chunk))).
  { destruct (Nat.ltb_spec 31 (List.length chunk)) as [H|H].
    - unfold BaseToStarknet.bytesToFelt.
      destruct (Nat.ltb_spec 31 (List.length chunk)); [reflexivity|lia].
    - apply bytesToFelt_small. exact H. }
  split; [exact E|]. split; [reflexivity|]. split; [|reflexivity].
  rewrite E. destruct (Nat.ltb_spec 31 (List.length chunk)) as [H|H].
  - split; [intros _; exact H | intros _; eexists; reflexivity].
  - split; [intros [e He]; discriminate He | lia].
Qed.

(** C9: every chunk the encoder hands to [bytesToFelt] has at most 31
    bytes (full chunks exactly 31, the pending chunk N mod 31 < 31), none
    of these calls throws, so the encoder returns for every input; the
    empty input encodes to 0, 0, 0. *)
Theorem bytesToByteArrayCalldata_never_throws (bytes : list byte) :
  let N := List.length bytes in
  exists (felts : list Z) (calls : CallLog),
    run_calldata (BaseToStarknet.bytesToByteArrayCalldata bytes)
    = (Done felts, calls)
    /\ run_calldata (SolanaToStarknet.bytesToByteArrayCalldata bytes)
       = (Done felts, calls)
    /\ calls = map (chunk_at bytes) (seq 0 (N / 31))
               ++ [JS.slice_to_end (N / 31 * 31) bytes]
    /\ Forall (fun c => List.length c <= 31) calls
    /\ Forall (fun c => BaseToStarknet.bytesToFelt c = Ok (be_value c)) calls
    /\ Forall (fun c => List.length c = 31)
         (map (chunk_at bytes) (seq 0 (N / 31)))
    /\ List.length (JS.slice_to_end (N / 31 * 31) bytes) = N mod 31
    /\ N mod 31 < 31
    /\ run_calldata (BaseToStarknet.bytesToByteArrayCalldata [])
       = (Done [0; 0; 0]%Z, [[]]).
Proof.
  intro N.
  unfold SolanaToStarknet.bytesToByteArrayCalldata.
  rewrite bytesToByteArrayCalldata_run. fold N.
  pose proof (full_chunks_have_31_bytes bytes) as Hfull. fold N in Hfull.
  pose proof (pending_length bytes) as Hpend. fold N in Hpend.
  assert (Hmod : N mod 31 < 31) by (apply Nat.mod_upper_bound; lia).
  assert (Hle : Forall (fun c => List.length c <= 31)
                  (map (chunk_at bytes) (seq 0 (N / 31))
                   ++ [JS.slice_to_end (N / 31 * 31) bytes])).
  { apply Forall_app. split.
    - eapply Forall_impl; [|exact Hfull]. cbn. intros c Hc. lia.
    - constructor; [lia | constructor]. }
  do 2 eexists. repeat split; try reflexivity; try assumption.
  eapply Forall_impl; [|exact Hle]. cbn. intros c Hc.
  apply bytesToFelt_small. exact Hc.
Qed.

(** ** The attestation poller *)

Section PollerFacts.

Variable net : Net.

Lemma ready_first_message (data : json) :
  ready (Ok data) = true ->
  get (member "messages") data = Ok (member "messages" data)
  /\ get item0 (member "messages" data) = Ok (Poller.first_message data)
  /\ member "status" (Poller.first_message data) = JStr "complete".
Proof.
  unfold ready, Poller.first_message, opt, get.
  destruct (nullish data) eqn:Hd; cbn; [discriminate|].
  destruct (nullish (member "messages" data)) eqn:Hm; cbn; [discriminate|].
  destruct (nullish (item0 (member "messages" data))) eqn:Hi; cbn;
    [discriminate|].
  intro H. repeat split.
  destruct (member "status" (item0 (member "messages" data)));
    cbn in H; try discriminate.
  apply String.eqb_eq in H. now subst.
Qed.

Lemma attempt_ready (url : string) (w : World) (data : json) :
  http_get net (gets w) = Ok data ->
  ready (Ok data) = true ->
  Poller.attempt net url w
  = (Done (Some (Poller.first_message data)),
     {| trace := trace w ++ [EvGet url; EvLog "   Attestation ready."];
        gets := S (gets w); sends := sends w |}).
Proof.
  intros Hget Hready.
  destruct (ready_first_message data Hready) as (Hm & Hi & _).
  unfold Poller.attempt, try_catch, bind, axios_get.
  rewrite Hget. cbn [lift ret].
  unfold ready in Hready. rewrite Hready.
  unfold console_log, emit. cbn [trace gets sends].
  rewrite Hm. cbn [lift ret]. rewrite Hi. cbn [lift ret].
  rewrite <- app_assoc. reflexivity.
Qed.

Lemma attempt_not_ready (url : string) (w : World) :
  ready (http_get net (gets w)) = false ->
  Poller.attempt net url w
  = (Done None,
     {| trace := trace w
                 ++ [EvGet url;
                     EvLog match http_get net (gets w) with
                           | Ok _ => "   Not ready yet, retrying in 5s..."
                           | Throw err =>
                               "   Iris polling error: " ++ exn_message err
                               ++ " (retrying in 5s)..."
                           end];
        gets := S (gets w); sends := sends w |}).
Proof.
  intro Hready.
  unfold Poller.attempt, try_catch, bind, axios_get.
  destruct (http_get net (gets w)) as [data|err].
  - cbn [lift ret]. unfold ready in Hready. rewrite Hready.
    unfold console_log, emit, ret. cbn [trace gets sends].
    rewrite <- app_assoc. reflexivity.
  - cbn [lift throw]. unfold console_log, emit, ret. cbn [trace gets sends].
    rewrite <- app_assoc. reflexivity.
Qed.

Lemma failed_rounds_S (url : string) (g k : nat) :
  failed_rounds net url g (S k)
  = failed_round url (http_get net g) ++ failed_rounds net url (S g) k.
Proof.
  unfold failed_rounds. cbn [seq flat_map].
  rewrite Nat.add_0_r. f_equal.
  rewrite <- seq_shift, flat_map_concat_map, map_map,
    <- flat_map_concat_map.
  apply flat_map_ext. intro j. now rewrite Nat.add_succ_r.
Qed.

Lemma poll_step_not_ready (fuel : nat) (url : string) (w : World) :
  ready (http_get net (gets w)) = false ->
  Poller.poll net (S fuel) url w
  = Poller.poll net fuel url (after_rounds net url 1 w).
Proof.
  intro Hready. cbn [Poller.poll]. unfold bind at 1.
  rewrite attempt_not_ready by exact Hready.
  unfold bind, sleep, emit, after_rounds. cbn [trace gets sends].
  unfold failed_rounds, failed_round. cbn [seq flat_map].
  rewrite Nat.add_0_r, <- !app_assoc, Nat.add_1_r. reflexivity.
Qed.

Lemma poll_skip_rounds (k fuel : nat) (url : string) (w : World) :
  (forall j, j < k -> ready (http_get net (gets w + j)) = false) ->
  Poller.poll net (k + fuel) url w
  = Poller.poll net fuel url (after_rounds net url k w).
Proof.
  revert w. induction k as [|k IH]; intros w Hk.
  - unfold after_rounds, failed_rounds. cbn [seq flat_map plus].
    rewrite app_nil_r, Nat.add_0_r. destruct w; reflexivity.
  - cbn [plus]. rewrite poll_step_not_ready.
    2:{ specialize (Hk 0). rewrite Nat.add_0_r in Hk. apply Hk. lia. }
    rewrite IH.
    2:{ intros j Hj. cbn [after_rounds gets].
        replace (gets w + 1 + j) with (gets w + S j) by lia.
        apply Hk. lia. }
    f_equal. unfold after_rounds. cbn [trace gets sends].
    rewrite (failed_rounds_S url (gets w) k).
    unfold failed_rounds at 1. cbn [seq flat_map].
    rewrite Nat.add_0_r, app_nil_r, <- app_assoc.
    replace (gets w + 1) with (S (gets w)) by lia.
    replace (S (gets w) + k) with (gets w + S k) by lia.
    reflexivity.
Qed.

Lemma poll_returns (fuel : nat) (url : string) (w : World) (data : json) :
  http_get net (gets w) = Ok data ->
  ready (Ok data) = true ->
  Poller.poll net (S fuel) url w
  = (Done (Poller.first_message data),
     {| trace := trace w ++ [EvGet url; EvLog "   Attestation ready."];
        gets := S (gets w); sends := sends w |}).
Proof.
  intros Hget Hready. cbn [Poller.poll]. unfold bind.
  rewrite (attempt_ready url w data Hget Hready). reflexivity.
Qed.

(** Either one of the first [fuel] replies is ready, and then there is a
    first such, or none is. *)
Lemma first_ready_or_none (g fuel : nat) :
  (exists k, k < fuel
             /\ ready (http_get net (g + k)) = true
             /\ forall j, j < k -> ready (http_get net (g + j)) = false)
  \/ (forall j, j < fuel -> ready (http_get net (g + j)) = false).
Proof.
  induction fuel as [|fuel IH].
  - right. intros j Hj. lia.
  - destruct IH as [(k & Hk & Hr & Hbefore) | Hnone].
    + left. exists k. repeat split; [lia | exact Hr | exact Hbefore].
    + destruct (ready (http_get net (g + fuel))) eqn:Hr.
      * left. exists fuel. repeat split; [lia | exact Hr |].
        intros j Hj. apply Hnone. exact Hj.
      * right. intros j Hj.
        destruct (Nat.eq_dec j fuel) as [->|Hne]; [exact Hr|].
        apply Hnone. lia.
Qed.

(** A run that meets its first ready reply after [k] unsuccessful passes. *)
Lemma poll_first_ready (k fuel : nat) (url : string) (w : World)
    (data : json) :
  k < fuel ->
  (forall j, j < k -> ready (http_get net (gets w + j)) = false) ->
  http_get net (gets w + k) = Ok data ->
  ready (Ok data) = true ->
  Poller.poll net fuel url w
  = (Done (Poller.first_message data),
     {| trace := trace w ++ failed_rounds net url (gets w) k
                 ++ [EvGet url; EvLog "   Attestation ready."];
        gets := gets w + k + 1; sends := sends w |}).
Proof.
  intros Hk Hbefore Hget Hready.
  replace fuel with (k + S (fuel - k - 1)) by lia.
  rewrite poll_skip_rounds by exact Hbefore.
  rewrite (poll_returns _ url (after_rounds net url k w) data Hget Hready).
  unfold after_rounds. cbn [trace gets sends].
  rewrite <- app_assoc, Nat.add_1_r. reflexivity.
Qed.

(** A run none of whose first [fuel] replies is ready. *)
Lemma poll_still_running (fuel : nat) (url : string) (w : World) :
  (forall j, j < fuel -> ready (http_get net (gets w + j)) = false) ->
  Poller.poll net fuel url w = (Running, after_rounds net url fuel w).
Proof.
  intro Hnone.
  replace fuel with (fuel + 0) at 1 by lia.
  rewrite poll_skip_rounds by exact Hnone. reflexivity.
Qed.

End PollerFacts.

Lemma pauses_failed_rounds (net : Net) (url : string) (g k : nat) :
  pauses (failed_rounds net url g k) = repeat 5000%Z k.
Proof.
  revert g. induction k as [|k IH]; intro g.
  - reflexivity.
  - rewrite failed_rounds_S. unfold pauses in *.
    rewrite flat_map_app, IH. reflexivity.
Qed.

Lemma requests_failed_rounds (net : Net) (url : string) (g k : nat) :
  requests (failed_rounds net url g k) = repeat url k.
Proof.
  revert g. induction k as [|k IH]; intro g.
  - reflexivity.
  - rewrite failed_rounds_S. unfold requests in *.
    rewrite flat_map_app, IH. reflexivity.
Qed.

Lemma submissions_failed_rounds (net : Net) (url : string) (g k : nat) :
  submissions (failed_rounds net url g k) = [].
Proof.
  revert g. induction k as [|k IH]; intro g.
  - reflexivity.
  - rewrite failed_rounds_S. unfold submissions in *.
    rewrite flat_map_app, IH. reflexivity.
Qed.

(** Every bounded run of the poller is of one of two kinds: it returned the
    first message of its first ready reply, or no reply so far was ready
    and it is still looping. *)
Lemma retrieveAttestation_cases (net : Net) (stepLine domain : string)
    (fuel : nat) (srcTxHash : string) (w : World) :
  let url := Poller.url_of domain srcTxHash in
  (exists k data,
      k < fuel
      /\ (forall j, j < k -> ready (http_get net (gets w + j)) = false)
      /\ http_get net (gets w + k) = Ok data
      /\ ready (Ok data) = true
      /\ Poller.retrieveAttestation net stepLine domain fuel srcTxHash w
         = (Done (Poller.first_message data),
            {| trace := trace w ++ [EvLog stepLine]
                        ++ failed_rounds net url (gets w) k
                        ++ [EvGet url; EvLog "   Attestation ready."];
               gets := gets w + k + 1; sends := sends w |}))
  \/ ((forall j, j < fuel -> ready (http_get net (gets w + j)) = false)
      /\ Poller.retrieveAttestation net stepLine domain fuel srcTxHash w
         = (Running,
            {| trace := trace w ++ [EvLog stepLine]
                        ++ failed_rounds net url (gets w) fuel;
               gets := gets w + fuel; sends := sends w |})).
Proof.
  intro url.
  unfold Poller.retrieveAttestation, bind, console_log. fold url.
  destruct (first_ready_or_none net (gets w) fuel)
    as [(k & Hk & Hr & Hbefore) | Hnone].
  - left. destruct (http_get net (gets w + k)) as [data|err] eqn:Hget;
      [|discriminate Hr].
    exists k, data. repeat split; try assumption.
    rewrite (poll_first_ready net k fuel url (emit (EvLog stepLine) w) data)
      by assumption.
    unfold emit. cbn [trace gets sends]. rewrite <- app_assoc. reflexivity.
  - right. split; [exact Hnone|].
    rewrite (poll_still_running net fuel url (emit (EvLog stepLine) w))
      by exact Hnone.
    unfold after_rounds, emit. cbn [trace gets sends].
    rewrite <- app_assoc. reflexivity.
Qed.

(** C6: the poller never throws and never returns anything but a message
    whose status is "complete" (the first message of the first ready
    reply); every other reply, an error or a body without such a first
    message, costs one log line and one 5000 ms pause and is followed by
    the next request, for as many passes as the run is given. *)
Theorem retrieveAttestation_retries_until_complete
    (net : Net) (stepLine domain : string) (fuel : nat)
    (srcTxHash : string) (w : World) :
  let url := Poller.url_of domain srcTxHash in
  let run := Poller.retrieveAttestation net stepLine domain fuel srcTxHash w in
  (forall e w', run <> (Threw e, w'))
  /\ (forall m w',
        run = (Done m, w') ->
        member "status" m = JStr "complete"
        /\ exists k data,
             k < fuel
             /\ (forall j, j < k -> ready (http_get net (gets w + j)) = false)
             /\ http_get net (gets w + k) = Ok data
             /\ m = Poller.first_message data
             /\ trace w' = trace w ++ [EvLog stepLine]
                           ++ failed_rounds net url (gets w) k
                           ++ [EvGet url; EvLog "   Attestation ready."])
  /\ ((forall j, j < fuel -> ready (http_get net (gets w + j)) = false) ->
      exists w',
        run = (Running, w')
        /\ trace w' = trace w ++ [EvLog stepLine]
                      ++ failed_rounds net url (gets w) fuel
        /\ gets w' = gets w + fuel
        /\ requests (failed_rounds net url (gets w) fuel) = repeat url fuel
        /\ pauses (failed_rounds net url (gets w) fuel) = repeat 5000%Z fuel)
  /\ (forall k,
        k < fuel ->
        (forall j, j < k -> ready (http_get net (gets w + j)) = false) ->
        ready (http_get net (gets w + k)) = true ->
        exists data w',
          http_get net (gets w + k) = Ok data
          /\ run = (Done (Poller.first_message data), w')
          /\ gets w' = gets w + k + 1).
Proof.
  intros url run.
  destruct (retrieveAttestation_cases net stepLine domain fuel srcTxHash w)
    as [(k & data & Hk & Hbefore & Hget & Hready & Hrun) | (Hnone & Hrun)];
    fold url in Hrun; fold run in Hrun.
  - (* the run returned *)
    split; [intros e w' H; rewrite Hrun in H; discriminate H|].
    split.
    { intros m w' H. rewrite Hrun in H. injection H as <- <-.
      destruct (ready_first_message data Hready) as (_ & _ & Hstatus).
      split; [exact Hstatus|].
      exists k, data. repeat split; try assumption. }
    split.
    { intro Hnone. specialize (Hnone k Hk). rewrite Hget in Hnone.
      rewrite Hready in Hnone. discriminate Hnone. }
    intros k' Hk' Hbefore' Hready'.
    assert (k' = k) as ->.
    { destruct (Nat.lt_trichotomy k' k) as [Hlt | [Heq | Hgt]].
      - rewrite (Hbefore k' Hlt) in Hready'. discriminate Hready'.
      - exact Heq.
      - specialize (Hbefore' k Hgt). rewrite Hget, Hready in Hbefore'.
        discriminate Hbefore'. }
    exists data. eexists. split; [exact Hget|]. split; [exact Hrun|].
    reflexivity.
  - (* the run is still looping *)
    split; [intros e w' H; rewrite Hrun in H; discriminate H|].
    split; [intros m w' H; rewrite Hrun in H; discriminate H|].
    split.
    { intros _. eexists. split; [exact Hrun|]. cbn [trace gets].
      repeat split.
      - apply requests_failed_rounds.
      - apply pauses_failed_rounds. }
    intros k Hk _ Hready. rewrite (Hnone k Hk) in Hready.
    discriminate Hready.
Qed.

(** C5: when the first two replies carry a first message of status
    "pending" and the third one of status "complete", the poller issues
    exactly three requests (pausing 5000 ms after each of the first two)
    and returns the first message entry of the third reply. *)
Theorem retrieveAttestation_pending_pending_complete
    (net : Net) (stepLine domain : string) (fuel : nat)
    (srcTxHash : string) (w : World) (d0 d1 d2 : json) :
  http_get net (gets w) = Ok d0 ->
  http_get net (gets w + 1) = Ok d1 ->
  http_get net (gets w + 2) = Ok d2 ->
  opt (member "status") (Poller.first_message d0) = JStr "pending" ->
  opt (member "status") (Poller.first_message d1) = JStr "pending" ->
  opt (member "status") (Poller.first_message d2) = JStr "complete" ->
  3 <= fuel ->
  let url := Poller.url_of domain srcTxHash in
  exists w',
    Poller.retrieveAttestation net stepLine domain fuel srcTxHash w
    = (Done (Poller.first_message d2), w')
    /\ get item0 (member "messages" d2) = Ok (Poller.first_message d2)
    /\ requests (trace w') = requests (trace w) ++ [url; url; url]
    /\ gets w' = gets w + 3
    /\ pauses (trace w') = pauses (trace w) ++ [5000; 5000]%Z.
Proof.
  intros H0 H1 H2 P0 P1 C2 Hfuel url.
  assert (R2 : ready (Ok d2) = true).
  { unfold ready. rewrite C2. reflexivity. }
  assert (Hbefore : forall j, j < 2 ->
            ready (http_get net (gets (emit (EvLog stepLine) w) + j)) = false).
  { intros j Hj. cbn [emit gets]. destruct j as [|[|j]]; [| |lia].
    - rewrite Nat.add_0_r, H0. unfold ready. rewrite P0. reflexivity.
    - rewrite H1. unfold ready. rewrite P1. reflexivity. }
  eexists. split.
  { unfold Poller.retrieveAttestation, bind, console_log. fold url.
    apply (poll_first_ready net 2 fuel url (emit (EvLog stepLine) w) d2);
      [lia | exact Hbefore | exact H2 | exact R2]. }
  destruct (ready_first_message d2 R2) as (_ & Hitem & _).
  split; [exact Hitem|].
  cbn [trace gets sends emit].
  unfold requests, pauses.
  rewrite !flat_map_app.
  fold (requests (failed_rounds net url (gets w) 2)).
  fold (pauses (failed_rounds net url (gets w) 2)).
  rewrite requests_failed_rounds, pauses_failed_rounds.
  cbn [flat_map repeat app]. rewrite !app_nil_r.
  repeat split; try reflexivity. lia.
Qed.

Lemma retrieveAttestation_pending_pending_complete_witness :
  exists w',
    BaseToEthereum.retrieveAttestation scripted_net 3 "0xAA" fresh_world
    = (Done (Poller.first_message (iris_body "complete")), w')
    /\ requests (trace w')
       = repeat
           "https://iris-api-sandbox.circle.com/v2/messages/6?transactionHash=0xAA"
           3
    /\ gets w' = 3.
Proof.
  destruct (retrieveAttestation_pending_pending_complete
              scripted_net "3) Waiting for attestation from Circle Iris..."
              "6" 3 "0xAA" fresh_world
              (iris_body "pending") (iris_body "pending")
              (iris_body "complete")
              eq_refl eq_refl eq_refl eq_refl eq_refl eq_refl (le_n 3))
    as (w' & Hrun & _ & Hreq & Hgets & _).
  exists w'. split; [exact Hrun|]. split; [exact Hreq | exact Hgets].
Defined.

(** ** viem's encoder *)

Lemma startsWith_0x (s : string) :
  JS.startsWith "0x" s = true -> s = ("0x" ++ JS.slice_from 2 s)%string.
Proof.
  destruct s as [|a [|b r]]; cbn [JS.startsWith JS.slice_from];
    try discriminate.
  - rewrite andb_false_r. discriminate.
  - rewrite andb_true_r. intro H.
    apply andb_prop in H. destruct H as [Ha Hb].
    apply Ascii.eqb_eq in Ha, Hb. subst. reflexivity.
Qed.

Lemma slice_from_length (n : nat) (s : string) :
  String.length (JS.slice_from n s) = String.length s - n.
Proof.
  revert s. induction n as [|n IH]; intros [|c r]; cbn; try reflexivity.
  apply IH.
Qed.

Lemma replace_0x_prefixed (s : string) :
  JS.startsWith "0x" s = true -> ViemAbi.replace_0x s = JS.slice_from 2 s.
Proof.
  intro H. destruct s as [|c r]; [discriminate H|].
  cbn [ViemAbi.replace_0x]. rewrite H. reflexivity.
Qed.

Lemma replace_0x_length (s : string) :
  String.length (ViemAbi.replace_0x s) <= String.length s.
Proof.
  induction s as [|c r IH]; [apply le_n|].
  cbn [ViemAbi.replace_0x].
  destruct (JS.startsWith "0x" (String c r)).
  - rewrite slice_from_length. lia.
  - cbn [String.length]. lia.
Qed.

(** A value of 32 bytes always fits the padding of a bytes32. *)
Lemma padHex_sized (value : string) :
  ViemAbi.size value = 32 -> ViemAbi.padHex value 32 = Ok tt.
Proof.
  unfold ViemAbi.size, ViemAbi.padHex. intro H.
  destruct (JS.startsWith "0x" value) eqn:Hp.
  - rewrite (replace_0x_prefixed value Hp), slice_from_length.
    assert (Hlen : String.length value - 1 < 66).
    { destruct (Nat.lt_ge_cases (String.length value - 1) 66) as [Hlt|Hge];
        [exact Hlt|].
      pose proof (Nat.Div0.div_le_mono 66 (String.length value - 1) 2 Hge)
        as Hdiv.
      rewrite H in Hdiv. change (66 / 2) with 33 in Hdiv. lia. }
    destruct (Nat.ltb_spec (32 * 2) (String.length value - 2)); [lia|].
    reflexivity.
  - pose proof (replace_0x_length value) as Hle.
    destruct (Nat.ltb_spec (32 * 2)
                (String.length (ViemAbi.replace_0x value))); [lia|].
    reflexivity.
Qed.

(** The bytes32 check passes exactly on a value of 32 bytes. *)
Lemma encodeBytesN_32 (value : string) :
  (ViemAbi.size value = 32 -> ViemAbi.encodeBytesN 32 value = Ok tt)
  /\ (ViemAbi.size value <> 32 ->
      exists e, ViemAbi.encodeBytesN 32 value = Throw e).
Proof.
  unfold ViemAbi.encodeBytesN. split; intro H.
  - rewrite H. cbn [Nat.eqb]. apply padHex_sized. exact H.
  - apply Nat.eqb_neq in H. rewrite H. eauto.
Qed.

(** Text that starts with 0x is always accepted as bytes, whatever follows
    the prefix. *)
Lemma encodeBytes_prefixed (s : string) :
  JS.startsWith "0x" s = true -> ViemAbi.encodeBytes (JStr s) = Ok tt.
Proof.
  intro Hp. unfold ViemAbi.encodeBytes.
  destruct (ViemAbi.size s mod 32 =? 0)%nat; [reflexivity|].
  unfold ViemAbi.padHex.
  rewrite (replace_0x_prefixed s Hp), slice_from_length.
  pose proof (Nat.div_mod_eq (String.length s + 61) 64) as Hdiv.
  pose proof (Nat.mod_upper_bound (String.length s + 61) 64) as Hmod.
  destruct (Nat.ltb_spec ((String.length s + 61) / 64 * 32 * 2)
              (String.length s - 2)); [lia|].
  reflexivity.
Qed.

(** What is not text is never accepted as bytes. *)
Lemma encodeBytes_not_text (v : json) :
  (forall s, v <> JStr s) -> exists e, ViemAbi.encodeBytes v = Throw e.
Proof.
  intro H. destruct v; cbn; eauto.
  - now destruct (H s).
  - destruct (_ =? 0)%nat; eauto.
Qed.

(** An accepted call carries the function name and the arguments as they
    were given. *)
Lemma encodeFunctionData_accepted (name : string)
    (values : list ViemAbi.AbiArg) (data : CallData) :
  ViemAbi.encodeFunctionData name values = Ok data ->
  data = {| functionName := name;
            args := map ViemAbi.arg_value values |}.
Proof.
  unfold ViemAbi.encodeFunctionData.
  destruct (ViemAbi.encodeAbiParameters values); intro H;
    [injection H as <-; reflexivity | discriminate H].
Qed.

Lemma receiveMessage_data_prefixed (message signature : string) :
  JS.startsWith "0x" message = true ->
  JS.startsWith "0x" signature = true ->
  ViemAbi.encodeFunctionData "receiveMessage"
    [ViemAbi.ArgBytes (JStr message); ViemAbi.ArgBytes (JStr signature)]
  = Ok {| functionName := "receiveMessage";
          args := [JStr message; JStr signature] |}.
Proof.
  intros Hm Hs. unfold ViemAbi.encodeFunctionData.
  cbn [ViemAbi.encodeAbiParameters ViemAbi.encodeArg].
  rewrite (encodeBytes_prefixed message Hm), (encodeBytes_prefixed signature Hs).
  reflexivity.
Qed.

Lemma ethereum_approve_data :
  ViemAbi.encodeFunctionData "approve"
    [ViemAbi.ArgAddress BaseToEthereum.TOKEN_MESSENGER_V2;
     ViemAbi.ArgUint 256 10000000000]
  = Ok (snd approve_call).
Proof. reflexivity. Qed.

Lemma starknet_approve_data :
  ViemAbi.encodeFunctionData "approve"
    [ViemAbi.ArgAddress BaseToStarknet.TOKEN_MESSENGER_V2;
     ViemAbi.ArgUint 256 10000000000]
  = Ok (snd approve_call).
Proof. reflexivity. Qed.

Lemma ethereum_burn_data (recipient : string) :
  ViemAbi.encodeFunctionData "depositForBurn"
    [ViemAbi.ArgUint 256 BaseToEthereum.AMOUNT;
     ViemAbi.ArgUint 32 BaseToEthereum.ETHEREUM_DOMAIN;
     ViemAbi.ArgBytesN 32 recipient;
     ViemAbi.ArgAddress BaseToEthereum.BASE_SEPOLIA_USDC;
     ViemAbi.ArgBytesN 32 BaseToEthereum.DESTINATION_CALLER_BYTES32;
     ViemAbi.ArgUint 256 BaseToEthereum.maxFee;
     ViemAbi.ArgUint 32 BaseToEthereum.minFinalityThreshold]
  = match ViemAbi.encodeBytesN 32 recipient with
    | Ok _ => Ok (snd (burn_call 100000 0 recipient))
    | Throw e => Throw e
    end.
Proof.
  unfold ViemAbi.encodeFunctionData.
  cbn [ViemAbi.encodeAbiParameters ViemAbi.encodeArg].
  destruct (ViemAbi.encodeBytesN 32 recipient); reflexivity.
Qed.

Lemma starknet_burn_data (recipient : string) :
  ViemAbi.encodeFunctionData "depositForBurn"
    [ViemAbi.ArgUint 256 BaseToStarknet.AMOUNT;
     ViemAbi.ArgUint 32 BaseToStarknet.STARKNET_DOMAIN;
     ViemAbi.ArgBytesN 32 recipient;
     ViemAbi.ArgAddress BaseToStarknet.BASE_SEPOLIA_USDC;
     ViemAbi.ArgBytesN 32 BaseToStarknet.DESTINATION_CALLER_BYTES32;
     ViemAbi.ArgUint 256 BaseToStarknet.maxFee;
     ViemAbi.ArgUint 32 BaseToStarknet.minFinalityThreshold]
  = match ViemAbi.encodeBytesN 32 recipient with
    | Ok _ => Ok (snd (burn_call 10000 25 recipient))
    | Throw e => Throw e
    end.
Proof.
  unfold ViemAbi.encodeFunctionData.
  cbn [ViemAbi.encodeAbiParameters ViemAbi.encodeArg].
  destruct (ViemAbi.encodeBytesN 32 recipient); reflexivity.
Qed.

(** ** The Base -> Ethereum pipeline *)

(** Compute the transactions submitted along an explicit trace. *)
Ltac sent_so_far :=
  cbn [snd trace]; unfold submissions;
  repeat rewrite flat_map_app;
  repeat match goal with
         | |- context [flat_map ?f (failed_rounds ?n ?u ?g ?k)] =>
             change (flat_map f (failed_rounds n u g k))
               with (submissions (failed_rounds n u g k));
             rewrite submissions_failed_rounds
         end;
  cbn [flat_map app];
  repeat rewrite app_nil_r;
  repeat rewrite <- app_assoc;
  cbn [app];
  try reflexivity.

Section MainFacts.

Variable net : Net.
Variables account_address DESTINATION_ADDRESS : string.

Lemma complete_message_fields (m : json) :
  member "status" m = JStr "complete" ->
  get (member "message") m = Ok (member "message" m)
  /\ get (member "attestation") m = Ok (member "attestation" m).
Proof.
  intro H. destruct m; cbn in H; try discriminate H.
  split; reflexivity.
Qed.

(** C8: in a run of the Base -> Ethereum pipeline the only transactions
    submitted before the mint are the approval and the burn, and a mint is
    only ever submitted for the object the poller has returned, with the
    "message" and "attestation" fields of that very object as its two
    arguments. Once the poller has returned, the mint stage hands exactly
    these two fields to the encoder: if the encoder accepts them (it
    accepts every text that starts with 0x) the mint is submitted with
    them; if it rejects them nothing is submitted and the run throws the
    encoder's error. *)
Theorem mint_receives_polled_attestation (fuel : nat) (w : World) :
  let run :=
    BaseToEthereum.main net account_address DESTINATION_ADDRESS fuel w in
  let w' := snd run in
  let until_burn :=
    (console_log ("Source (Base Sepolia) sender: " ++ account_address) ;;;
     console_log ("Destination (Ethereum Sepolia) recipient: "
                  ++ DESTINATION_ADDRESS) ;;;
     BaseToEthereum.approveUSDC net ;;;
     BaseToEthereum.burnUSDC net DESTINATION_ADDRESS)%comp in
  let mint_of (m : json) :=
    ("sepolia", BaseToEthereum.MESSAGE_TRANSMITTER_V2,
     {| functionName := "receiveMessage";
        args := [member "message" m; member "attestation" m] |}) in
  let encoded (m : json) :=
    ViemAbi.encodeFunctionData "receiveMessage"
      [ViemAbi.ArgBytes (member "message" m);
       ViemAbi.ArgBytes (member "attestation" m)] in
  exists before mint : list (string * string * CallData),
    submissions (trace w') = submissions (trace w) ++ before ++ mint
    /\ Forall (fun s => functionName (snd s) <> "receiveMessage") before
    /\ (mint = []
        \/ exists burnTx w1 m w2,
             until_burn w = (Done burnTx, w1)
             /\ BaseToEthereum.retrieveAttestation net fuel burnTx w1
                = (Done m, w2)
             /\ mint = [mint_of m])
    /\ (forall burnTx w1 m w2,
          until_burn w = (Done burnTx, w1) ->
          BaseToEthereum.retrieveAttestation net fuel burnTx w1 = (Done m, w2) ->
          match encoded m with
          | Ok _ => mint = [mint_of m]
          | Throw e => mint = [] /\ fst run = Threw e
          end)
    /\ (forall burnTx w1 m w2 message signature,
          until_burn w = (Done burnTx, w1) ->
          BaseToEthereum.retrieveAttestation net fuel burnTx w1 = (Done m, w2) ->
          member "message" m = JStr message ->
          JS.startsWith "0x" message = true ->
          member "attestation" m = JStr signature ->
          JS.startsWith "0x" signature = true ->
          mint = [mint_of m]).
Proof.
  intros run w' until_burn mint_of encoded. subst w' run until_burn.
  unfold BaseToEthereum.main, BaseToEthereum.approveUSDC,
    BaseToEthereum.burnUSDC, bind, console_log, sendTransaction, emit.
  cbn [trace gets sends].
  rewrite ethereum_approve_data. cbn [lift ret throw trace gets sends].
  destruct (send_tx net (sends w)) as [approveTx|e1];
    cbn [lift ret throw trace gets sends].
  2:{ (* the approval is rejected *)
      eexists [_], []. split; [sent_so_far|].
      split; [|split; [|split]].
      - repeat constructor; cbn; discriminate.
      - now left.
      - intros burnTx w1 m w2 H. discriminate H.
      - intros burnTx w1 m w2 message signature H. discriminate H. }
  rewrite ethereum_burn_data.
  destruct (ViemAbi.encodeBytesN 32
              (BaseToEthereum.DESTINATION_ADDRESS_BYTES32 DESTINATION_ADDRESS))
    as [[]|eb]; cbn [lift ret throw trace gets sends].
  2:{ (* the recipient is no bytes32 *)
      eexists [_], []. split; [sent_so_far|].
      split; [|split; [|split]].
      - repeat constructor; cbn; discriminate.
      - now left.
      - intros burnTx w1 m w2 H. discriminate H.
      - intros burnTx w1 m w2 message signature H. discriminate H. }
  destruct (send_tx net (S (sends w))) as [burnTx|e2];
    cbn [lift ret throw trace gets sends].
  2:{ (* the burn is rejected *)
      eexists [_; _], []. split; [sent_so_far|].
      split; [|split; [|split]].
      - repeat constructor; cbn; discriminate.
      - now left.
      - intros burnTx w1 m w2 H. discriminate H.
      - intros burnTx w1 m w2 message signature H. discriminate H. }
  match goal with
  | |- context [BaseToEthereum.retrieveAttestation net fuel burnTx ?x] =>
      set (w1 := x)
  end.
  destruct (retrieveAttestation_cases net
              "3) Waiting for attestation from Circle Iris..." "6"
              fuel burnTx w1)
    as [(k & data & Hk & Hbefore & Hget & Hready & Hrun) | (Hnone & Hrun)];
    change (Poller.retrieveAttestation net
              "3) Waiting for attestation from Circle Iris..." "6"
              fuel burnTx w1)
      with (BaseToEthereum.retrieveAttestation net fuel burnTx w1) in Hrun.
  - (* the poller returned [first_message data] *)
    rewrite Hrun.
    destruct (ready_first_message data Hready) as (_ & _ & Hstatus).
    destruct (complete_message_fields _ Hstatus) as (Hmsg & Hatt).
    unfold BaseToEthereum.mintUSDC, bind, console_log, sendTransaction, emit.
    cbn [trace gets sends]. rewrite Hmsg. cbn [lift ret]. rewrite Hatt.
    cbn [lift ret].
    assert (Hsame :
      forall burnTx' w1' m w2,
        (Done burnTx, w1) = (Done burnTx', w1') ->
        BaseToEthereum.retrieveAttestation net fuel burnTx' w1' = (Done m, w2) ->
        m = Poller.first_message data).
    { intros burnTx' w1' m w2 H Hr. injection H as <- <-.
      rewrite Hrun in Hr. injection Hr as <- _. reflexivity. }
    destruct (ViemAbi.encodeFunctionData "receiveMessage"
                [ViemAbi.ArgBytes (member "message" (Poller.first_message data));
                 ViemAbi.ArgBytes
                   (member "attestation" (Poller.first_message data))])
      as [mintData|e] eqn:Henc; cbn [lift ret throw trace gets sends].
    + (* the encoder accepts the two fields *)
      pose proof (encodeFunctionData_accepted _ _ _ Henc) as Hdata.
      cbn [map ViemAbi.arg_value] in Hdata. subst mintData.
      eexists [_; _], [mint_of (Poller.first_message data)].
      split.
      { unfold w1. cbn [trace gets sends].
        destruct (send_tx net (S (S (sends w)))) as [mintTx|e3];
          cbn [lift ret throw]; sent_so_far. }
      split; [repeat constructor; cbn; discriminate|].
      split; [|split].
      * right. exists burnTx, w1, (Poller.first_message data). eexists.
        split; [reflexivity|]. split; [|reflexivity].
        exact Hrun.
      * intros burnTx' w1' m w2 H Hr.
        rewrite (Hsame _ _ _ _ H Hr). unfold encoded. rewrite Henc.
        reflexivity.
      * intros burnTx' w1' m w2 message signature H Hr _ _ _ _.
        rewrite (Hsame _ _ _ _ H Hr). reflexivity.
    + (* the encoder rejects them *)
      eexists [_; _], []. split; [unfold w1; sent_so_far|].
      split; [repeat constructor; cbn; discriminate|].
      split; [now left|]. split.
      * intros burnTx' w1' m w2 H Hr.
        rewrite (Hsame _ _ _ _ H Hr). unfold encoded. rewrite Henc.
        split; reflexivity.
      * intros burnTx' w1' m w2 message signature H Hr Hm Hmp Hs Hsp.
        rewrite (Hsame _ _ _ _ H Hr) in Hm, Hs.
        rewrite Hm, Hs, (receiveMessage_data_prefixed _ _ Hmp Hsp) in Henc.
        discriminate Henc.
  - (* the poller is still looping *)
    rewrite Hrun.
    eexists [_; _], []. split; [unfold w1; sent_so_far|].
    split; [|split; [|split]].
    + repeat constructor; cbn; discriminate.
    + now left.
    + intros burnTx' w1' m w2 H Hr. injection H as <- <-.
      fold w1 in Hr. rewrite Hrun in Hr. discriminate Hr.
    + intros burnTx' w1' m w2 message signature H Hr. injection H as <- <-.
      fold w1 in Hr. rewrite Hrun in Hr. discriminate Hr.
Qed.

End MainFacts.

(** The scripted scenario end to end: approval, burn, three polls, and a
    mint that carries the polled message and attestation. *)
Example main_scripted_run :
  submissions
    (trace (snd (BaseToEthereum.main scripted_net "0xSender"
                   "0x8FE6B999Dc680CcFDD5Bf7EB0974218be2542DAA" 3 fresh_world)))
  = [("baseSepolia", BaseToEthereum.BASE_SEPOLIA_USDC,
      {| functionName := "approve";
         args := [JStr BaseToEthereum.TOKEN_MESSENGER_V2; JNum 10000000000] |});
     ("baseSepolia", BaseToEthereum.TOKEN_MESSENGER_V2,
      {| functionName := "depositForBurn";
         args := [JNum 100000; JNum 0;
                  JStr "0x0000000000000000000000008FE6B999Dc680CcFDD5Bf7EB0974218be2542DAA";
                  JStr BaseToEthereum.BASE_SEPOLIA_USDC;
                  JStr BaseToEthereum.DESTINATION_CALLER_BYTES32;
                  JNum 500; JNum 1000] |});
     ("sepolia", BaseToEthereum.MESSAGE_TRANSMITTER_V2,
      {| functionName := "receiveMessage";
         args := [JStr "0x0000000100000006"; JStr "0x5ca1ab1e"] |})].
Proof. reflexivity. Qed.

(** ** Hexadecimal text *)

Lemma isHexDigit_unhex (c : ascii) :
  JS.isHexDigit c = true -> exists v, JS.unhex c = Some v.
Proof.
  unfold JS.isHexDigit, JS.unhex.
  destruct (JS.in_range "0" "9" c); [eauto|].
  destruct (JS.in_range "a" "f" c); [eauto|].
  destruct (JS.in_range "A" "F" c); [eauto|].
  discriminate.
Qed.

(** On an even number of hex digits viem's parser and Node's decoder give
    the same bytes, one per digit pair. *)
Lemma parse_pairs_of_hex_digits (n : nat) (s : string) :
  String.length s = 2 * n ->
  JS.all_chars JS.isHexDigit s = true ->
  Viem.parse_pairs s = Ok (NodeBuffer.from_hex s)
  /\ List.length (NodeBuffer.from_hex s) = n.
Proof.
  revert s. induction n as [|n IH]; intros s Hlen Hhex.
  - destruct s; [split; reflexivity | discriminate Hlen].
  - destruct s as [|a [|b r]]; cbn [String.length] in Hlen; try lia.
    cbn [JS.all_chars] in Hhex.
    apply andb_prop in Hhex. destruct Hhex as [Ha Hhex].
    apply andb_prop in Hhex. destruct Hhex as [Hb Hr].
    destruct (isHexDigit_unhex a Ha) as [x Hx].
    destruct (isHexDigit_unhex b Hb) as [y Hy].
    destruct (IH r) as [Hparse Hcount]; [lia | exact Hr |].
    cbn [Viem.parse_pairs NodeBuffer.from_hex].
    rewrite Hx, Hy, Hparse. cbn [List.length]. split; [reflexivity | lia].
Qed.

Lemma parse_pairs_zero_byte (s : string) :
  Viem.parse_pairs (String "0" (String "0" s))
  = match Viem.parse_pairs s with
    | Ok bs => Ok (x00 :: bs)
    | Throw e => Throw e
    end.
Proof. reflexivity. Qed.

(** C4: for an address written as 0x and 40 hex digits, both padding
    helpers give 0x, 24 zero digits and the 40 address digits, that is a
    32-byte value whose first 12 bytes are zero and whose last 20 bytes are
    the bytes of the address. *)
Theorem address_left_padded_to_32_bytes (address digits : string) :
  address = ("0x" ++ digits)%string ->
  String.length digits = 40 ->
  JS.all_chars JS.isHexDigit digits = true ->
  exists addr_bytes padded,
    Viem.hexToBytes address = Ok addr_bytes
    /\ List.length addr_bytes = 20
    /\ BaseToEthereum.toBytes32Address address
       = ("0x000000000000000000000000" ++ digits)%string
    /\ BaseToStarknet.toBytes32 address
       = BaseToEthereum.toBytes32Address address
    /\ Viem.hexToBytes (BaseToEthereum.toBytes32Address address) = Ok padded
    /\ List.length padded = 32
    /\ firstn 12 padded = repeat x00 12
    /\ skipn 12 padded = addr_bytes.
Proof.
  intros -> Hlen Hhex.
  destruct (parse_pairs_of_hex_digits 20 digits Hlen Hhex) as [Hparse Hcount].
  exists (NodeBuffer.from_hex digits),
    (repeat x00 12 ++ NodeBuffer.from_hex digits).
  assert (Haddr : Viem.hexToBytes ("0x" ++ digits) = Ok (NodeBuffer.from_hex digits)).
  { unfold Viem.hexToBytes. cbn [append JS.slice_from].
    rewrite Hlen. cbn [Nat.odd Nat.even negb]. exact Hparse. }
  assert (Hpad : BaseToEthereum.toBytes32Address ("0x" ++ digits)
                 = ("0x000000000000000000000000" ++ digits)%string)
    by reflexivity.
  split; [exact Haddr|]. split; [exact Hcount|]. split; [exact Hpad|].
  split.
  { rewrite Hpad. unfold BaseToStarknet.toBytes32, JS.padStart.
    cbn [append JS.startsWith JS.slice_from Ascii.eqb Bool.eqb andb].
    rewrite Hlen. reflexivity. }
  split.
  { rewrite Hpad. unfold Viem.hexToBytes.
    cbn [append JS.slice_from String.length]. rewrite Hlen.
    change (Nat.odd 64) with false. cbv iota.
    rewrite !parse_pairs_zero_byte, Hparse. reflexivity. }
  split; [rewrite length_app, repeat_length, Hcount; reflexivity|].
  split; reflexivity.
Qed.

Lemma address_left_padded_to_32_bytes_witness :
  exists addr_bytes padded,
    Viem.hexToBytes "0x8FE6B999Dc680CcFDD5Bf7EB0974218be2542DAA" = Ok addr_bytes
    /\ List.length addr_bytes = 20
    /\ BaseToEthereum.toBytes32Address "0x8FE6B999Dc680CcFDD5Bf7EB0974218be2542DAA"
       = "0x0000000000000000000000008FE6B999Dc680CcFDD5Bf7EB0974218be2542DAA"
    /\ BaseToStarknet.toBytes32 "0x8FE6B999Dc680CcFDD5Bf7EB0974218be2542DAA"
       = BaseToEthereum.toBytes32Address "0x8FE6B999Dc680CcFDD5Bf7EB0974218be2542DAA"
    /\ Viem.hexToBytes
         (BaseToEthereum.toBytes32Address "0x8FE6B999Dc680CcFDD5Bf7EB0974218be2542DAA")
       = Ok padded
    /\ List.length padded = 32
    /\ firstn 12 padded = repeat x00 12
    /\ skipn 12 padded = addr_bytes.
Proof.
  exact (address_left_padded_to_32_bytes
           "0x8FE6B999Dc680CcFDD5Bf7EB0974218be2542DAA"
           "8FE6B999Dc680CcFDD5Bf7EB0974218be2542DAA"
           eq_refl eq_refl eq_refl).
Defined.

(** ** The two copies of [decodeEnvelope] *)

Lemma decodeEnvelope_base64_branch (str : string) :
  isHex str = false ->
  BaseToStarknet.decodeEnvelope str = Ok (NodeBuffer.from_base64 str)
  /\ SolanaToStarknet.decodeEnvelope str = Ok (NodeBuffer.from_base64 str).
Proof.
  unfold isHex, BaseToStarknet.decodeEnvelope, SolanaToStarknet.decodeEnvelope.
  intros ->. split; reflexivity.
Qed.

Lemma decodeEnvelope_prefixed (str : string) :
  JS.startsWith "0x" str = true ->
  BaseToStarknet.decodeEnvelope str = Viem.hexToBytes str
  /\ SolanaToStarknet.decodeEnvelope str
     = Ok (NodeBuffer.from_hex (JS.slice_from 2 str)).
Proof.
  unfold BaseToStarknet.decodeEnvelope, SolanaToStarknet.decodeEnvelope.
  intros ->. split; reflexivity.
Qed.

Lemma decodeEnvelope_prefixed_pairs (str : string) :
  prefixed_hex_pairs str = true ->
  BaseToStarknet.decodeEnvelope str
  = Ok (NodeBuffer.from_hex (JS.slice_from 2 str))
  /\ SolanaToStarknet.decodeEnvelope str
     = Ok (NodeBuffer.from_hex (JS.slice_from 2 str)).
Proof.
  unfold prefixed_hex_pairs. intro H.
  apply andb_prop in H. destruct H as [H Hhex].
  apply andb_prop in H. destruct H as [Hprefix Heven].
  unfold BaseToStarknet.decodeEnvelope, SolanaToStarknet.decodeEnvelope.
  rewrite Hprefix. cbn [orb]. split; [|reflexivity].
  unfold Viem.hexToBytes.
  rewrite <- Nat.negb_even, Heven. cbn [negb].
  apply Nat.even_spec in Heven. destruct Heven as [n Hn].
  apply (parse_pairs_of_hex_digits n); assumption.
Qed.

(** Induction over a string two characters at a time. *)
Lemma string_pairs_ind (P : string -> Prop) :
  P EmptyString ->
  (forall a, P (String a EmptyString)) ->
  (forall a b r, P r -> P (String a (String b r))) ->
  forall s, P s.
Proof.
  intros H0 H1 H2. fix IH 1.
  intros [|a [|b r]]; [exact H0 | apply H1 | apply H2, IH].
Qed.

Lemma unhex_isHexDigit (c : ascii) (v : Z) :
  JS.unhex c = Some v -> JS.isHexDigit c = true.
Proof.
  unfold JS.isHexDigit, JS.unhex.
  destruct (JS.in_range "0" "9" c); [reflexivity|].
  destruct (JS.in_range "a" "f" c); [reflexivity|].
  destruct (JS.in_range "A" "F" c); [reflexivity|].
  discriminate.
Qed.

(** Node's hex decoder never yields more bytes than digit pairs. *)
Lemma from_hex_length_le (s : string) :
  2 * List.length (NodeBuffer.from_hex s) <= String.length s.
Proof.
  induction s as [| a | a b r IH] using string_pairs_ind.
  - cbn. lia.
  - cbn. lia.
  - cbn [NodeBuffer.from_hex String.length].
    destruct (JS.unhex a); [destruct (JS.unhex b)|]; cbn [List.length]; lia.
Qed.

(** viem's parser succeeds only on whole pairs of hex digits, and then
    yields one byte per pair. *)
Lemma parse_pairs_ok (s : string) (bs : list byte) :
  Viem.parse_pairs s = Ok bs ->
  Nat.even (String.length s) = true
  /\ JS.all_chars JS.isHexDigit s = true
  /\ 2 * List.length bs = String.length s.
Proof.
  revert bs. induction s as [| a | a b r IH] using string_pairs_ind;
    intros bs H.
  - injection H as <-. repeat split.
  - discriminate H.
  - cbn [Viem.parse_pairs] in H.
    destruct (JS.unhex a) as [x|] eqn:Hx; [|discriminate H].
    destruct (JS.unhex b) as [y|] eqn:Hy; [|discriminate H].
    destruct (Viem.parse_pairs r) as [bs'|e]; [|discriminate H].
    injection H as <-.
    destruct (IH bs' eq_refl) as (He & Hh & Hl).
    cbn [String.length JS.all_chars List.length].
    rewrite (unhex_isHexDigit a x Hx), (unhex_isHexDigit b y Hy), Hh.
    repeat split; [exact He | lia].
Qed.

(** C10, as the code has it: on an input that is not taken for hex both
    copies run the same base64 decoder; on a 0x-prefixed input they return
    the same bytes exactly when the prefix is followed by an even number of
    hex digits. *)
Theorem decodeEnvelope_copies_agree (str : string) :
  isHex str = false \/ JS.startsWith "0x" str = true ->
  envelopes_agree str
  <-> (isHex str = false \/ prefixed_hex_pairs str = true).
Proof.
  intro Hdom. split.
  - intro Hagree.
    destruct (isHex str) eqn:HisHex; [right | now left].
    destruct Hdom as [Hdom|Hprefix]; [discriminate Hdom|].
    unfold prefixed_hex_pairs. rewrite Hprefix. cbn [andb].
    destruct (decodeEnvelope_prefixed str Hprefix) as [EB ES].
    unfold Viem.hexToBytes in EB.
    remember (JS.slice_from 2 str) as digits eqn:Hdigits.
    unfold envelopes_agree in Hagree. rewrite EB, ES in Hagree.
    destruct Hagree as [(bs & HB & HS) | (e1 & e2 & _ & HS)];
      [|discriminate HS].
    injection HS as <-.
    rewrite <- Nat.negb_even in HB.
    destruct (Nat.even (String.length digits)) eqn:Heven; cbn [negb] in HB.
    + destruct (parse_pairs_ok _ _ HB) as (_ & Hh & _). now rewrite Hh.
    + destruct (parse_pairs_ok _ _ HB) as (_ & _ & Hl).
      pose proof (from_hex_length_le digits) as Hle.
      cbn [String.length] in Hl. lia.
  - intros [HisHex | Hpairs].
    + left. destruct (decodeEnvelope_base64_branch str HisHex) as [HB HS].
      eexists. split; [exact HB | exact HS].
    + left. destruct (decodeEnvelope_prefixed_pairs str Hpairs) as [HB HS].
      eexists. split; [exact HB | exact HS].
Qed.

Lemma decodeEnvelope_copies_agree_witness :
  (isHex "0x5ca1ab1e" = false \/ JS.startsWith "0x" "0x5ca1ab1e" = true)
  /\ (envelopes_agree "0x5ca1ab1e"
      <-> (isHex "0x5ca1ab1e" = false
           \/ prefixed_hex_pairs "0x5ca1ab1e" = true)).
Proof.
  split.
  - right. reflexivity.
  - apply (decodeEnvelope_copies_agree "0x5ca1ab1e"). right. reflexivity.
Defined.

(** C10 as stated fails: on 0xabc viem completes the odd digit string
    with a leading zero and returns the bytes 0a bc, [Buffer.from] drops
    the last digit and returns ab. *)
Lemma decodeEnvelope_copies_differ_on_odd_digits :
  BaseToStarknet.decodeEnvelope "0xabc" = Ok [x0a; xbc]
  /\ SolanaToStarknet.decodeEnvelope "0xabc" = Ok [xab]
  /\ ~ envelopes_agree "0xabc".
Proof.
  split; [reflexivity|]. split; [reflexivity|].
  intros [(bs & HB & HS) | (e1 & e2 & HB & _)].
  - cbv in HB, HS. rewrite <- HB in HS. discriminate HS.
  - cbv in HB. discriminate HB.
Qed.

(** Further inputs on which the copies part: a non-hex character after the
    prefix, and hex digits without a prefix. *)
Example decodeEnvelope_copies_on_bad_digit :
  BaseToStarknet.decodeEnvelope "0xzz" = Throw (Error "Invalid byte sequence")
  /\ SolanaToStarknet.decodeEnvelope "0xzz" = Ok [].
Proof. split; reflexivity. Qed.

Example decodeEnvelope_copies_on_bare_hex :
  BaseToStarknet.decodeEnvelope "deadbeef" = Ok [xad; xbe; xef]
  /\ SolanaToStarknet.decodeEnvelope "deadbeef" = Ok [xde; xad; xbe; xef].
Proof. split; reflexivity. Qed.

(** ** Hex and base64 text of a payload decode to the payload *)

Lemma from_hex_toString_hex (payload : list byte) :
  NodeBuffer.from_hex (NodeBuffer.toString_hex payload) = payload.
Proof.
  induction payload as [|b r IH].
  - reflexivity.
  - cbn [NodeBuffer.toString_hex NodeBuffer.from_hex].
    rewrite unhex_hexChar_hi, unhex_hexChar_lo, IH. f_equal.
    rewrite <- (byte_of_to_Z b) at 3. f_equal.
    pose proof (Z.div_mod (byte_to_Z b) 16). lia.
Qed.

Lemma toString_hex_digits (payload : list byte) :
  String.length (NodeBuffer.toString_hex payload) = 2 * List.length payload
  /\ JS.all_chars JS.isHexDigit (NodeBuffer.toString_hex payload) = true.
Proof.
  induction payload as [|b r [IHl IHh]].
  - split; reflexivity.
  - cbn [NodeBuffer.toString_hex String.length JS.all_chars List.length].
    rewrite IHl, IHh.
    rewrite (unhex_isHexDigit _ _ (unhex_hexChar_hi b)),
      (unhex_isHexDigit _ _ (unhex_hexChar_lo b)).
    split; [lia | reflexivity].
Qed.

(** Hex text never begins with 0x: its second character is a digit. *)
Lemma toString_hex_no_prefix (payload : list byte) :
  JS.startsWith "0x" (NodeBuffer.toString_hex payload) = false.
Proof.
  destruct payload as [|b r]; [reflexivity|].
  cbn [NodeBuffer.toString_hex JS.startsWith].
  destruct b; reflexivity.
Qed.

Lemma base64Char_nat (k : nat) :
  k < 64 ->
  NodeBuffer.unbase64 (NodeBuffer.base64Char (Z.of_nat k)) = Some (Z.of_nat k)
  /\ (NodeBuffer.base64Char (Z.of_nat k) =? "=")%char = false.
Proof.
  intro Hk.
  do 64 (destruct k as [|k]; [split; reflexivity|]).
  lia.
Qed.

Lemma sextets_base64Char (v : Z) (r : string) :
  (0 <= v < 64)%Z ->
  NodeBuffer.sextets (String (NodeBuffer.base64Char v) r)
  = v :: NodeBuffer.sextets r.
Proof.
  intro Hv.
  destruct (base64Char_nat (Z.to_nat v)) as [Hun Hpad]; [lia|].
  rewrite Z2Nat.id in Hun, Hpad by lia.
  cbn [NodeBuffer.sextets]. rewrite Hpad, Hun. reflexivity.
Qed.

(** The four sextets of three bytes, put together again. *)
Lemma regroup_first (x y : Z) :
  (0 <= x < 256)%Z -> (0 <= y < 256)%Z ->
  (x / 4 * 4 + (x mod 4 * 16 + y / 16) / 16 = x)%Z.
Proof. intros Hx Hy. Z.div_mod_to_equations. lia. Qed.

Lemma regroup_second (x y z : Z) :
  (0 <= x < 256)%Z -> (0 <= y < 256)%Z -> (0 <= z < 256)%Z ->
  ((x mod 4 * 16 + y / 16) mod 16 * 16 + (y mod 16 * 4 + z / 64) / 4 = y)%Z.
Proof. intros Hx Hy Hz. Z.div_mod_to_equations. lia. Qed.

Lemma regroup_third (y z : Z) :
  (0 <= y < 256)%Z -> (0 <= z < 256)%Z ->
  ((y mod 16 * 4 + z / 64) mod 4 * 64 + z mod 64 = z)%Z.
Proof. intros Hy Hz. Z.div_mod_to_equations. lia. Qed.

Lemma sextet_ranges (x y : Z) :
  (0 <= x < 256)%Z -> (0 <= y < 256)%Z ->
  (0 <= x / 4 < 64)%Z
  /\ (0 <= x mod 4 * 16 + y / 16 < 64)%Z
  /\ (0 <= x mod 16 * 4 + y / 64 < 64)%Z
  /\ (0 <= x mod 64 < 64)%Z.
Proof. intros Hx Hy. Z.div_mod_to_equations. lia. Qed.

(** Induction over a buffer three bytes at a time. *)
Lemma list_triples_ind (P : list byte -> Prop) :
  P [] ->
  (forall a, P [a]) ->
  (forall a b, P [a; b]) ->
  (forall a b c r, P r -> P (a :: b :: c :: r)) ->
  forall l, P l.
Proof.
  intros H0 H1 H2 H3. fix IH 1.
  intros [|a [|b [|c r]]];
    [exact H0 | apply H1 | apply H2 | apply H3, IH].
Qed.

Lemma regroup_first_alone (x : Z) :
  (0 <= x < 256)%Z -> (x / 4 * 4 + x mod 4 * 16 / 16 = x)%Z.
Proof. intros Hx. Z.div_mod_to_equations. lia. Qed.

Lemma regroup_second_alone (x y : Z) :
  (0 <= x < 256)%Z -> (0 <= y < 256)%Z ->
  ((x mod 4 * 16 + y / 16) mod 16 * 16 + y mod 16 * 4 / 4 = y)%Z.
Proof. intros Hx Hy. Z.div_mod_to_equations. lia. Qed.

Lemma from_base64_toString_base64 (payload : list byte) :
  NodeBuffer.from_base64 (NodeBuffer.toString_base64 payload) = payload.
Proof.
  unfold NodeBuffer.from_base64.
  induction payload as [| a | a b | a b c r IH] using list_triples_ind.
  - reflexivity.
  - pose proof (byte_to_Z_range a) as Ha.
    cbn [NodeBuffer.toString_base64].
    rewrite !sextets_base64Char by (Z.div_mod_to_equations; lia).
    cbn [NodeBuffer.sextets Ascii.eqb Bool.eqb NodeBuffer.bytes_of_sextets].
    rewrite regroup_first_alone by exact Ha.
    rewrite byte_of_to_Z. reflexivity.
  - pose proof (byte_to_Z_range a) as Ha.
    pose proof (byte_to_Z_range b) as Hb.
    cbn [NodeBuffer.toString_base64].
    rewrite !sextets_base64Char by (Z.div_mod_to_equations; lia).
    cbn [NodeBuffer.sextets Ascii.eqb Bool.eqb NodeBuffer.bytes_of_sextets].
    rewrite regroup_first, regroup_second_alone by assumption.
    rewrite !byte_of_to_Z. reflexivity.
  - pose proof (byte_to_Z_range a) as Ha.
    pose proof (byte_to_Z_range b) as Hb.
    pose proof (byte_to_Z_range c) as Hc.
    destruct (sextet_ranges (byte_to_Z a) (byte_to_Z b) Ha Hb) as (R0 & R1 & _).
    destruct (sextet_ranges (byte_to_Z b) (byte_to_Z c) Hb Hc) as (_ & _ & R2 & _).
    destruct (sextet_ranges (byte_to_Z c) (byte_to_Z c) Hc Hc) as (_ & _ & _ & R3).
    cbn [NodeBuffer.toString_base64].
    rewrite !sextets_base64Char by assumption.
    cbn [NodeBuffer.bytes_of_sextets].
    rewrite regroup_first, regroup_second, regroup_third by assumption.
    rewrite !byte_of_to_Z, IH. reflexivity.
Qed.

Lemma hex_envelope_prefixed_pairs (payload : list byte) :
  prefixed_hex_pairs (hex_envelope payload) = true
  /\ JS.slice_from 2 (hex_envelope payload) = NodeBuffer.toString_hex payload.
Proof.
  destruct (toString_hex_digits payload) as [Hl Hh].
  unfold prefixed_hex_pairs, hex_envelope.
  cbn [append JS.startsWith JS.slice_from Ascii.eqb Bool.eqb andb].
  rewrite Hl, Hh, Nat.even_mul. split; reflexivity.
Qed.

(** The copy that strips the prefix itself also reads hex text that comes
    without one. *)
Lemma decodeEnvelope_bare_hex (payload : list byte) :
  SolanaToStarknet.decodeEnvelope (NodeBuffer.toString_hex payload)
  = Ok payload.
Proof.
  destruct payload as [|b r]; [reflexivity|].
  unfold SolanaToStarknet.decodeEnvelope.
  rewrite toString_hex_no_prefix.
  destruct (toString_hex_digits (b :: r)) as [_ Hh].
  rewrite from_hex_toString_hex.
  cbn [NodeBuffer.toString_hex JS.test_hex_regex] in *.
  rewrite Hh. reflexivity.
Qed.

(** Both copies read the 0x-prefixed hex form of any payload back. *)
Lemma decodeEnvelope_hex_envelope (payload : list byte) :
  BaseToStarknet.decodeEnvelope (hex_envelope payload) = Ok payload
  /\ SolanaToStarknet.decodeEnvelope (hex_envelope payload) = Ok payload.
Proof.
  destruct (hex_envelope_prefixed_pairs payload) as [Hpairs Hdigits].
  destruct (decodeEnvelope_prefixed_pairs _ Hpairs) as [HB HS].
  rewrite Hdigits, from_hex_toString_hex in HB, HS.
  split; assumption.
Qed.

(** Both copies read the base64 form back once it has passed as "not
    hex". *)
Lemma decodeEnvelope_base64_envelope (payload : list byte) :
  isHex (base64_envelope payload) = false ->
  BaseToStarknet.decodeEnvelope (base64_envelope payload) = Ok payload
  /\ SolanaToStarknet.decodeEnvelope (base64_envelope payload) = Ok payload.
Proof.
  intro Hb64.
  destruct (decodeEnvelope_base64_branch _ Hb64) as [HB HS].
  pose proof (from_base64_toString_base64 payload) as Hrt.
  fold (base64_envelope payload) in Hrt.
  rewrite Hrt in HB, HS. split; assumption.
Qed.

(** C2, as the code has it: a payload whose base64 text is not itself
    taken for hex decodes to the same bytes, the payload, from its
    0x-prefixed hex form and from its base64 form, with either copy of
    [decodeEnvelope]. *)
Theorem decodeEnvelope_form_invariance (payload : list byte) :
  isHex (base64_envelope payload) = false ->
  BaseToStarknet.decodeEnvelope (hex_envelope payload) = Ok payload
  /\ BaseToStarknet.decodeEnvelope (base64_envelope payload) = Ok payload
  /\ SolanaToStarknet.decodeEnvelope (hex_envelope payload) = Ok payload
  /\ SolanaToStarknet.decodeEnvelope (base64_envelope payload) = Ok payload
  /\ SolanaToStarknet.decodeEnvelope (NodeBuffer.toString_hex payload)
     = Ok payload
  /\ form_invariant BaseToStarknet.decodeEnvelope payload
  /\ form_invariant SolanaToStarknet.decodeEnvelope payload.
Proof.
  intro Hb64.
  destruct (decodeEnvelope_hex_envelope payload) as [HB HS].
  destruct (decodeEnvelope_base64_envelope payload Hb64) as [HB64 HS64].
  unfold form_invariant. rewrite HB, HS, HB64, HS64.
  repeat split. apply decodeEnvelope_bare_hex.
Qed.

Lemma decodeEnvelope_form_invariance_witness :
  isHex (base64_envelope [x48; x65; x6c; x6c; x6f]) = false
  /\ base64_envelope [x48; x65; x6c; x6c; x6f] = "SGVsbG8="
  /\ BaseToStarknet.decodeEnvelope "0x48656c6c6f"
     = BaseToStarknet.decodeEnvelope "SGVsbG8="
  /\ SolanaToStarknet.decodeEnvelope "0x48656c6c6f"
     = SolanaToStarknet.decodeEnvelope "SGVsbG8=".
Proof.
  destruct (decodeEnvelope_form_invariance [x48; x65; x6c; x6c; x6f] eq_refl)
    as (_ & _ & _ & _ & _ & HB & HS).
  split; [reflexivity|]. split; [reflexivity|].
  split; [exact HB | exact HS].
Defined.

(** C2 as stated fails: the base64 text of three zero bytes is AAAA, which
    passes the hex test and is decoded as hex digits. *)
Lemma decodeEnvelope_takes_base64_for_hex :
  hex_envelope [x00; x00; x00] = "0x000000"
  /\ base64_envelope [x00; x00; x00] = "AAAA"
  /\ SolanaToStarknet.decodeEnvelope "0x000000" = Ok [x00; x00; x00]
  /\ SolanaToStarknet.decodeEnvelope "AAAA" = Ok [xaa; xaa]
  /\ BaseToStarknet.decodeEnvelope "0x000000" = Ok [x00; x00; x00]
  /\ BaseToStarknet.decodeEnvelope "AAAA" = Ok [xaa]
  /\ ~ form_invariant SolanaToStarknet.decodeEnvelope [x00; x00; x00]
  /\ ~ form_invariant BaseToStarknet.decodeEnvelope [x00; x00; x00].
Proof.
  repeat split; try reflexivity; intro H; cbv in H; discriminate H.
Qed.

(** ** The hex test on base64 text is the only obstacle *)

Lemma toString_base64_length_bound (payload : list byte) :
  3 * String.length (NodeBuffer.toString_base64 payload)
  <= 4 * (List.length payload + 2).
Proof.
  induction payload as [| a | a b | a b c r IH] using list_triples_ind;
    cbn [NodeBuffer.toString_base64 String.length List.length] in *; lia.
Qed.

(** Base64 text without padding stands for a whole number of triples. *)
Lemma toString_base64_all_hex (payload : list byte) :
  JS.all_chars JS.isHexDigit (NodeBuffer.toString_base64 payload) = true ->
  exists m,
    List.length payload = 3 * m
    /\ String.length (NodeBuffer.toString_base64 payload) = 4 * m.
Proof.
  induction payload as [| a | a b | a b c r IH] using list_triples_ind;
    cbn [NodeBuffer.toString_base64 JS.all_chars]; intro H.
  - exists 0. split; reflexivity.
  - do 2 (apply andb_prop in H; destruct H as [_ H]).
    apply andb_prop in H. destruct H as [H _]. cbv in H. discriminate H.
  - do 3 (apply andb_prop in H; destruct H as [_ H]).
    apply andb_prop in H. destruct H as [H _]. cbv in H. discriminate H.
  - do 4 (apply andb_prop in H; destruct H as [_ H]).
    destruct (IH H) as (m & Hn & Hl). exists (S m).
    cbn [List.length String.length]. rewrite Hn, Hl. split; lia.
Qed.

Lemma toString_base64_single_not_hex (a : byte) :
  isHex (NodeBuffer.toString_base64 [a]) = false.
Proof. destruct a; reflexivity. Qed.

(** Whenever the base64 text of a payload passes the hex test, the copy
    that decodes with [Buffer.from(_, "hex")] returns fewer bytes than the
    payload has. *)
Lemma base64_taken_for_hex_loses_bytes (payload : list byte) :
  isHex (base64_envelope payload) = true ->
  exists bs,
    SolanaToStarknet.decodeEnvelope (base64_envelope payload) = Ok bs
    /\ List.length bs < List.length payload.
Proof.
  unfold base64_envelope, isHex, SolanaToStarknet.decodeEnvelope.
  pose proof (toString_base64_length_bound payload) as Hbound.
  pose proof (toString_base64_all_hex payload) as Hall.
  assert (Hsingle : forall a, payload = [a] ->
            isHex (NodeBuffer.toString_base64 payload) = false)
    by (intros a ->; apply toString_base64_single_not_hex).
  assert (Hempty : payload = [] -> NodeBuffer.toString_base64 payload = "")
    by (intros ->; reflexivity).
  unfold isHex in Hsingle.
  remember (NodeBuffer.toString_base64 payload) as t eqn:Ht.
  intro HisHex. rewrite HisHex. eexists. split; [reflexivity|].
  destruct (JS.startsWith "0x" t) eqn:Hprefix.
  - (* the text happens to begin with 0x *)
    pose proof (from_hex_length_le (JS.slice_from 2 t)) as Hle.
    assert (Hs : String.length (JS.slice_from 2 t) + 2 = String.length t).
    { destruct t as [|c0 [|c1 r]].
      - discriminate Hprefix.
      - cbn [JS.startsWith] in Hprefix. rewrite andb_false_r in Hprefix.
        discriminate Hprefix.
      - cbn [JS.slice_from String.length]. lia. }
    destruct payload as [|a [|b r]].
    + rewrite (Hempty eq_refl) in Hprefix. discriminate Hprefix.
    + specialize (Hsingle a eq_refl). rewrite HisHex in Hsingle.
      discriminate Hsingle.
    + cbn [List.length] in *. lia.
  - (* all of its characters are hex digits *)
    cbn [orb] in HisHex. unfold JS.test_hex_regex in HisHex.
    pose proof (from_hex_length_le t) as Hle.
    destruct t as [|c0 r]; [discriminate HisHex|].
    destruct (Hall HisHex) as (m & Hn & Hl).
    destruct m as [|m]; [discriminate Hl|]. lia.
Qed.

(** The condition of C2 cannot be dropped: with the copy that decodes hex
    through [Buffer.from], the two forms of a payload decode alike exactly
    when the base64 text does not pass the hex test. *)
Lemma form_invariant_iff_base64_not_hex (payload : list byte) :
  form_invariant SolanaToStarknet.decodeEnvelope payload
  <-> isHex (base64_envelope payload) = false.
Proof.
  destruct (decodeEnvelope_hex_envelope payload) as [_ HS].
  unfold form_invariant. rewrite HS. split.
  - intro H. destruct (isHex (base64_envelope payload)) eqn:HisHex;
      [|reflexivity].
    destruct (base64_taken_for_hex_loses_bytes payload HisHex)
      as (bs & Hdec & Hlt).
    rewrite Hdec in H. injection H as ->. lia.
  - intro Hb64.
    destruct (decodeEnvelope_base64_envelope payload Hb64) as [_ HS64].
    now rewrite HS64.
Qed.

(* ================================================================= *)
(** * Further properties of the scripts *)

(** ** Felts and byte arrays *)

Lemma be_value_bound (l : list byte) :
  (0 <= be_value l < 256 ^ Z.of_nat (List.length l))%Z.
Proof.
  induction l as [|b l IH] using rev_ind.
  - cbn. lia.
  - rewrite be_value_snoc, length_app, Nat.add_1_r, Nat2Z.inj_succ,
      Z.pow_succ_r by lia.
    pose proof (byte_to_Z_range b). lia.
Qed.

Lemma be_value_leading_zeros (k : nat) (l : list byte) :
  be_value (repeat x00 k ++ l) = be_value l.
Proof.
  unfold be_value. rewrite fold_left_app. f_equal.
  induction k as [|k IH]; [reflexivity | exact IH].
Qed.

(** Written out on [n] bytes, a felt packed from fewer bytes shows the
    missing ones as leading zeros. *)
Lemma felt_to_bytes_padded (n : nat) (l : list byte) :
  List.length l <= n ->
  felt_to_bytes n (be_value l) = repeat x00 (n - List.length l) ++ l.
Proof.
  intro Hn.
  rewrite <- (be_value_leading_zeros (n - List.length l) l).
  replace n with (List.length (repeat x00 (n - List.length l) ++ l)) at 1.
  - apply felt_to_bytes_be_value.
  - rewrite length_app, repeat_length. lia.
Qed.

Lemma Done_inj {A : Type} (a b : A) : Done a = Done b -> a = b.
Proof. intro H. now injection H. Qed.

(** The encoder's result, taken out of its run. *)
Lemma bytesToByteArrayCalldata_result (bytes : list byte) :
  fst (run_calldata (BaseToStarknet.bytesToByteArrayCalldata bytes))
  = Done ([Z.of_nat (List.length bytes / 31)]
          ++ map (fun j => be_value (chunk_at bytes j))
               (seq 0 (List.length bytes / 31))
          ++ [be_value (JS.slice_to_end (List.length bytes / 31 * 31) bytes);
              Z.of_nat (List.length bytes mod 31)]).
Proof. rewrite bytesToByteArrayCalldata_run. reflexivity. Qed.

(** Reading one group off the front of what the encoder wrote, whatever
    follows it. *)
Lemma read_byte_array_encoded (bytes : list byte) (cd behind : list Z) :
  fst (run_calldata (BaseToStarknet.bytesToByteArrayCalldata bytes)) = Done cd ->
  read_byte_array (cd ++ behind) = Some (bytes, behind).
Proof.
  rewrite bytesToByteArrayCalldata_result. intro H.
  apply Done_inj in H. subst cd.
  set (n := List.length bytes / 31).
  set (data := map (fun j => be_value (chunk_at bytes j)) (seq 0 n)).
  assert (Hlen : List.length data = n)
    by (unfold data; rewrite length_map, length_seq; reflexivity).
  unfold read_byte_array. cbn [app]. rewrite Nat2Z.id.
  rewrite <- app_assoc.
  rewrite skipn_app, firstn_app, Hlen, Nat.sub_diag.
  rewrite skipn_all2, firstn_all2 by lia.
  cbn [skipn firstn app]. rewrite app_nil_r.
  unfold data, n. rewrite unpack_full_chunks, Nat2Z.id.
  rewrite <- pending_length, felt_to_bytes_be_value.
  unfold JS.slice_to_end. rewrite chunks_reassemble. reflexivity.
Qed.

(** X1: every data word the encoder writes is below 2^248 (it fits the 31
    bytes of a bytes31), the pending word is below 256^pending_len, and
    pending_len is below 31. *)
Theorem calldata_words_fit_bytes31 (bytes : list byte) :
  let N := List.length bytes in
  exists data pending_word,
    fst (run_calldata (BaseToStarknet.bytesToByteArrayCalldata bytes))
    = Done ([Z.of_nat (N / 31)] ++ data
            ++ [pending_word; Z.of_nat (N mod 31)])
    /\ List.length data = N / 31
    /\ Forall (fun w => 0 <= w < 2 ^ 248)%Z data
    /\ (0 <= pending_word < 256 ^ Z.of_nat (N mod 31))%Z
    /\ (pending_word < 2 ^ 240)%Z
    /\ (0 <= Z.of_nat (N mod 31) < 31)%Z.
Proof.
  intro N. subst N. rewrite bytesToByteArrayCalldata_result.
  set (N := List.length bytes).
  do 2 eexists. split; [reflexivity|].
  pose proof (Nat.mod_upper_bound N 31 ltac:(lia)) as Hmod.
  pose proof (be_value_bound (JS.slice_to_end (N / 31 * 31) bytes)) as Hp.
  unfold N in Hp. rewrite pending_length in Hp. fold N in Hp.
  split; [rewrite length_map, length_seq; reflexivity|].
  split.
  { apply Forall_forall. intros w Hw. apply in_map_iff in Hw.
    destruct Hw as [j [<- Hj]]. apply in_seq in Hj.
    pose proof (be_value_bound (chunk_at bytes j)) as Hb.
    rewrite chunk_at_length in Hb by (unfold N in Hj; lia).
    change (256 ^ Z.of_nat 31)%Z with (2 ^ 248)%Z in Hb. exact Hb. }
  split; [exact Hp|]. split; [|lia].
  assert (256 ^ Z.of_nat (N mod 31) <= 256 ^ 30)%Z
    by (apply Z.pow_le_mono_r; lia).
  change (256 ^ 30)%Z with (2 ^ 240)%Z in *. lia.
Qed.

(** X2: the calldata of a message followed by the calldata of an
    attestation, as [mintOnStarknet] concatenates them, reads back as the
    message, then the attestation, with nothing left over. *)
Theorem concatenated_calldata_reads_back (message attestation : list byte) :
  exists cd1 cd2,
    fst (run_calldata (BaseToStarknet.bytesToByteArrayCalldata message))
    = Done cd1
    /\ fst (run_calldata (BaseToStarknet.bytesToByteArrayCalldata attestation))
       = Done cd2
    /\ read_byte_array (cd1 ++ cd2) = Some (message, cd2)
    /\ read_byte_array cd2 = Some (attestation, [])
    /\ List.length (cd1 ++ cd2)
       = List.length message / 31 + List.length attestation / 31 + 6.
Proof.
  do 2 eexists.
  split; [apply bytesToByteArrayCalldata_result|].
  split; [apply bytesToByteArrayCalldata_result|].
  split; [apply read_byte_array_encoded, bytesToByteArrayCalldata_result|].
  split.
  - rewrite <- (app_nil_r (_ ++ _ ++ _)) at 1.
    apply read_byte_array_encoded, bytesToByteArrayCalldata_result.
  - rewrite !length_app, !length_map, !length_seq. cbn [List.length]. lia.
Qed.

(** X3: the encoder is injective: byte sequences with the same calldata
    are equal. *)
Theorem bytesToByteArrayCalldata_injective (b1 b2 : list byte) :
  fst (run_calldata (BaseToStarknet.bytesToByteArrayCalldata b1))
  = fst (run_calldata (BaseToStarknet.bytesToByteArrayCalldata b2)) ->
  b1 = b2.
Proof.
  intro H.
  pose proof (bytesToByteArrayCalldata_result b1) as H1.
  pose proof (bytesToByteArrayCalldata_result b2) as H2.
  pose proof (read_byte_array_encoded b1 _ [] H1) as R1.
  rewrite H in H1.
  pose proof (read_byte_array_encoded b2 _ [] H2) as R2.
  rewrite H1 in H2. apply Done_inj in H2. rewrite H2 in R1.
  rewrite R1 in R2. now injection R2.
Qed.

Lemma bytesToByteArrayCalldata_injective_witness :
  [x01; x02] = [x01; x02].
Proof.
  exact (bytesToByteArrayCalldata_injective [x01; x02] [x01; x02] eq_refl).
Defined.

(** X4: on chunks of at most 31 bytes [bytesToFelt] tells two chunks apart
    exactly when they differ after left-padding with zero bytes: leading
    zero bytes are lost, so only chunks of one length are always told
    apart. *)
Theorem bytesToFelt_forgets_leading_zeros (c1 c2 : list byte) :
  List.length c1 <= 31 ->
  List.length c2 <= 31 ->
  (BaseToStarknet.bytesToFelt c1 = BaseToStarknet.bytesToFelt c2
   <-> pad31 c1 = pad31 c2)
  /\ (List.length c1 = List.length c2 ->
      BaseToStarknet.bytesToFelt c1 = BaseToStarknet.bytesToFelt c2 ->
      c1 = c2).
Proof.
  intros H1 H2.
  rewrite !bytesToFelt_small by assumption.
  assert (Hiff : Ok (be_value c1) = Ok (be_value c2) <-> pad31 c1 = pad31 c2).
  { unfold pad31. rewrite <- !felt_to_bytes_padded by assumption. split.
    - intro H. injection H as ->. reflexivity.
    - intro H. f_equal.
      rewrite <- (be_value_leading_zeros (31 - List.length c1) c1),
        <- (be_value_leading_zeros (31 - List.length c2) c2).
      rewrite <- !felt_to_bytes_padded by assumption. now rewrite H. }
  split; [exact Hiff|].
  intros Hlen H. apply Hiff in H. unfold pad31 in H. rewrite Hlen in H.
  now apply app_inv_head in H.
Qed.

Lemma bytesToFelt_forgets_leading_zeros_witness :
  BaseToStarknet.bytesToFelt [x00; x2a] = BaseToStarknet.bytesToFelt [x2a]
  <-> pad31 [x00; x2a] = pad31 [x2a].
Proof.
  apply (bytesToFelt_forgets_leading_zeros [x00; x2a] [x2a]);
    cbn [List.length]; lia.
Defined.

(** ** Strings of digits *)

Lemma string_length_append (a b : string) :
  String.length (a ++ b) = String.length a + String.length b.
Proof. induction a as [|c a IH]; cbn; [reflexivity | now rewrite IH]. Qed.

Lemma repeat_char_length (c : ascii) (n : nat) :
  String.length (JS.repeat_char c n) = n.
Proof. induction n as [|n IH]; cbn; [reflexivity | now rewrite IH]. Qed.

Lemma padStart_length (n : nat) (c : ascii) (s : string) :
  String.length (JS.padStart n c s) = Nat.max n (String.length s).
Proof.
  unfold JS.padStart. rewrite string_length_append, repeat_char_length. lia.
Qed.

Lemma padStart_long (n : nat) (c : ascii) (s : string) :
  n <= String.length s -> JS.padStart n c s = s.
Proof.
  intro H. unfold JS.padStart.
  replace (n - String.length s) with 0 by lia. reflexivity.
Qed.

Lemma hex_digits_value_leading_zeros (k : nat) (s : string) :
  JS.hex_digits_value 0 (JS.repeat_char "0" k ++ s) = JS.hex_digits_value 0 s.
Proof. induction k as [|k IH]; [reflexivity | exact IH]. Qed.

Lemma all_hex_leading_zeros (k : nat) (s : string) :
  JS.all_chars JS.isHexDigit (JS.repeat_char "0" k ++ s)
  = JS.all_chars JS.isHexDigit s.
Proof. induction k as [|k IH]; [reflexivity | exact IH]. Qed.

Lemma toBytes32_unfold (hex : string) :
  BaseToStarknet.toBytes32 hex
  = String "0" (String "x" (JS.padStart 64 "0" (digits_of hex))).
Proof. reflexivity. Qed.

Lemma digits_of_prefixed (s : string) :
  digits_of (String "0" (String "x" s)) = s.
Proof. reflexivity. Qed.

(** X5: [toBytes32] gives 0x and at least 64 characters: shorter digit
    strings are filled up with zeros in front, longer ones are passed on
    as they are, never cut; the number the digits stand for is unchanged,
    and applying the helper twice changes nothing. *)
Theorem toBytes32_pads_never_truncates (hex : string) :
  let digits := digits_of hex in
  String.length (BaseToStarknet.toBytes32 hex)
  = 2 + Nat.max 64 (String.length digits)
  /\ BaseToStarknet.toBytes32 (BaseToStarknet.toBytes32 hex)
     = BaseToStarknet.toBytes32 hex
  /\ JS.hex_digits_value 0 (digits_of (BaseToStarknet.toBytes32 hex))
     = JS.hex_digits_value 0 digits
  /\ JS.all_chars JS.isHexDigit (digits_of (BaseToStarknet.toBytes32 hex))
     = JS.all_chars JS.isHexDigit digits
  /\ (64 <= String.length digits ->
      BaseToStarknet.toBytes32 hex = ("0x" ++ digits)%string).
Proof.
  intro digits. cbn [append].
  rewrite !toBytes32_unfold, !digits_of_prefixed.
  fold digits. cbn [String.length]. rewrite padStart_length.
  split; [reflexivity|]. split.
  { rewrite (padStart_long 64 "0" (JS.padStart 64 "0" digits)); [reflexivity|].
    rewrite padStart_length. lia. }
  unfold JS.padStart.
  rewrite hex_digits_value_leading_zeros, all_hex_leading_zeros.
  repeat split. intro H.
  replace (64 - String.length digits) with 0 by lia. reflexivity.
Qed.

(** X6: on an input that starts with 0x the two padding helpers,
    [toBytes32Address] and [toBytes32], give the same text exactly when 40
    characters follow the prefix. *)
Theorem padding_helpers_agree_iff_40_digits (digits : string) :
  BaseToEthereum.toBytes32Address ("0x" ++ digits)
  = BaseToStarknet.toBytes32 ("0x" ++ digits)
  <-> String.length digits = 40.
Proof.
  cbn [append]. rewrite toBytes32_unfold, digits_of_prefixed.
  unfold BaseToEthereum.toBytes32Address. cbn [JS.slice_from append].
  split.
  - intro H. apply (f_equal String.length) in H.
    cbn [String.length] in H. rewrite padStart_length in H. lia.
  - intro H. unfold JS.padStart. rewrite H. reflexivity.
Qed.

(** ** Hex text without a prefix *)

(** X7: given the hex text of a non-empty payload without 0x, the copy of
    [decodeEnvelope] that calls viem's [hexToBytes] returns the payload
    without its first byte, while the copy that calls [Buffer.from]
    returns the whole payload. *)
Theorem decodeEnvelope_bare_hex_drops_first_byte (b : byte) (r : list byte) :
  BaseToStarknet.decodeEnvelope (NodeBuffer.toString_hex (b :: r)) = Ok r
  /\ SolanaToStarknet.decodeEnvelope (NodeBuffer.toString_hex (b :: r))
     = Ok (b :: r).
Proof.
  split; [|apply decodeEnvelope_bare_hex].
  unfold BaseToStarknet.decodeEnvelope.
  rewrite toString_hex_no_prefix.
  destruct (toString_hex_digits (b :: r)) as [_ Hh].
  destruct (toString_hex_digits r) as [Hl Hhr].
  cbn [NodeBuffer.toString_hex JS.test_hex_regex orb] in *.
  rewrite Hh. unfold Viem.hexToBytes. cbn [JS.slice_from].
  rewrite Hl, <- Nat.negb_even, Nat.even_mul. cbn [Nat.even orb negb].
  destruct (parse_pairs_of_hex_digits _ _ Hl Hhr) as [Hparse _].
  rewrite Hparse, from_hex_toString_hex. reflexivity.
Qed.

(** ** Bytes of numbers *)

Lemma byte_to_of_Z (z : Z) : byte_to_Z (byte_of_Z z) = (z mod 256)%Z.
Proof.
  unfold byte_to_Z, byte_of_Z.
  pose proof (Z.mod_pos_bound z 256 ltac:(lia)) as Hm.
  destruct (Byte.of_N (Z.to_N (z mod 256))) as [b|] eqn:Hb.
  - apply Byte.to_of_N in Hb. rewrite Hb. lia.
  - apply Byte.of_N_None_iff in Hb. lia.
Qed.

(** X8: [u32ToLeBuffer] throws exactly on a number outside 0 .. 2^32 - 1;
    otherwise it returns four bytes whose little-endian value is the
    number, so different domains give different filter bytes. *)
Theorem u32ToLeBuffer_little_endian (num : Z) :
  ((exists e, SolanaToStarknet.u32ToLeBuffer num = Throw e)
   <-> (num < 0 \/ 2 ^ 32 <= num)%Z)
  /\ (forall buf,
        SolanaToStarknet.u32ToLeBuffer num = Ok buf ->
        List.length buf = 4 /\ le_value buf = num)
  /\ (forall other buf,
        SolanaToStarknet.u32ToLeBuffer num = Ok buf ->
        SolanaToStarknet.u32ToLeBuffer other = Ok buf ->
        other = num).
Proof.
  assert (Hok : forall n buf,
            SolanaToStarknet.u32ToLeBuffer n = Ok buf ->
            (0 <= n < 2 ^ 32)%Z /\ List.length buf = 4 /\ le_value buf = n).
  { intros n buf. unfold SolanaToStarknet.u32ToLeBuffer.
    destruct (Z.ltb_spec n 0) as [Hneg|Hpos]; cbn [orb]; [discriminate|].
    destruct (Z.ltb_spec 4294967295 n) as [Hbig|Hsmall]; [discriminate|].
    intro H. injection H as <-.
    split; [lia|]. split; [reflexivity|].
    cbn [le_value fold_right]. rewrite !byte_to_of_Z.
    Z.div_mod_to_equations. lia. }
  split; [|split].
  - unfold SolanaToStarknet.u32ToLeBuffer.
    destruct (Z.ltb_spec num 0) as [Hneg|Hpos]; cbn [orb].
    + split; [intros _; lia | intros _; eexists; reflexivity].
    + destruct (Z.ltb_spec 4294967295 num) as [Hbig|Hsmall].
      * split; [intros _; lia | intros _; eexists; reflexivity].
      * split; [intros [e He]; discriminate He | lia].
  - intros buf H. apply Hok in H. tauto.
  - intros other buf H1 H2. apply Hok in H1. apply Hok in H2.
    destruct H1 as (_ & _ & <-). destruct H2 as (_ & _ & <-). reflexivity.
Qed.

(** ** The mint recipient on Solana *)

Lemma in_range_bounds (lo hi c : ascii) :
  JS.in_range lo hi c = true -> (JS.code lo <= JS.code c <= JS.code hi)%Z.
Proof.
  unfold JS.in_range. intro H. apply andb_prop in H.
  destruct H as [H1 H2]. apply Z.leb_le in H1, H2. lia.
Qed.

Lemma unhex_range (c : ascii) (v : Z) :
  JS.unhex c = Some v -> (0 <= v < 16)%Z.
Proof.
  unfold JS.unhex.
  destruct (JS.in_range "0" "9" c) eqn:H1.
  { intro H. injection H as <-. apply in_range_bounds in H1.
    change (JS.code "0") with 48%Z in H1. change (JS.code "9") with 57%Z in H1.
    lia. }
  destruct (JS.in_range "a" "f" c) eqn:H2.
  { intro H. injection H as <-. apply in_range_bounds in H2.
    change (JS.code "a") with 97%Z in H2. change (JS.code "f") with 102%Z in H2.
    lia. }
  destruct (JS.in_range "A" "F" c) eqn:H3; [|discriminate].
  intro H. injection H as <-. apply in_range_bounds in H3.
  change (JS.code "A") with 65%Z in H3. change (JS.code "F") with 70%Z in H3.
  lia.
Qed.

(** The number a string of hex digit pairs stands for is the big-endian
    value of the bytes it decodes to. *)
Lemma hex_digits_value_from_hex (n : nat) (s : string) (acc : Z) :
  String.length s = 2 * n ->
  JS.all_chars JS.isHexDigit s = true ->
  JS.hex_digits_value acc s
  = Some (fold_left (fun a b => a * 256 + byte_to_Z b)%Z
            (NodeBuffer.from_hex s) acc).
Proof.
  revert s acc. induction n as [|n IH]; intros s acc Hlen Hhex.
  - destruct s; [reflexivity | discriminate Hlen].
  - destruct s as [|a [|b r]]; cbn [String.length] in Hlen; try lia.
    cbn [JS.all_chars] in Hhex.
    apply andb_prop in Hhex. destruct Hhex as [Ha Hhex].
    apply andb_prop in Hhex. destruct Hhex as [Hb Hr].
    destruct (isHexDigit_unhex a Ha) as [x Hx].
    destruct (isHexDigit_unhex b Hb) as [y Hy].
    pose proof (unhex_range a x Hx). pose proof (unhex_range b y Hy).
    cbn [JS.hex_digits_value NodeBuffer.from_hex].
    rewrite Hx, Hy. cbn [fold_left]. rewrite byte_to_of_Z.
    rewrite Z.mod_small by lia.
    rewrite (IH r) by (lia || assumption). do 2 f_equal. lia.
Qed.

(** X9: for a Starknet address of at most 64 hex digits, with or without
    0x, [starknetAddressToBase58Pubkey] builds the key whose number is the
    number the digits stand for, and its 32 bytes are the bytes of what
    [toBytes32] gives for the same address in the Base script. *)
Theorem starknetAddressToBase58Pubkey_value (addr : string) :
  String.length (digits_of addr) <= 64 ->
  JS.all_chars JS.isHexDigit (digits_of addr) = true ->
  exists key,
    SolanaToStarknet.starknetAddressToBase58Pubkey addr = Ok key
    /\ JS.hex_digits_value 0 (digits_of addr) = Some key
    /\ (0 <= key < 2 ^ 256)%Z
    /\ Viem.hexToBytes (BaseToStarknet.toBytes32 addr)
       = Ok (felt_to_bytes 32 key).
Proof.
  intros Hlen Hhex.
  set (padded := JS.padStart 64 "0" (digits_of addr)).
  assert (Hpl : String.length padded = 2 * 32)
    by (unfold padded; rewrite padStart_length; lia).
  assert (Hph : JS.all_chars JS.isHexDigit padded = true)
    by (unfold padded, JS.padStart; now rewrite all_hex_leading_zeros).
  destruct (parse_pairs_of_hex_digits 32 padded Hpl Hph) as [Hparse Hcount].
  pose proof (hex_digits_value_from_hex 32 padded 0 Hpl Hph) as Hval.
  fold (be_value (NodeBuffer.from_hex padded)) in Hval.
  pose proof (be_value_bound (NodeBuffer.from_hex padded)) as Hb.
  rewrite Hcount in Hb. change (256 ^ Z.of_nat 32)%Z with (2 ^ 256)%Z in Hb.
  exists (be_value (NodeBuffer.from_hex padded)).
  split.
  { unfold SolanaToStarknet.starknetAddressToBase58Pubkey,
      SolanaWeb3.PublicKey_of_buffer.
    fold (digits_of addr). fold padded.
    fold (be_value (NodeBuffer.from_hex padded)).
    destruct (Z.ltb_spec (be_value (NodeBuffer.from_hex padded)) (2 ^ 256));
      [reflexivity | lia]. }
  split.
  { rewrite <- Hval. unfold padded, JS.padStart.
    now rewrite hex_digits_value_leading_zeros. }
  split; [exact Hb|].
  rewrite toBytes32_unfold. fold padded.
  unfold Viem.hexToBytes. cbn [JS.slice_from]. rewrite Hpl.
  change (Nat.odd (2 * 32)) with false. cbv iota.
  rewrite Hparse. f_equal.
  rewrite <- Hcount at 1. symmetry. apply felt_to_bytes_be_value.
Qed.

Lemma starknetAddressToBase58Pubkey_value_witness :
  exists key,
    SolanaToStarknet.starknetAddressToBase58Pubkey "0x04db" = Ok key
    /\ JS.hex_digits_value 0 (digits_of "0x04db") = Some key
    /\ (0 <= key < 2 ^ 256)%Z
    /\ Viem.hexToBytes (BaseToStarknet.toBytes32 "0x04db")
       = Ok (felt_to_bytes 32 key).
Proof.
  apply (starknetAddressToBase58Pubkey_value "0x04db").
  - cbn. lia.
  - reflexivity.
Defined.

(** ** Runs of the Base -> Ethereum pipeline *)

(** The poller's run up to its first ready reply. *)
Lemma retrieveAttestation_returns (net : Net) (stepLine domain : string)
    (k fuel : nat) (srcTxHash : string) (w : World) (data : json) :
  k < fuel ->
  (forall j, j < k -> ready (http_get net (gets w + j)) = false) ->
  http_get net (gets w + k) = Ok data ->
  ready (Ok data) = true ->
  Poller.retrieveAttestation net stepLine domain fuel srcTxHash w
  = (Done (Poller.first_message data),
     {| trace := trace w ++ [EvLog stepLine]
                 ++ failed_rounds net (Poller.url_of domain srcTxHash)
                      (gets w) k
                 ++ [EvGet (Poller.url_of domain srcTxHash);
                     EvLog "   Attestation ready."];
        gets := gets w + k + 1; sends := sends w |}).
Proof.
  intros Hk Hbefore Hget Hready.
  unfold Poller.retrieveAttestation, bind, console_log.
  rewrite (poll_first_ready net k fuel _ (emit (EvLog stepLine) w) data)
    by assumption.
  unfold emit. cbn [trace gets sends]. rewrite <- app_assoc. reflexivity.
Qed.

(** Compute the requests, pauses and submissions along an explicit
    trace. *)
Ltac observe_trace :=
  cbn [snd fst trace gets sends];
  unfold requests, pauses, submissions;
  repeat rewrite flat_map_app;
  repeat match goal with
         | |- context [flat_map ?f (failed_rounds ?n ?u ?g ?k)] =>
             first
               [ change (flat_map f (failed_rounds n u g k))
                   with (submissions (failed_rounds n u g k));
                 rewrite submissions_failed_rounds
               | change (flat_map f (failed_rounds n u g k))
                   with (requests (failed_rounds n u g k));
                 rewrite requests_failed_rounds
               | change (flat_map f (failed_rounds n u g k))
                   with (pauses (failed_rounds n u g k));
                 rewrite pauses_failed_rounds ]
         end;
  cbn [flat_map app];
  repeat rewrite app_nil_r;
  repeat rewrite <- app_assoc;
  cbn [app].

(** The padded recipient of the Base -> Ethereum script measures 32 bytes
    exactly when 39 or 40 characters follow the first two of the address. *)
Lemma toBytes32Address_size (address : string) :
  ViemAbi.size (BaseToEthereum.toBytes32Address address) = 32
  <-> String.length (JS.slice_from 2 address) = 39
      \/ String.length (JS.slice_from 2 address) = 40.
Proof.
  unfold BaseToEthereum.toBytes32Address.
  remember (JS.slice_from 2 address) as digits eqn:Hd. clear Hd address.
  unfold ViemAbi.size.
  change (JS.startsWith "0x" ("0x000000000000000000000000" ++ digits))
    with true.
  cbv iota. rewrite string_length_append.
  change (String.length "0x000000000000000000000000") with 26.
  replace (26 + String.length digits - 1) with (String.length digits + 25)
    by lia.
  pose proof (Nat.div_mod_eq (String.length digits + 25) 2) as Hdiv.
  pose proof (Nat.mod_upper_bound (String.length digits + 25) 2) as Hmod.
  lia.
Qed.

Section EthereumRuns.

Variable net : Net.
Variables account_address DESTINATION_ADDRESS : string.

(** X10: [main] stops at the first stage that fails. A rejected approval
    throws that very error with the approval as the only submission. With
    the approval accepted, a recipient whose padded form does not measure
    32 bytes makes the encoder throw, and the burn is never submitted. With
    a recipient of 32 bytes, a rejected burn throws that very error after
    the approval and the burn. In none of these runs is a mint submitted or
    Iris asked. *)
Theorem main_stops_at_rejected_transaction (fuel : nat) (w : World) :
  let run :=
    BaseToEthereum.main net account_address DESTINATION_ADDRESS fuel w in
  let recipient := BaseToEthereum.toBytes32Address DESTINATION_ADDRESS in
  let stopped (e : exn) (sent : list (string * string * CallData)) :=
    fst run = Threw e
    /\ submissions (trace (snd run)) = submissions (trace w) ++ sent
    /\ requests (trace (snd run)) = requests (trace w)
    /\ gets (snd run) = gets w in
  (forall e,
      send_tx net (sends w) = Throw e ->
      stopped e [approve_call])
  /\ (forall approveTx,
        send_tx net (sends w) = Ok approveTx ->
        ViemAbi.size recipient <> 32 ->
        exists e,
          ViemAbi.encodeBytesN 32 recipient = Throw e
          /\ stopped e [approve_call])
  /\ (forall approveTx e,
        send_tx net (sends w) = Ok approveTx ->
        ViemAbi.size recipient = 32 ->
        send_tx net (S (sends w)) = Throw e ->
        stopped e [approve_call; burn_call 100000 0 recipient]).
Proof.
  intros run recipient stopped. subst stopped run recipient.
  unfold BaseToEthereum.main, BaseToEthereum.approveUSDC,
    BaseToEthereum.burnUSDC, BaseToEthereum.DESTINATION_ADDRESS_BYTES32,
    bind, console_log, sendTransaction, emit.
  cbn [trace gets sends].
  rewrite ethereum_approve_data, ethereum_burn_data.
  cbn [lift ret throw trace gets sends].
  split; [|split].
  - intros e H1. rewrite H1. cbn [lift ret throw trace gets sends].
    observe_trace. repeat split; reflexivity.
  - intros approveTx H1 Hsize.
    destruct (proj2 (encodeBytesN_32 _) Hsize) as [e He]. exists e.
    split; [exact He|].
    rewrite H1, He. cbn [lift ret throw trace gets sends].
    observe_trace. repeat split; reflexivity.
  - intros approveTx e H1 Hsize H2.
    rewrite H1, (proj1 (encodeBytesN_32 _) Hsize).
    cbn [lift ret throw trace gets sends].
    rewrite H2. cbn [lift ret throw trace gets sends].
    observe_trace. repeat split; reflexivity.
Qed.

(** X11: when the recipient's padded form measures 32 bytes, the three
    transactions are accepted, the first ready reply is the (k+1)-th and
    its entry holds message and attestation as text that starts with 0x,
    [main] returns after exactly three submissions (approval, burn of
    100000 with fee cap 500 to the padded recipient, mint of the polled
    entry), k+1 requests to the URL of the burn hash and k pauses of
    5000 ms. *)
Theorem main_completes (fuel k : nat) (w : World)
    (approveTx burnTx mintTx : string) (data : json)
    (message signature : string) :
  ViemAbi.size (BaseToEthereum.toBytes32Address DESTINATION_ADDRESS) = 32 ->
  send_tx net (sends w) = Ok approveTx ->
  send_tx net (S (sends w)) = Ok burnTx ->
  send_tx net (S (S (sends w))) = Ok mintTx ->
  k < fuel ->
  (forall j, j < k -> ready (http_get net (gets w + j)) = false) ->
  http_get net (gets w + k) = Ok data ->
  ready (Ok data) = true ->
  member "message" (Poller.first_message data) = JStr message ->
  JS.startsWith "0x" message = true ->
  member "attestation" (Poller.first_message data) = JStr signature ->
  JS.startsWith "0x" signature = true ->
  exists w',
    BaseToEthereum.main net account_address DESTINATION_ADDRESS fuel w
    = (Done tt, w')
    /\ submissions (trace w')
       = submissions (trace w)
         ++ [approve_call;
             burn_call 100000 0
               (BaseToEthereum.toBytes32Address DESTINATION_ADDRESS);
             receiveMessage_call (Poller.first_message data)]
    /\ requests (trace w')
       = requests (trace w) ++ repeat (Poller.url_of "6" burnTx) (k + 1)
    /\ pauses (trace w') = pauses (trace w) ++ repeat 5000%Z k
    /\ sends w' = sends w + 3
    /\ gets w' = gets w + k + 1.
Proof.
  intros Hsize H1 H2 H3 Hk Hbefore Hget Hready Hm Hmp Hs Hsp.
  destruct (ready_first_message data Hready) as (_ & _ & Hstatus).
  destruct (complete_message_fields _ Hstatus) as (Hmsg & Hatt).
  pose proof (receiveMessage_data_prefixed _ _ Hmp Hsp) as Henc.
  rewrite <- Hm, <- Hs in Henc.
  unfold BaseToEthereum.main, BaseToEthereum.approveUSDC,
    BaseToEthereum.burnUSDC, BaseToEthereum.DESTINATION_ADDRESS_BYTES32,
    bind, console_log, sendTransaction, emit.
  cbn [trace gets sends].
  rewrite ethereum_approve_data, ethereum_burn_data,
    (proj1 (encodeBytesN_32 _) Hsize).
  cbn [lift ret throw trace gets sends].
  rewrite H1. cbn [lift ret throw trace gets sends].
  rewrite H2. cbn [lift ret throw trace gets sends].
  unfold BaseToEthereum.retrieveAttestation.
  rewrite (retrieveAttestation_returns net _ _ k fuel burnTx _ data)
    by assumption.
  unfold BaseToEthereum.mintUSDC, bind, console_log, sendTransaction, emit.
  cbn [trace gets sends]. rewrite Hmsg. cbn [lift ret]. rewrite Hatt.
  cbn [lift ret]. rewrite Henc.
  cbn [lift ret trace gets sends]. rewrite H3. cbn [lift ret].
  eexists. split; [reflexivity|]. observe_trace.
  rewrite repeat_app. cbn [repeat].
  repeat split; try reflexivity; try lia.
Qed.

End EthereumRuns.

Lemma main_stops_at_rejected_transaction_witness :
  (fst (BaseToEthereum.main rejecting_net "0xSender"
          "0x8FE6B999Dc680CcFDD5Bf7EB0974218be2542DAA" 3 fresh_world)
   = Threw (Error "insufficient funds for gas")
   /\ submissions
        (trace (snd (BaseToEthereum.main rejecting_net "0xSender"
                       "0x8FE6B999Dc680CcFDD5Bf7EB0974218be2542DAA" 3
                       fresh_world)))
      = [approve_call])
  /\ (exists e,
        fst (BaseToEthereum.main scripted_net "0xSender" "0x04db" 3
               fresh_world)
        = Threw e
        /\ submissions
             (trace (snd (BaseToEthereum.main scripted_net "0xSender"
                            "0x04db" 3 fresh_world)))
           = [approve_call]).
Proof.
  split.
  - pose proof (main_stops_at_rejected_transaction rejecting_net "0xSender"
                  "0x8FE6B999Dc680CcFDD5Bf7EB0974218be2542DAA" 3 fresh_world)
      as H.
    cbv zeta in H. destruct H as (H & _).
    destruct (H (Error "insufficient funds for gas") eq_refl)
      as (Hrun & Hsub & _).
    split; [exact Hrun | exact Hsub].
  - pose proof (main_stops_at_rejected_transaction scripted_net "0xSender"
                  "0x04db" 3 fresh_world) as H.
    cbv zeta in H. destruct H as (_ & H & _).
    destruct (H "0x01" eq_refl) as (e & _ & Hrun & Hsub & _).
    + cbn. discriminate.
    + exists e. split; [exact Hrun | exact Hsub].
Defined.

Lemma main_completes_witness :
  exists w',
    BaseToEthereum.main scripted_net "0xSender"
      "0x8FE6B999Dc680CcFDD5Bf7EB0974218be2542DAA" 3 fresh_world
    = (Done tt, w')
    /\ submissions (trace w')
       = submissions (trace fresh_world)
         ++ [approve_call;
             burn_call 100000 0
               (BaseToEthereum.toBytes32Address
                  "0x8FE6B999Dc680CcFDD5Bf7EB0974218be2542DAA");
             receiveMessage_call
               (Poller.first_message (iris_body "complete"))]
    /\ requests (trace w')
       = requests (trace fresh_world)
         ++ repeat (Poller.url_of "6" "0xAA") (2 + 1)
    /\ pauses (trace w') = pauses (trace fresh_world) ++ repeat 5000%Z 2
    /\ sends w' = sends fresh_world + 3
    /\ gets w' = gets fresh_world + 2 + 1.
Proof.
  apply (main_completes scripted_net "0xSender"
           "0x8FE6B999Dc680CcFDD5Bf7EB0974218be2542DAA" 3 2 fresh_world
           "0x01" "0xAA" "0x03" (iris_body "complete")
           "0x0000000100000006" "0x5ca1ab1e");
    try reflexivity.
  - lia.
  - intros j Hj. destruct j as [|[|j]]; [reflexivity | reflexivity | lia].
Defined.

(** ** The mint on Starknet *)

Lemma without_log_encoder {S : Type} (bytes : list byte) (s : S) :
  without_log (BaseToStarknet.bytesToByteArrayCalldata bytes) s
  = (Done ([Z.of_nat (List.length bytes / 31)]
           ++ map (fun j => be_value (chunk_at bytes j))
                (seq 0 (List.length bytes / 31))
           ++ [be_value (JS.slice_to_end (List.length bytes / 31 * 31) bytes);
               Z.of_nat (List.length bytes mod 31)]), s).
Proof.
  unfold without_log.
  change (BaseToStarknet.bytesToByteArrayCalldata bytes [])
    with (run_calldata (BaseToStarknet.bytesToByteArrayCalldata bytes)).
  now rewrite bytesToByteArrayCalldata_result.
Qed.

Lemma mint_calldata_unfold (messageBytes attestationBytes : list byte) :
  mint_calldata messageBytes attestationBytes
  = ([Z.of_nat (List.length messageBytes / 31)]
     ++ map (fun j => be_value (chunk_at messageBytes j))
          (seq 0 (List.length messageBytes / 31))
     ++ [be_value (JS.slice_to_end (List.length messageBytes / 31 * 31)
                     messageBytes);
         Z.of_nat (List.length messageBytes mod 31)])
    ++ ([Z.of_nat (List.length attestationBytes / 31)]
        ++ map (fun j => be_value (chunk_at attestationBytes j))
             (seq 0 (List.length attestationBytes / 31))
        ++ [be_value (JS.slice_to_end (List.length attestationBytes / 31 * 31)
                        attestationBytes);
            Z.of_nat (List.length attestationBytes mod 31)]).
Proof.
  unfold mint_calldata. now rewrite !bytesToByteArrayCalldata_result.
Qed.

Lemma mint_calldata_reads_back (messageBytes attestationBytes : list byte) :
  exists behind,
    read_byte_array (mint_calldata messageBytes attestationBytes)
    = Some (messageBytes, behind)
    /\ read_byte_array behind = Some (attestationBytes, []).
Proof.
  rewrite mint_calldata_unfold. eexists. split.
  - apply read_byte_array_encoded, bytesToByteArrayCalldata_result.
  - rewrite <- (app_nil_r (_ ++ _ ++ _)) at 1.
    apply read_byte_array_encoded, bytesToByteArrayCalldata_result.
Qed.

Section MintFacts.

Variable net : Net.
Variable waitForTransaction : string -> result unit.
Variable decode : string -> result (list byte).
Variable stepLine : string.
Variable transmitter : string.

(** A mint whose two envelopes decode: everything up to the submission is
    fixed, the rest depends on the client and on the confirmation. *)
Lemma mintOnStarknet_with_decoded (attestation : json) (message signature : string)
    (messageBytes attestationBytes : list byte) (w : World) :
  member "message" attestation = JStr message ->
  member "attestation" attestation = JStr signature ->
  decode message = Ok messageBytes ->
  decode signature = Ok attestationBytes ->
  let logged :=
    emit (EvLog ("   message bytes="
                 ++ string_of_nat (List.length messageBytes)
                 ++ ", attestation bytes="
                 ++ string_of_nat (List.length attestationBytes)))
      (emit (EvLog stepLine) w) in
  let sent :=
    {| trace := trace logged
                ++ [EvSend "starknetSepolia" transmitter
                      {| functionName := "receive_message";
                         args := map JNum
                                   (mint_calldata messageBytes
                                      attestationBytes) |}];
       gets := gets w; sends := S (sends w) |} in
  BaseToStarknet.mintOnStarknet_with net waitForTransaction decode stepLine
    transmitter attestation w
  = match send_tx net (sends w) with
    | Throw e => (Threw e, sent)
    | Ok tx =>
        match waitForTransaction tx with
        | Throw e =>
            (Threw e, emit (EvLog ("   Starknet tx hash: " ++ tx)) sent)
        | Ok _ =>
            (Done tt,
             emit (EvLog "   Starknet mint confirmed.")
               (emit (EvLog ("   Starknet tx hash: " ++ tx)) sent))
        end
    end.
Proof.
  intros Hm Hs Hdm Hds logged sent. subst sent logged.
  assert (Hobj : nullish attestation = false)
    by (destruct attestation; try reflexivity; discriminate Hm).
  unfold BaseToStarknet.mintOnStarknet_with, bind, console_log, get.
  rewrite Hobj. cbn [lift ret]. rewrite Hm, Hs.
  cbn [BaseToStarknet.decodeEnvelope_of]. rewrite Hdm, Hds. cbn [lift ret].
  rewrite !without_log_encoder, mint_calldata_unfold.
  unfold sendTransaction, emit. cbn [trace gets sends].
  destruct (send_tx net (sends w)) as [tx|e]; cbn [lift ret throw];
    [|reflexivity].
  destruct (waitForTransaction tx) as [[]|e]; reflexivity.
Qed.

(** X12: when an envelope of the polled entry cannot be decoded (the
    field is missing or no string, or the decoder throws), the mint throws
    before anything is submitted to Starknet. *)
Theorem mintOnStarknet_never_submits_undecoded (attestation : json)
    (w : World) :
  (exists e, BaseToStarknet.decodeEnvelope_of decode
               (member "message" attestation) = Throw e)
  \/ (exists e, BaseToStarknet.decodeEnvelope_of decode
                  (member "attestation" attestation) = Throw e) ->
  exists e w',
    BaseToStarknet.mintOnStarknet_with net waitForTransaction decode stepLine
      transmitter attestation w
    = (Threw e, w')
    /\ submissions (trace w') = submissions (trace w)
    /\ sends w' = sends w.
Proof.
  intro H.
  unfold BaseToStarknet.mintOnStarknet_with, bind, console_log, get, emit.
  destruct (nullish attestation); cbn [lift ret throw].
  { do 2 eexists. split; [reflexivity|]. observe_trace. split; reflexivity. }
  destruct (BaseToStarknet.decodeEnvelope_of decode (member "message" attestation))
    as [messageBytes|e1] eqn:Hm; cbn [lift ret throw].
  2:{ do 2 eexists. split; [reflexivity|]. observe_trace. split; reflexivity. }
  destruct H as [[e He] | [e He]]; [discriminate He|].
  rewrite He. cbn [lift ret throw].
  do 2 eexists. split; [reflexivity|]. observe_trace. split; reflexivity.
Qed.

End MintFacts.

Lemma mintOnStarknet_never_submits_undecoded_witness :
  exists e w',
    BaseToStarknet.mintOnStarknet scripted_net always_confirmed
      (JObj [("status", JStr "complete"); ("message", JStr "0xzz");
             ("attestation", JStr "0x5ca1ab1e")]) fresh_world
    = (Threw e, w')
    /\ submissions (trace w') = submissions (trace fresh_world)
    /\ sends w' = sends fresh_world.
Proof.
  apply (mintOnStarknet_never_submits_undecoded scripted_net always_confirmed
           BaseToStarknet.decodeEnvelope).
  left. eexists. reflexivity.
Defined.

(** X13: for a polled entry whose message and attestation are 0x-prefixed
    hex text, [mintOnStarknet] of either script submits exactly one call,
    [receive_message] on the transmitter, and its calldata reads back as
    the message bytes followed by the attestation bytes; the mint returns
    once the call is accepted and confirmed. *)
Theorem mintOnStarknet_submits_polled_payloads
    (net : Net) (waitForTransaction : string -> result unit)
    (transmitter : string) (attestation : json)
    (messageBytes attestationBytes : list byte) (w : World) :
  member "message" attestation = JStr (hex_envelope messageBytes) ->
  member "attestation" attestation = JStr (hex_envelope attestationBytes) ->
  let base_run :=
    BaseToStarknet.mintOnStarknet net waitForTransaction attestation w in
  let solana_run :=
    SolanaToStarknet.mintOnStarknet net waitForTransaction transmitter
      attestation w in
  submissions (trace (snd base_run))
  = submissions (trace w)
    ++ [receive_message_call BaseToStarknet.STARKNET_MESSAGE_TRANSMITTER
          (mint_calldata messageBytes attestationBytes)]
  /\ submissions (trace (snd solana_run))
     = submissions (trace w)
       ++ [receive_message_call transmitter
             (mint_calldata messageBytes attestationBytes)]
  /\ (exists behind,
        read_byte_array (mint_calldata messageBytes attestationBytes)
        = Some (messageBytes, behind)
        /\ read_byte_array behind = Some (attestationBytes, []))
  /\ (forall tx,
        send_tx net (sends w) = Ok tx ->
        waitForTransaction tx = Ok tt ->
        fst base_run = Done tt /\ fst solana_run = Done tt).
Proof.
  intros Hm Hs base_run solana_run. subst base_run solana_run.
  destruct (decodeEnvelope_hex_envelope messageBytes) as [HBm HSm].
  destruct (decodeEnvelope_hex_envelope attestationBytes) as [HBs HSs].
  unfold BaseToStarknet.mintOnStarknet, SolanaToStarknet.mintOnStarknet.
  rewrite (mintOnStarknet_with_decoded net waitForTransaction
             BaseToStarknet.decodeEnvelope _ _ attestation _ _ _ _ w
             Hm Hs HBm HBs).
  rewrite (mintOnStarknet_with_decoded net waitForTransaction
             SolanaToStarknet.decodeEnvelope _ _ attestation _ _ _ _ w
             Hm Hs HSm HSs).
  unfold emit, receive_message_call. cbn [trace gets sends].
  split; [|split; [|split]].
  - destruct (send_tx net (sends w)) as [tx|e];
      [destruct (waitForTransaction tx) as [[]|e]|];
      observe_trace; reflexivity.
  - destruct (send_tx net (sends w)) as [tx|e];
      [destruct (waitForTransaction tx) as [[]|e]|];
      observe_trace; reflexivity.
  - apply mint_calldata_reads_back.
  - intros tx Htx Hwait. rewrite Htx, Hwait. split; reflexivity.
Qed.

Lemma mintOnStarknet_submits_polled_payloads_witness :
  let entry := iris_entry [x00; x00; x00; x01] [x5c; xa1; xab; x1e] in
  submissions
    (trace (snd (BaseToStarknet.mintOnStarknet scripted_net always_confirmed
                   entry fresh_world)))
  = [receive_message_call BaseToStarknet.STARKNET_MESSAGE_TRANSMITTER
       (mint_calldata [x00; x00; x00; x01] [x5c; xa1; xab; x1e])]
  /\ mint_calldata [x00; x00; x00; x01] [x5c; xa1; xab; x1e]
     = [0; 1; 4; 0; 1554098974; 4]%Z.
Proof.
  intro entry.
  destruct (mintOnStarknet_submits_polled_payloads scripted_net
              always_confirmed "0x04db" entry
              [x00; x00; x00; x01] [x5c; xa1; xab; x1e] fresh_world
              eq_refl eq_refl) as (HB & _).
  split; [exact HB | reflexivity].
Defined.

(** ** Runs of the Base -> Starknet pipeline *)

(** The padded recipient of the Base -> Starknet script measures 32 bytes
    exactly when the address has at most 64 characters after its prefix. *)
Lemma toBytes32_size (hex : string) :
  ViemAbi.size (BaseToStarknet.toBytes32 hex) = 32
  <-> String.length (digits_of hex) <= 64.
Proof.
  rewrite toBytes32_unfold. unfold ViemAbi.size.
  cbn [JS.startsWith]. rewrite !Ascii.eqb_refl. cbn [andb String.length].
  rewrite padStart_length.
  pose proof (Nat.div_mod_eq
                (S (S (Nat.max 64 (String.length (digits_of hex)))) - 1) 2)
    as Hdiv.
  pose proof (Nat.mod_upper_bound
                (S (S (Nat.max 64 (String.length (digits_of hex)))) - 1) 2)
    as Hmod.
  lia.
Qed.

(** X14: when the recipient has at most 64 characters after its prefix,
    the three transactions are accepted and confirmed and the first ready
    reply, the (k+1)-th, has an entry whose message and attestation are
    0x-prefixed hex, [main] of transfer-base-to-starknet.js returns after
    exactly three submissions: the approval, the burn of 10000 for domain
    25 to the padded recipient, and [receive_message] with calldata that
    reads back as the polled message and attestation bytes. *)
Theorem starknet_main_completes
    (net : Net) (waitForTransaction : string -> result unit)
    (account_address DESTINATION_STARKNET_ADDRESS : string)
    (fuel k : nat) (w : World) (approveTx burnTx mintTx : string)
    (data : json) (messageBytes attestationBytes : list byte) :
  String.length (digits_of DESTINATION_STARKNET_ADDRESS) <= 64 ->
  send_tx net (sends w) = Ok approveTx ->
  send_tx net (S (sends w)) = Ok burnTx ->
  send_tx net (S (S (sends w))) = Ok mintTx ->
  waitForTransaction mintTx = Ok tt ->
  k < fuel ->
  (forall j, j < k -> ready (http_get net (gets w + j)) = false) ->
  http_get net (gets w + k) = Ok data ->
  ready (Ok data) = true ->
  member "message" (Poller.first_message data)
  = JStr (hex_envelope messageBytes) ->
  member "attestation" (Poller.first_message data)
  = JStr (hex_envelope attestationBytes) ->
  exists w',
    BaseToStarknet.main net waitForTransaction account_address
      DESTINATION_STARKNET_ADDRESS fuel w
    = (Done tt, w')
    /\ submissions (trace w')
       = submissions (trace w)
         ++ [approve_call;
             burn_call 10000 25
               (BaseToStarknet.toBytes32 DESTINATION_STARKNET_ADDRESS);
             receive_message_call BaseToStarknet.STARKNET_MESSAGE_TRANSMITTER
               (mint_calldata messageBytes attestationBytes)]
    /\ requests (trace w')
       = requests (trace w) ++ repeat (Poller.url_of "6" burnTx) (k + 1)
    /\ pauses (trace w') = pauses (trace w) ++ repeat 5000%Z k
    /\ exists behind,
         read_byte_array (mint_calldata messageBytes attestationBytes)
         = Some (messageBytes, behind)
         /\ read_byte_array behind = Some (attestationBytes, []).
Proof.
  intros Hdigits H1 H2 H3 Hwait Hk Hbefore Hget Hready Hm Hs.
  apply toBytes32_size in Hdigits.
  destruct (decodeEnvelope_hex_envelope messageBytes) as [HBm _].
  destruct (decodeEnvelope_hex_envelope attestationBytes) as [HBs _].
  unfold BaseToStarknet.main, BaseToStarknet.approveUSDC,
    BaseToStarknet.burnUSDC, BaseToStarknet.DESTINATION_RECIPIENT_BYTES32,
    bind, console_log, sendTransaction, emit.
  cbn [trace gets sends].
  rewrite starknet_approve_data, starknet_burn_data,
    (proj1 (encodeBytesN_32 _) Hdigits).
  cbn [lift ret throw trace gets sends].
  rewrite H1. cbn [lift ret throw trace gets sends].
  rewrite H2. cbn [lift ret throw trace gets sends].
  unfold BaseToStarknet.retrieveAttestation.
  rewrite (retrieveAttestation_returns net _ _ k fuel burnTx _ data)
    by assumption.
  unfold BaseToStarknet.mintOnStarknet.
  rewrite (mintOnStarknet_with_decoded net waitForTransaction
             BaseToStarknet.decodeEnvelope _ _
             (Poller.first_message data) _ _ _ _ _
             Hm Hs HBm HBs).
  cbn [trace gets sends]. rewrite H3, Hwait.
  unfold emit. cbn [trace gets sends].
  eexists. split; [reflexivity|]. observe_trace.
  rewrite repeat_app. cbn [repeat].
  repeat split; try reflexivity.
  apply mint_calldata_reads_back.
Qed.

Lemma starknet_main_completes_witness :
  exists w',
    BaseToStarknet.main (prompt_net [x00; x01] [x5c; xa1]) always_confirmed
      "0xSender" "0x04db" 1 fresh_world
    = (Done tt, w')
    /\ submissions (trace w')
       = [approve_call;
          burn_call 10000 25 (BaseToStarknet.toBytes32 "0x04db");
          receive_message_call BaseToStarknet.STARKNET_MESSAGE_TRANSMITTER
            (mint_calldata [x00; x01] [x5c; xa1])]
    /\ requests (trace w') = [Poller.url_of "6" "0xAA"].
Proof.
  destruct (starknet_main_completes (prompt_net [x00; x01] [x5c; xa1])
              always_confirmed "0xSender" "0x04db" 1 0 fresh_world
              "0x01" "0xAA" "0x03"
              (JObj [("messages", JArr [iris_entry [x00; x01] [x5c; xa1]])])
              [x00; x01] [x5c; xa1]
              (proj1 (Nat.leb_le 4 64) eq_refl)
              eq_refl eq_refl eq_refl eq_refl (Nat.lt_0_succ 0)
              (fun j (Hj : j < 0) =>
                 match Nat.nlt_0_r j Hj with end)
              eq_refl eq_refl eq_refl eq_refl)
    as (w' & Hrun & Hsub & Hreq & _).
  exists w'. split; [exact Hrun|]. split; [exact Hsub | exact Hreq].
Defined.

(** ** Loading the IDL and finding the remote token messenger *)

(** X15: [fetchIdlWithFallback] returns an IDL found on chain without any
    HTTP request; when the on-chain fetch fails or finds nothing it never
    throws that failure but issues exactly one request to the fallback
    URL, returns its body if there is one, throws "Unable to load IDL" on
    an empty body and passes on an HTTP error. *)
Theorem fetchIdlWithFallback_prefers_chain
    (net : Net) (fetchIdl : string -> result json)
    (programId url : string) (w : World) :
  let run :=
    SolanaToStarknet.fetchIdlWithFallback net fetchIdl programId url w in
  let on_chain :=
    match fetchIdl programId with
    | Ok idl => if truthy idl then Some idl else None
    | Throw _ => None
    end in
  fst run
  = match on_chain with
    | Some idl => Done idl
    | None =>
        match http_get net (gets w) with
        | Ok data =>
            if truthy data then Done data
            else Threw (Error ("Unable to load IDL for " ++ programId
                               ++ " from " ++ url))
        | Throw e => Threw e
        end
    end
  /\ requests (trace (snd run))
     = requests (trace w)
       ++ match on_chain with Some _ => [] | None => [url] end
  /\ gets (snd run)
     = gets w + match on_chain with Some _ => 0 | None => 1 end.
Proof.
  intros run on_chain. subst run on_chain.
  unfold SolanaToStarknet.fetchIdlWithFallback, try_catch, bind, console_log,
    axios_get, emit.
  destruct (fetchIdl programId) as [idl|err];
    cbn [lift ret throw trace gets sends].
  - destruct (truthy idl); cbn [ret fst snd trace gets sends].
    + observe_trace. repeat split. lia.
    + destruct (http_get net (gets w)) as [data|e]; cbn [lift ret throw];
        [destruct (truthy data)|]; unfold ret, throw; observe_trace;
        repeat split; lia.
  - destruct (http_get net (gets w)) as [data|e]; cbn [lift ret throw];
      [destruct (truthy data)|]; unfold ret, throw; observe_trace;
      repeat split; lia.
Qed.

Section RemoteMessengerFacts.

Variable SOLANA_RPC : string.
Variable discriminator : list byte.
Variable getProgramAccounts :
  string -> list (nat * list byte) -> result (list (string * list byte)).
Variable coder_decode : list byte -> result json.

Lemma try_candidate_run (filters : list (nat * list byte)) (conn : string)
    (t : list RpcEvent) :
  exists t',
    SolanaToStarknet.try_candidate getProgramAccounts coder_decode filters
      conn t
    = (Done (candidate_answer getProgramAccounts coder_decode filters conn),
       t')
    /\ queried t' = queried t ++ [conn].
Proof.
  unfold SolanaToStarknet.try_candidate, try_catch, bind,
    rpc_getProgramAccounts, rpc_log, candidate_answer, queried.
  destruct (getProgramAccounts conn filters) as [[|[pubkey data] more]|err];
    cbn [lift ret throw].
  - eexists. split; [reflexivity|]. rewrite flat_map_app. reflexivity.
  - destruct (coder_decode data) as [decoded|err]; cbn [lift ret throw];
      eexists; (split; [reflexivity|]); rewrite !flat_map_app;
      cbn [flat_map app]; rewrite ?app_nil_r; reflexivity.
  - eexists. split; [reflexivity|]. rewrite !flat_map_app.
    cbn [flat_map app]. rewrite ?app_nil_r. reflexivity.
Qed.

(** X16: for a domain that fits 32 bits,
    [getRemoteTokenMessengerAccount] asks the configured endpoint first
    and the public devnet endpoint second, and only if the first one gave
    nothing and is not devnet itself; a failing query and an account that
    does not decode are passed over, never thrown; it returns the first
    listed account of the first endpoint that gives one, and throws "not
    found" when none does. *)
Theorem getRemoteTokenMessengerAccount_falls_back (domain : Z)
    (t : list RpcEvent) :
  (0 <= domain < 2 ^ 32)%Z ->
  let run :=
    SolanaToStarknet.getRemoteTokenMessengerAccount SOLANA_RPC discriminator
      getProgramAccounts coder_decode domain t in
  let not_found :=
    Error ("RemoteTokenMessenger account for domain " ++ string_of_Z domain
           ++ " not found. Ensure destination domain is registered on Solana.") in
  exists domainBytes,
    SolanaToStarknet.u32ToLeBuffer domain = Ok domainBytes
    /\ let ask :=
         candidate_answer getProgramAccounts coder_decode
           (SolanaToStarknet.remote_messenger_filters discriminator
              domainBytes) in
       fst run
       = match ask SOLANA_RPC with
         | Some found => Done found
         | None =>
             if (SOLANA_RPC =? SolanaToStarknet.DEVNET)%string
             then Threw not_found
             else match ask SolanaToStarknet.DEVNET with
                  | Some found => Done found
                  | None => Threw not_found
                  end
         end
       /\ queried (snd run)
          = queried t
            ++ SOLANA_RPC
               :: match ask SOLANA_RPC with
                  | Some _ => []
                  | None =>
                      if (SOLANA_RPC =? SolanaToStarknet.DEVNET)%string
                      then []
                      else [SolanaToStarknet.DEVNET]
                  end.
Proof.
  intros Hdomain run not_found. subst run not_found.
  assert (Hbytes : exists domainBytes,
            SolanaToStarknet.u32ToLeBuffer domain = Ok domainBytes).
  { unfold SolanaToStarknet.u32ToLeBuffer.
    destruct (Z.ltb_spec domain 0); [lia|].
    destruct (Z.ltb_spec 4294967295 domain); [lia|].
    eexists. reflexivity. }
  destruct Hbytes as [domainBytes Hbytes]. exists domainBytes.
  split; [exact Hbytes|]. intro ask.
  unfold SolanaToStarknet.getRemoteTokenMessengerAccount, bind.
  rewrite Hbytes. cbn [lift ret].
  set (filters := SolanaToStarknet.remote_messenger_filters discriminator
                    domainBytes) in *.
  cbn [SolanaToStarknet.for_candidates]. unfold bind.
  destruct (try_candidate_run filters SOLANA_RPC t) as (t1 & Hrun1 & Hq1).
  rewrite Hrun1. fold ask.
  destruct (ask SOLANA_RPC) as [found|] eqn:Hask1; cbn [ret fst snd].
  { split; [reflexivity | exact Hq1]. }
  destruct (SOLANA_RPC =? SolanaToStarknet.DEVNET)%string;
    cbn [SolanaToStarknet.for_candidates ret throw fst snd].
  { split; [reflexivity | exact Hq1]. }
  unfold bind.
  destruct (try_candidate_run filters SolanaToStarknet.DEVNET t1)
    as (t2 & Hrun2 & Hq2).
  rewrite Hrun2. fold ask.
  destruct (ask SolanaToStarknet.DEVNET) as [found|];
    cbn [ret throw fst snd]; rewrite Hq2, Hq1, <- app_assoc;
    split; reflexivity.
Qed.

End RemoteMessengerFacts.

Lemma getRemoteTokenMessengerAccount_falls_back_witness :
  fst (SolanaToStarknet.getRemoteTokenMessengerAccount
         "https://my-private-rpc.example" [] restricted_rpc lenient_decode
         25 [])
  = Done ("RemoteMessenger25", JObj [("domain", JNum 25)])
  /\ queried
       (snd (SolanaToStarknet.getRemoteTokenMessengerAccount
               "https://my-private-rpc.example" [] restricted_rpc
               lenient_decode 25 []))
     = ["https://my-private-rpc.example"; SolanaToStarknet.DEVNET].
Proof.
  destruct (getRemoteTokenMessengerAccount_falls_back
              "https://my-private-rpc.example" [] restricted_rpc
              lenient_decode 25 [] ltac:(lia))
    as (domainBytes & Hbytes & Hrun & Hq).
  injection Hbytes as <-.
  split; [exact Hrun | exact Hq].
Defined.

(** ** The account list of the burn instruction *)

Lemma own_property_of_key {K : Type} (obj : list (string * K))
    (name : string) :
  In name (map fst obj) -> exists k, own_property obj name = Some k.
Proof.
  induction obj as [|[key k] more IH]; intro H; [destruct H|].
  cbn [own_property]. destruct (String.eqb_spec key name) as [_|Hne].
  - eauto.
  - destruct H as [H|H]; [contradiction | exact (IH H)].
Qed.

Section BurnAccountFacts.

Variable K : Type.
Variables wallet_publicKey eventAuthority authorityPda userTokenAccount
  denylistAccount messageTransmitterAccount tokenMessengerAccount
  remoteTokenMessenger tokenMinterAccount localToken usdcMint
  messageSentEventAccount MESSAGE_TRANSMITTER_V2_ID
  TOKEN_MESSENGER_MINTER_V2_ID TOKEN_PROGRAM_ID SystemProgram_programId : K.

Let amap : list (string * K) :=
  SolanaToStarknet.accountMap K wallet_publicKey eventAuthority authorityPda
    userTokenAccount denylistAccount messageTransmitterAccount
    tokenMessengerAccount remoteTokenMessenger tokenMinterAccount localToken
    usdcMint messageSentEventAccount MESSAGE_TRANSMITTER_V2_ID
    TOKEN_MESSENGER_MINTER_V2_ID TOKEN_PROGRAM_ID SystemProgram_programId.

Let key_of : SolanaToStarknet.IdlAccount
             -> result (SolanaToStarknet.AccountMeta K) :=
  SolanaToStarknet.account_key K wallet_publicKey eventAuthority authorityPda
    userTokenAccount denylistAccount messageTransmitterAccount
    tokenMessengerAccount remoteTokenMessenger tokenMinterAccount localToken
    usdcMint messageSentEventAccount MESSAGE_TRANSMITTER_V2_ID
    TOKEN_MESSENGER_MINTER_V2_ID TOKEN_PROGRAM_ID SystemProgram_programId.

Let keys_of : list SolanaToStarknet.IdlAccount
              -> result (list (SolanaToStarknet.AccountMeta K)) :=
  SolanaToStarknet.account_keys K wallet_publicKey eventAuthority authorityPda
    userTokenAccount denylistAccount messageTransmitterAccount
    tokenMessengerAccount remoteTokenMessenger tokenMinterAccount localToken
    usdcMint messageSentEventAccount MESSAGE_TRANSMITTER_V2_ID
    TOKEN_MESSENGER_MINTER_V2_ID TOKEN_PROGRAM_ID SystemProgram_programId.

Lemma account_key_mapped (acct : SolanaToStarknet.IdlAccount) :
  In (SolanaToStarknet.acct_name acct) (map fst amap) ->
  exists k,
    own_property amap (SolanaToStarknet.acct_name acct) = Some k
    /\ key_of acct
       = Ok {| SolanaToStarknet.pubkey := Own k;
               SolanaToStarknet.isWritable :=
                 coalesce (coalesce (SolanaToStarknet.acct_isMut acct)
                             (SolanaToStarknet.acct_writable acct))
                   (JBool false);
               SolanaToStarknet.isSigner :=
                 coalesce (coalesce (SolanaToStarknet.acct_isSigner acct)
                             (SolanaToStarknet.acct_signer acct))
                   (JBool false) |}.
Proof.
  intro H. destruct (own_property_of_key amap _ H) as [k Hk].
  exists k. split; [exact Hk|].
  unfold key_of, SolanaToStarknet.account_key, getProperty.
  fold amap. rewrite Hk. reflexivity.
Qed.

(** X17: the account list handed to the burn instruction follows the
    IDL: when every account the IDL names has a mapping, there is one
    entry per IDL account, in the IDL's order, holding the mapped key and
    the writable and signer flags read from either IDL dialect (isMut or
    writable, isSigner or signer, false when neither is given); the first
    name without a mapping throws "Missing account mapping" for that name;
    a name inherited from Object.prototype is not reported. *)
Theorem account_keys_follow_idl :
  (forall accounts,
      Forall (fun a => In (SolanaToStarknet.acct_name a) (map fst amap))
        accounts ->
      exists metas,
        keys_of accounts = Ok metas
        /\ Forall2
             (fun a meta =>
                (exists k,
                    own_property amap (SolanaToStarknet.acct_name a) = Some k
                    /\ SolanaToStarknet.pubkey meta = Own k)
                /\ SolanaToStarknet.isWritable meta
                   = coalesce (coalesce (SolanaToStarknet.acct_isMut a)
                                 (SolanaToStarknet.acct_writable a))
                       (JBool false)
                /\ SolanaToStarknet.isSigner meta
                   = coalesce (coalesce (SolanaToStarknet.acct_isSigner a)
                                 (SolanaToStarknet.acct_signer a))
                       (JBool false))
             accounts metas)
  /\ (forall before acct behind,
        Forall (fun a => In (SolanaToStarknet.acct_name a) (map fst amap))
          before ->
        getProperty amap (SolanaToStarknet.acct_name acct) = Absent ->
        keys_of (before ++ acct :: behind)
        = Throw (Error ("Missing account mapping for "
                        ++ SolanaToStarknet.acct_name acct)))
  /\ (forall acct,
        In (SolanaToStarknet.acct_name acct) objectPrototypeMembers ->
        exists meta,
          key_of acct = Ok meta
          /\ SolanaToStarknet.pubkey meta
             = Inherited (SolanaToStarknet.acct_name acct)).
Proof.
  split; [|split].
  - induction accounts as [|a more IH]; intro Hall.
    + exists []. split; [reflexivity | constructor].
    + inversion Hall as [|? ? Ha Hmore]; subst.
      destruct (account_key_mapped a Ha) as (k & Hk & Hkey).
      destruct (IH Hmore) as (metas & Hkeys & Hrel).
      unfold keys_of in *. cbn [SolanaToStarknet.account_keys].
      fold key_of. rewrite Hkey, Hkeys.
      eexists. split; [reflexivity|].
      constructor; [|exact Hrel].
      cbn. split; [eauto | split; reflexivity].
  - induction before as [|a more IH]; intros acct behind Hall Habsent.
    + unfold keys_of. cbn [app SolanaToStarknet.account_keys].
      unfold SolanaToStarknet.account_key. fold amap.
      rewrite Habsent. reflexivity.
    + inversion Hall as [|? ? Ha Hmore]; subst.
      destruct (account_key_mapped a Ha) as (k & _ & Hkey).
      specialize (IH acct behind Hmore Habsent).
      unfold keys_of in *. cbn [app SolanaToStarknet.account_keys].
      fold key_of. rewrite Hkey, IH. reflexivity.
  - intros acct Hin.
    unfold key_of, SolanaToStarknet.account_key. fold amap.
    cbn in Hin.
    repeat (destruct Hin as [<- | Hin];
            [eexists; split; reflexivity|]).
    destruct Hin.
Qed.

End BurnAccountFacts.
